(** * server2 / server3: session store, quiz engine, fuzzy corrector, index build

    A shallow embedding of the orchestration code of [server2.py] and
    [server3.py].  Python objects that are mutated in place (the session
    table, a session's quizzes, the process-wide vector store) live in an
    explicit world that every operation threads; a raised exception leaves the
    world as it was at the raise.  External collaborators (the wall clock,
    [uuid.uuid4], the language-model chains, PDF extraction, the text splitter,
    FAISS) are fields of an environment record.  A name that a module uses
    without binding it raises [NameError] where it is evaluated. *)

From Stdlib Require Import ZArith Lia List Ascii String Bool.
From stdpp Require Import gmap strings pretty list fin_maps.

Local Open Scope string_scope.
Local Open Scope list_scope.

(** ** Python strings

    A Python [str] is embedded as a Rocq [string]; a character stands for the
    code point of the same number, so the embedding covers the code points
    below 256. *)

Module Py.

Definition ord (c : ascii) : N := N_of_ascii c.

(** [str.isspace] on one character: TAB..CR, FS..US, SPACE, NEL, NBSP. *)
Definition isspace (c : ascii) : bool :=
  let n := ord c in
  (((9 <=? n) && (n <=? 13)) || ((28 <=? n) && (n <=? 32))
   || (n =? 133) || (n =? 160))%N.

Fixpoint lstrip (s : string) : string :=
  match s with
  | EmptyString => EmptyString
  | String c r => if isspace c then lstrip r else s
  end.

Fixpoint rstrip (s : string) : string :=
  match s with
  | EmptyString => EmptyString
  | String c r =>
      match rstrip r with
      | EmptyString => if isspace c then EmptyString else String c EmptyString
      | r' => String c r'
      end
  end.

(** [s.strip()] *)
Definition strip (s : string) : string := rstrip (lstrip s).

(** [s.split(sep)] for a one-character separator: every occurrence cuts, and
    empty pieces are kept (a text that ends with the separator gives an empty
    last piece). *)
Fixpoint split_on (sep : ascii) (s : string) : list string :=
  match s with
  | EmptyString => [EmptyString]
  | String c r =>
      if Ascii.eqb c sep then EmptyString :: split_on sep r
      else match split_on sep r with
           | w :: ws => String c w :: ws
           | [] => [String c EmptyString]
           end
  end.

(** [s.split()]: the maximal runs of non-whitespace characters. *)
Fixpoint split (s : string) : list string :=
  match s with
  | EmptyString => []
  | String c r =>
      if isspace c then split r
      else match r with
           | EmptyString => [String c EmptyString]
           | String c' _ =>
               if isspace c' then String c EmptyString :: split r
               else match split r with
                    | w :: ws => String c w :: ws
                    | [] => [String c EmptyString]
                    end
           end
  end.

Definition lower_char (c : ascii) : ascii :=
  let n := ord c in
  if (((65 <=? n) && (n <=? 90))
      || ((192 <=? n) && (n <=? 222) && negb (n =? 215)))%N
  then ascii_of_N (n + 32) else c.

(** [s.lower()] *)
Fixpoint lower (s : string) : string :=
  match s with
  | EmptyString => EmptyString
  | String c r => String (lower_char c) (lower r)
  end.

(** Truth value of a [str]: empty is false. *)
Definition truthy (s : string) : bool :=
  match s with EmptyString => false | _ => true end.

Fixpoint mem_char (c : ascii) (chars : string) : bool :=
  match chars with
  | EmptyString => false
  | String d r => Ascii.eqb c d || mem_char c r
  end.

Fixpoint lstrip_chars (chars s : string) : string :=
  match s with
  | EmptyString => EmptyString
  | String c r => if mem_char c chars then lstrip_chars chars r else s
  end.

Fixpoint rstrip_chars (chars s : string) : string :=
  match s with
  | EmptyString => EmptyString
  | String c r =>
      match rstrip_chars chars r with
      | EmptyString =>
          if mem_char c chars then EmptyString else String c EmptyString
      | r' => String c r'
      end
  end.

(** [s.strip(chars)] *)
Definition strip_chars (chars s : string) : string :=
  rstrip_chars chars (lstrip_chars chars s).

(** [s.replace(old, "")] for a non-empty [old]: the occurrences are removed
    from left to right, without overlap.  [skip] counts the characters of an
    occurrence that are still to be dropped. *)
Fixpoint remove_from (old : string) (skip : nat) (s : string) : string :=
  match s with
  | EmptyString => EmptyString
  | String c r =>
      match skip with
      | S k => remove_from old k r
      | O =>
          if String.prefix old s
          then remove_from old (Nat.pred (String.length old)) r
          else String c (remove_from old 0 r)
      end
  end.

Definition remove_all (old s : string) : string := remove_from old 0 s.

Definition is_hex (c : ascii) : bool :=
  let n := ord c in
  (((48 <=? n) && (n <=? 57)) || ((65 <=? n) && (n <=? 70))
   || ((97 <=? n) && (n <=? 102)))%N.

(** The digit part of an [int(s, 16)] literal: hexadecimal digits, single
    underscores only between digits (or straight after the [0x] prefix), at
    least one digit. *)
Fixpoint hex_digits (may_underscore seen_digit : bool) (s : string) : bool :=
  match s with
  | EmptyString => seen_digit
  | String c r =>
      if is_hex c then hex_digits true true r
      else if Ascii.eqb c "_"
           then may_underscore
                && match r with
                   | String c' _ => is_hex c'
                   | EmptyString => false
                   end
                && hex_digits false seen_digit r
           else false
  end.

Definition drop_sign (s : string) : string :=
  match s with
  | String c r => if Ascii.eqb c "+" || Ascii.eqb c "-" then r else s
  | EmptyString => s
  end.

(** The whitespace [int(s, base)] skips around a literal.  The parser skips
    C's [isspace] characters (TAB..CR, SPACE); before it runs, the characters
    from 127 on that are Unicode whitespace (NEL, NBSP) are turned into
    spaces.  FS..US, which [str.strip] removes, are left in place and make
    the literal invalid. *)
Definition int_space (c : ascii) : bool :=
  let n := ord c in
  (((9 <=? n) && (n <=? 13)) || (n =? 32) || (n =? 133) || (n =? 160))%N.

Fixpoint lstrip_by (space : ascii -> bool) (s : string) : string :=
  match s with
  | EmptyString => EmptyString
  | String c r => if space c then lstrip_by space r else s
  end.

Fixpoint rstrip_by (space : ascii -> bool) (s : string) : string :=
  match s with
  | EmptyString => EmptyString
  | String c r =>
      match rstrip_by space r with
      | EmptyString => if space c then EmptyString else String c EmptyString
      | r' => String c r'
      end
  end.

(** [int(s, 16)] does not raise [ValueError]: surrounding whitespace, an
    optional sign, an optional [0x]/[0X] prefix, then the digits. *)
Definition int16_parses (s : string) : bool :=
  match drop_sign (rstrip_by int_space (lstrip_by int_space s)) with
  | String z (String x r) =>
      if Ascii.eqb z "0" && (Ascii.eqb x "x" || Ascii.eqb x "X")
      then hex_digits true false r
      else hex_digits false false (String z (String x r))
  | body => hex_digits false false body
  end.

(** [uuid.UUID(s)] does not raise [ValueError] (the [hex] branch of the
    constructor: drop [urn:] and [uuid:], strip braces, drop hyphens, demand
    32 characters that [int(_, 16)] accepts).  The hyphens are gone before
    the parse, so an accepted value is never negative, and 32 hexadecimal
    digits are below [2^128]. *)
Definition uuid_parses (s : string) : bool :=
  let hex := remove_all "urn:" s in
  let hex := remove_all "uuid:" hex in
  let hex := strip_chars "{}" hex in
  let hex := remove_all "-" hex in
  (String.length hex =? 32)%nat && int16_parses hex.

End Py.

(** ** Exceptions, and the monad of state with exceptions

    A computation takes the world and gives back an outcome with the world it
    left behind; [Raise] keeps the world reached at the raise, as a Python
    exception keeps every mutation done before it. *)

Inductive exn : Type :=
| HTTPException (status_code : Z) (detail : string)
| PyError (class_name message : string).

Inductive outcome (A : Type) : Type :=
| Ret (a : A)
| Raise (e : exn).

Arguments Ret {A} a.
Arguments Raise {A} e.

Definition M (W A : Type) : Type := W -> outcome A * W.

Definition ret {W A} (a : A) : M W A := fun w => (Ret a, w).

Definition raise {W A} (e : exn) : M W A := fun w => (Raise e, w).

Definition bind {W A B} (m : M W A) (k : A -> M W B) : M W B :=
  fun w =>
    match m w with
    | (Ret a, w') => k a w'
    | (Raise e, w') => (Raise e, w')
    end.

Definition get_world {W} : M W W := fun w => (Ret w, w).

Definition modify {W} (f : W -> W) : M W unit := fun w => (Ret tt, f w).

(** The value of an external call enters the computation; its exception is
    raised in it. *)
Definition lift {W A} (o : outcome A) : M W A := fun w => (o, w).

(** [try: body  except Exception: handler] *)
Definition try_except {W A} (body : M W A) (handler : exn -> M W A) : M W A :=
  fun w =>
    match body w with
    | (Ret a, w') => (Ret a, w')
    | (Raise e, w') => handler e w'
    end.

Declare Scope py_scope.
Delimit Scope py_scope with py.
Notation "x <- m ;; k" := (bind m (fun x => k))
  (at level 100, m at next level, right associativity) : py_scope.
Notation "m ;;; k" := (bind m (fun _ => k))
  (at level 100, right associativity) : py_scope.

(** [xs[:n]] for a Python [int] [n]: a negative [n] counts from the end. *)
Definition slice_to {A} (n : Z) (xs : list A) : list A :=
  if (0 <=? n)%Z then take (Z.to_nat n) xs
  else take (length xs - Z.to_nat (- n)) xs.

Definition newline : ascii := ascii_of_nat 10.

Definition py_bool (b : bool) : string := if b then "True" else "False".

(** ** Texts and their lines, in the words of the specification

    These definitions do not come from the code: they say what a line of a
    text is, and what it is for a line to be empty, blank, or trimmed, so
    that what the code computes can be compared with them. *)

Module Lines.

(** The text whose lines are [lines]. *)
Definition join_lines (lines : list string) : string :=
  String.concat (String newline EmptyString) lines.

(** A line holds no newline. *)
Fixpoint newline_free (line : string) : bool :=
  match line with
  | EmptyString => true
  | String c r => negb (Ascii.eqb c newline) && newline_free r
  end.

(** A non-empty line, to the letter: one with a character in it. *)
Definition nonempty (line : string) : bool :=
  match line with EmptyString => false | _ => true end.

(** Nothing but whitespace. *)
Fixpoint all_space (s : string) : bool :=
  match s with
  | EmptyString => true
  | String c r => Py.isspace c && all_space r
  end.

(** A line with a character that is not whitespace. *)
Fixpoint has_content (line : string) : bool :=
  match line with
  | EmptyString => false
  | String c r => negb (Py.isspace c) || has_content r
  end.

(** [text] is [line] without the whitespace around it: whitespace only was
    cut off on either side, and [text] neither starts nor ends with one. *)
Definition trimmed_of (line text : string) : Prop :=
  exists before after : string,
    line = (before ++ text ++ after)%string /\
    all_space before = true /\
    all_space after = true /\
    (forall c r, text = String c r -> Py.isspace c = false) /\
    (forall r c, text = (r ++ String c EmptyString)%string -> Py.isspace c = false).

End Lines.

(** ** server2.py: sessions with a time-to-live, and the quiz endpoints *)

Module Server2.

Local Open Scope py_scope.

(** [class Question(BaseModel)] *)
Record Question := {
  id : string;
  question : string;
  ideal_answer : option string
}.

(** [class QuizAnswer(BaseModel)] *)
Record QuizAnswer := {
  question_id : string;
  user_answer : string
}.

(** The dict stored under [active_quizzes[quiz_id]]. *)
Record Quiz := {
  questions : list Question;
  answers : gmap string string;
  current_question : Z
}.

(** The FAISS index, seen through the texts it was built from. *)
Record Vectorstore := { docs : list string }.

(** One exchange kept by [ConversationBufferMemory]: the human message and
    the model's reply. *)
Definition Turn : Type := string * string.

(** A [ConversationalRetrievalChain]: it holds the retriever's store and a
    reference to the memory object of the session it was built for. *)
Record Chain := {
  retriever : Vectorstore;
  memory_owner : string
}.

(** The dict stored under [sessions[session_id]]; times are microseconds. *)
Record Session := {
  created_at : Z;
  last_accessed : Z;
  chain : option Chain;
  memory : list Turn;
  active_quizzes : gmap string Quiz
}.

(** What the code asks of its surroundings.  The clock and [uuid4] are read
    by position (the n-th reading), the chain by position and arguments. *)
Record Env := {
  now : nat -> Z;
  uuid4 : nat -> string;
  chain_call : nat -> Vectorstore -> list Turn -> string -> outcome string;
  SYSTEM_MESSAGE : string;
  read_pdf : string -> outcome string;
  split_text : string -> list string;
  FAISS_from_texts : list string -> outcome Vectorstore
}.

Record World := {
  sessions : gmap string Session;
  global_vectorstore : option Vectorstore;
  clock_reads : nat;
  uuid_draws : nat;
  chain_calls : nat;
  log : list (string * string)
}.

Definition set_sessions (f : gmap string Session -> gmap string Session)
    (w : World) : World :=
  {| sessions := f (sessions w);
     global_vectorstore := global_vectorstore w;
     clock_reads := clock_reads w;
     uuid_draws := uuid_draws w;
     chain_calls := chain_calls w;
     log := log w |}.

Definition set_global_vectorstore (v : option Vectorstore) (w : World) : World :=
  {| sessions := sessions w;
     global_vectorstore := v;
     clock_reads := clock_reads w;
     uuid_draws := uuid_draws w;
     chain_calls := chain_calls w;
     log := log w |}.

Definition set_last_accessed (t : Z) (s : Session) : Session :=
  {| created_at := created_at s;
     last_accessed := t;
     chain := chain s;
     memory := memory s;
     active_quizzes := active_quizzes s |}.

Definition set_chain (c : option Chain) (s : Session) : Session :=
  {| created_at := created_at s;
     last_accessed := last_accessed s;
     chain := c;
     memory := memory s;
     active_quizzes := active_quizzes s |}.

Definition set_memory (m : list Turn) (s : Session) : Session :=
  {| created_at := created_at s;
     last_accessed := last_accessed s;
     chain := chain s;
     memory := m;
     active_quizzes := active_quizzes s |}.

Definition set_active_quizzes (q : gmap string Quiz) (s : Session) : Session :=
  {| created_at := created_at s;
     last_accessed := last_accessed s;
     chain := chain s;
     memory := memory s;
     active_quizzes := q |}.

(** The contents of the memory object a chain is bound to. *)
Definition chain_memory (c : Chain) (w : World) : list Turn :=
  match sessions w !! memory_owner c with
  | Some s => memory s
  | None => []
  end.

Section Operations.

Variable env : Env.

(** [datetime.now()] *)
Definition datetime_now : M World Z :=
  fun w =>
    (Ret (now env (clock_reads w)),
     {| sessions := sessions w;
        global_vectorstore := global_vectorstore w;
        clock_reads := S (clock_reads w);
        uuid_draws := uuid_draws w;
        chain_calls := chain_calls w;
        log := log w |}).

(** [str(uuid.uuid4())] *)
Definition uuid4_str : M World string :=
  fun w =>
    (Ret (uuid4 env (uuid_draws w)),
     {| sessions := sessions w;
        global_vectorstore := global_vectorstore w;
        clock_reads := clock_reads w;
        uuid_draws := S (uuid_draws w);
        chain_calls := chain_calls w;
        log := log w |}).

(** [logger.info], [logger.error]; [logger.debug] is below the configured
    level and writes nothing. *)
Definition logger (level message : string) : M World unit :=
  fun w =>
    (Ret tt,
     {| sessions := sessions w;
        global_vectorstore := global_vectorstore w;
        clock_reads := clock_reads w;
        uuid_draws := uuid_draws w;
        chain_calls := chain_calls w;
        log := log w ++ [(level, message)] |}).

(** [timedelta(minutes=30)], the default of [SessionManager()]. *)
Definition session_timeout : Z := 30 * 60 * 1000000.

(** The dict object of a session is the entry of the table: reading and
    mutating [session_data] goes through the table under the session's
    key. *)
Definition session_data (sid : string) : M World Session :=
  fun w =>
    match sessions w !! sid with
    | Some s => (Ret s, w)
    | None => (Raise (PyError "KeyError" sid), w)
    end.

Definition update_session (sid : string) (f : Session -> Session) : M World unit :=
  modify (set_sessions (fun m =>
    match m !! sid with
    | Some s => <[sid := f s]> m
    | None => m
    end)).

(** [SessionManager.create_session] *)
Definition SessionManager_create_session : M World string :=
  session_id <- uuid4_str ;;
  created <- datetime_now ;;
  accessed <- datetime_now ;;
  modify (set_sessions (insert session_id
    {| created_at := created;
       last_accessed := accessed;
       chain := None;
       memory := [];
       active_quizzes := empty |})) ;;;
  ret session_id.

(** [SessionManager.get_session] *)
Definition SessionManager_get_session (session_id : string)
    : M World (option Session) :=
  w <- get_world ;;
  match sessions w !! session_id with
  | Some session =>
      t <- datetime_now ;;
      if (t - last_accessed session >? session_timeout)%Z
      then
        modify (set_sessions (delete session_id)) ;;;
        ret None
      else
        t' <- datetime_now ;;
        let session' := set_last_accessed t' session in
        modify (set_sessions (insert session_id session')) ;;;
        ret (Some session')
  | None => ret None
  end.

(** What the [get_session] dependency hands to an endpoint. *)
Record SessionHandle := {
  session_id : string;
  data : option Session
}.

(** [async def get_session(session_id = Depends(API_KEY_HEADER))]: the
    header may be absent ([None]). *)
Definition get_session (header : option string) : M World SessionHandle :=
  sid <- match header with
         | Some s => if Py.truthy s then ret s else SessionManager_create_session
         | None => SessionManager_create_session
         end ;;
  session <- SessionManager_get_session sid ;;
  match session with
  | Some _ => ret {| session_id := sid; data := session |}
  | None =>
      sid' <- SessionManager_create_session ;;
      session' <- SessionManager_get_session sid' ;;
      ret {| session_id := sid'; data := session' |}
  end.

(** [session['data']] used as a dict; on [None] its first use raises
    [otherwise]. *)
Definition the_data (session : SessionHandle) (otherwise : exn) : M World Session :=
  match data session with
  | Some _ => session_data (session_id session)
  | None => raise otherwise
  end.

Definition PDF_PATHS : list string :=
  [ "data/Ilesh Sir (IK) - Words.pdf";
    "data/UBIK SOLUTION.pdf";
    "data/illesh3.pdf";
    "data/website-data-ik.pdf" ].

(** [get_pdf_text]: an unreadable file raises. *)
Definition get_pdf_text (pdf_path : string) : M World string :=
  lift (read_pdf env pdf_path).

(** [get_text_chunks]: langchain's [CharacterTextSplitter.split_text]. *)
Definition get_text_chunks (text : string) : list string :=
  split_text env text.

(** The loop [combined_text += get_pdf_text(path) + " "]. *)
Fixpoint combine_texts (paths : list string) (combined_text : string)
    : M World string :=
  match paths with
  | [] => ret combined_text
  | path :: rest =>
      text <- get_pdf_text path ;;
      combine_texts rest (combined_text ++ (text ++ " "))
  end.

(** [initialize_vectorstore] *)
Definition initialize_vectorstore : M World unit :=
  w <- get_world ;;
  match global_vectorstore w with
  | Some _ => ret tt
  | None =>
      combined_text <- combine_texts PDF_PATHS "" ;;
      let text_chunks := get_text_chunks combined_text in
      store <- lift (FAISS_from_texts env text_chunks) ;;
      modify (set_global_vectorstore (Some store))
  end.

(** [startup_event] *)
Definition startup_event : M World unit := initialize_vectorstore.

(** [create_chain(session_data)], the dict being the one stored under
    [sid]. *)
Definition create_chain (sid : string) : M World unit :=
  w <- get_world ;;
  match global_vectorstore w with
  | None => raise (PyError "Exception" "Vectorstore not initialized")
  | Some store =>
      update_session sid
        (set_chain (Some {| retriever := store; memory_owner := sid |}))
  end.

Definition next_chain_call : M World nat :=
  fun w =>
    (Ret (chain_calls w),
     {| sessions := sessions w;
        global_vectorstore := global_vectorstore w;
        clock_reads := clock_reads w;
        uuid_draws := uuid_draws w;
        chain_calls := S (chain_calls w);
        log := log w |}).

(** [chain({'question': prompt})]: the chain reads the memory it is bound
    to, answers, and saves the exchange in that memory.  The response of a
    [ConversationalRetrievalChain] has an ['answer'] entry, the value
    returned here. *)
Definition call_chain (c : Chain) (prompt : string) : M World string :=
  n <- next_chain_call ;;
  w <- get_world ;;
  let history := chain_memory c w in
  answer <- lift (chain_call env n (retriever c) history prompt) ;;
  update_session (memory_owner c)
    (fun s => set_memory (memory s ++ [(prompt, answer)]) s) ;;;
  ret answer.

(** The loop of [generate_questions] over [question_lines]: one identifier
    is drawn for every line kept. *)
Fixpoint build_questions (question_lines : list string) : M World (list Question) :=
  match question_lines with
  | [] => ret []
  | line :: rest =>
      if Py.truthy line
      then
        question_id <- uuid4_str ;;
        qs <- build_questions rest ;;
        ret ({| id := question_id; question := line; ideal_answer := None |} :: qs)
      else build_questions rest
  end.

(** [[line.strip() for line in answer_text.split('\n') if line.strip()]] *)
Definition question_lines (answer_text : string) : list string :=
  map Py.strip
    (List.filter (fun line => Py.truthy (Py.strip line))
                 (Py.split_on newline answer_text)).

Definition questions_prompt (num_questions : Z) : string :=
  SYSTEM_MESSAGE env ++ String newline (String newline
    ("Generate " ++ pretty num_questions ++
     " questions about Ubik Solutions and their products/services. Make questions that test understanding of key concepts and details.")).

(** [generate_questions(chain, num_questions=5)] *)
Definition generate_questions (c : Chain) (num_questions : Z)
    : M World (list Question) :=
  answer_text <- call_chain c (questions_prompt num_questions) ;;
  qs <- build_questions (question_lines answer_text) ;;
  ret (slice_to num_questions qs).

Record StartQuizResponse := {
  started_session_id : string;
  started_quiz_id : string;
  started_questions : list Question
}.

(** [POST /quiz/start] *)
Definition start_quiz (session : SessionHandle) : M World StartQuizResponse :=
  let sid := session_id session in
  sd <- the_data session
          (PyError "AttributeError" "'NoneType' object has no attribute 'get'") ;;
  match chain sd with
  | Some _ => ret tt
  | None => create_chain sid
  end ;;;
  quiz_id <- uuid4_str ;;
  sd <- session_data sid ;;
  match chain sd with
  | None => raise (PyError "TypeError" "'NoneType' object is not callable")
  | Some c =>
      qs <- generate_questions c 5 ;;
      update_session sid (fun s =>
        set_active_quizzes
          (<[quiz_id := {| questions := qs; answers := empty; current_question := 0 |}]>
             (active_quizzes s)) s) ;;;
      ret {| started_session_id := sid;
             started_quiz_id := quiz_id;
             started_questions := qs |}
  end.

Record SubmitResponse := {
  status : string;
  quiz_complete : bool;
  stored_answer : string
}.

(** [any(q.id == question_id for q in quiz["questions"])] *)
Definition has_question (qid : string) (quiz : Quiz) : bool :=
  existsb (fun q => String.eqb (id q) qid) (questions quiz).

(** [POST /quiz/{quiz_id}/answer/{question_id}] *)
Definition submit_answer (quiz_id question_id : string) (answer : QuizAnswer)
    (session : SessionHandle) : M World SubmitResponse :=
  logger "INFO" ("Received answer - quiz_id: " ++ quiz_id ++ ", question_id: " ++ question_id) ;;;
  if negb (Py.uuid_parses quiz_id && Py.uuid_parses question_id)
  then
    logger "ERROR" ("Invalid UUID format - quiz_id: " ++ quiz_id ++ ", question_id: " ++ question_id) ;;;
    raise (HTTPException 400 "Invalid quiz or question ID format")
  else
    let sid := session_id session in
    sd <- the_data session
            (PyError "TypeError" "'NoneType' object is not subscriptable") ;;
    match active_quizzes sd !! quiz_id with
    | None =>
        logger "ERROR" ("Quiz not found - quiz_id: " ++ quiz_id) ;;;
        raise (HTTPException 404 "Quiz not found")
    | Some quiz =>
        if negb (has_question question_id quiz)
        then
          logger "ERROR" ("Question not found in quiz - question_id: " ++ question_id) ;;;
          raise (HTTPException 404 "Question not found in quiz")
        else
          let quiz' :=
            {| questions := questions quiz;
               answers := <[question_id := user_answer answer]> (answers quiz);
               current_question := current_question quiz + 1 |} in
          update_session sid (fun s =>
            set_active_quizzes (<[quiz_id := quiz']> (active_quizzes s)) s) ;;;
          let complete :=
            (current_question quiz' >=? Z.of_nat (length (questions quiz')))%Z in
          logger "INFO" ("Answer processed - quiz_complete: " ++ py_bool complete) ;;;
          ret {| status := "success";
                 quiz_complete := complete;
                 stored_answer := user_answer answer |}
    end.

End Operations.

(** The questions made of [lines], the identifiers being the draws of
    [uuid4] from position [n] on. *)
Fixpoint numbered (env : Env) (n : nat) (lines : list string) : list Question :=
  match lines with
  | [] => []
  | line :: rest =>
      {| id := uuid4 env n; question := line; ideal_answer := None |}
      :: numbered env (S n) rest
  end.

(** The chain [start_quiz] ends up calling for the session [sd] stored under
    [sid]: the one the session has, or else the one [create_chain] builds
    from the global store. *)
Definition chain_in_use (sid : string) (sd : Session) (w : World) : option Chain :=
  match chain sd with
  | Some c => Some c
  | None =>
      match global_vectorstore w with
      | Some store => Some {| retriever := store; memory_owner := sid |}
      | None => None
      end
  end.

(** The quiz stored under [quiz_id] in the session stored under [sid]. *)
Definition lookup_quiz (sid quiz_id : string) (w : World) : option Quiz :=
  match sessions w !! sid with
  | Some s => active_quizzes s !! quiz_id
  | None => None
  end.

(** One request to [submit_answer]: the two path parameters and the body. *)
Record AnswerCall := {
  to_quiz : string;
  to_question : string;
  body : QuizAnswer
}.

Definition submit (session : SessionHandle) (c : AnswerCall)
    : M World SubmitResponse :=
  submit_answer (to_quiz c) (to_question c) (body c) session.

(** The world after a sequence of requests, each one served in the world the
    one before it left. *)
Fixpoint after_calls (session : SessionHandle) (calls : list AnswerCall)
    (w : World) : World :=
  match calls with
  | [] => w
  | c :: rest => after_calls session rest (snd (submit session c w))
  end.

(** How many requests of the sequence were addressed to [quiz_id] and
    answered with success. *)
Fixpoint accepted_calls (session : SessionHandle) (quiz_id : string)
    (calls : list AnswerCall) (w : World) : nat :=
  match calls with
  | [] => 0
  | c :: rest =>
      let '(r, w') := submit session c w in
      (match r with
       | Ret _ => if String.eqb (to_quiz c) quiz_id then 1 else 0
       | Raise _ => 0
       end + accepted_calls session quiz_id rest w')%nat
  end.

(** ** The rest of the session manager and of the quiz endpoints *)

Section Housekeeping.

Variable env : Env.

(** One request to [POST /quiz/{quiz_id}/answer/{question_id}] as the
    framework serves it: the [get_session] dependency on the [X-Session-ID]
    header first, then the endpoint with the handle the dependency returned. *)
Definition submit_answer_request (header : option string) (c : AnswerCall)
    : M World SubmitResponse :=
  session <- get_session env header ;;
  submit session c.

(** The list [expired_sessions] of [cleanup_expired_sessions]: the keys whose
    session was last accessed more than the timeout before [current_time]. *)
Definition expired_sessions (current_time : Z) (table : gmap string Session)
    : list string :=
  map fst
    (List.filter
       (fun entry => (current_time - last_accessed (snd entry) >? session_timeout)%Z)
       (map_to_list table)).

(** [SessionManager.cleanup_expired_sessions] *)
Definition SessionManager_cleanup_expired_sessions : M World unit :=
  current_time <- datetime_now env ;;
  w <- get_world ;;
  let expired := expired_sessions current_time (sessions w) in
  modify (set_sessions (fun table => foldl (fun t sid => delete sid t) table expired)).

End Housekeeping.

(** What [GET /quiz/{quiz_id}/result] answers: one pair of question text and
    answer per question. *)
Record QuizResult := {
  result_quiz_id : string;
  result_answers : list (string * string);
  total_questions : Z;
  answered_questions : Z
}.

(** The loop of [get_quiz_result] over the questions. *)
Definition evaluated_answers (quiz : Quiz) : list (string * string) :=
  map (fun q => (question q, default "No answer provided" (answers quiz !! id q)))
      (questions quiz).

(** [GET /quiz/{quiz_id}/result] *)
Definition get_quiz_result (quiz_id : string) (session : SessionHandle)
    : M World QuizResult :=
  sd <- the_data session
          (PyError "TypeError" "'NoneType' object is not subscriptable") ;;
  match active_quizzes sd !! quiz_id with
  | None => raise (HTTPException 404 "Quiz not found")
  | Some quiz =>
      match chain sd with
      | Some _ => ret tt
      | None => create_chain (session_id session)
      end ;;;
      ret {| result_quiz_id := quiz_id;
             result_answers := evaluated_answers quiz;
             total_questions := Z.of_nat (length (questions quiz));
             answered_questions := Z.of_nat (size (answers quiz)) |}
  end.

(** Every stored answer is filed under a question of the quiz, and there are
    no more stored answers than the cursor counts. *)
Definition answers_in_step (quiz : Quiz) : Prop :=
  (forall k, is_Some (answers quiz !! k) -> has_question k quiz = true) /\
  (Z.of_nat (size (answers quiz)) <= current_question quiz)%Z.

(** Two worlds with the same quizzes in every session and the same store. *)
Definition same_quizzes (w w' : World) : Prop :=
  (forall sid quiz_id, lookup_quiz sid quiz_id w' = lookup_quiz sid quiz_id w) /\
  global_vectorstore w' = global_vectorstore w.

End Server2.

(** ** server3.py: index build, fuzzy corrector, conversation engine

    [server3.py] uses [LLMChain], [StrOutputParser], [process] and [fuzz]
    and binds none of them: no import, assignment or definition of the module
    gives them a value.  Evaluating one raises [NameError], and the
    statements after it in the function are not reached; they are embedded
    all the same, behind the failing lookup. *)

Module Server3.

Local Open Scope py_scope.

Record Vectorstore := { docs : list string }.

Definition Turn : Type := string * string.

(** The conversation chain of a user: the system message its QA prompt was
    formatted with, the store behind its retriever, and a reference to the
    memory object of the user state it was built for. *)
Record Chain := {
  qa_system_message : string;
  retriever : Vectorstore;
  memory_owner : string
}.

(** The object that line 277 would store under ['semantic_chain']. *)
Inductive SemanticChain : Type := LLMChain.

(** The dict stored under [user_sessions[user_id]].  The keys
    ['fuzzy_corpus'] and ['semantic_chain'] are absent until a chain has been
    created: [None] stands for the missing key. *)
Record UserState := {
  memory : list Turn;
  chain : option Chain;
  history : list (string * string);
  system_message : string;
  fuzzy_corpus : option (list string);
  semantic_chain : option SemanticChain
}.

(** One element of the list built by [process_with_fuzzy_matching]. *)
Record FuzzyEntry := {
  original : string;
  matches : list (string * Z)
}.

(** A line of [app_logs.txt], without its timestamp: written by the
    [logging] module or by [log_event]. *)
Inductive LogLine : Type :=
| Logged (level message : string)
| Event (event_type user_id details : string).

(** What the code asks of its surroundings.  The language-model calls are
    read by position (the n-th call) and arguments. *)
Record Env := {
  read_pdf : string -> outcome string;
  split_text : string -> list string;
  FAISS_from_texts : list string -> outcome Vectorstore;
  similarity_search : Vectorstore -> string -> nat -> list string;
  str_of_matches : list FuzzyEntry -> string;
  semantic_run : nat -> string -> string -> outcome string;
  condense : nat -> list Turn -> string -> outcome string;
  retrieve : nat -> Vectorstore -> string -> outcome (list string);
  generate : nat -> string -> list string -> string -> outcome string;
  forward : nat -> string -> outcome (Z * string)
}.

Record World := {
  user_sessions : gmap string UserState;
  global_vectorstore : option Vectorstore;
  pdf_cache : gmap string string;
  external_calls : nat;
  app_logs : list LogLine
}.

Definition set_user_sessions (f : gmap string UserState -> gmap string UserState)
    (w : World) : World :=
  {| user_sessions := f (user_sessions w);
     global_vectorstore := global_vectorstore w;
     pdf_cache := pdf_cache w;
     external_calls := external_calls w;
     app_logs := app_logs w |}.

Definition set_global_vectorstore (v : option Vectorstore) (w : World) : World :=
  {| user_sessions := user_sessions w;
     global_vectorstore := v;
     pdf_cache := pdf_cache w;
     external_calls := external_calls w;
     app_logs := app_logs w |}.

Definition set_pdf_cache (f : gmap string string -> gmap string string)
    (w : World) : World :=
  {| user_sessions := user_sessions w;
     global_vectorstore := global_vectorstore w;
     pdf_cache := f (pdf_cache w);
     external_calls := external_calls w;
     app_logs := app_logs w |}.

Definition write_log (line : LogLine) : M World unit :=
  modify (fun w =>
    {| user_sessions := user_sessions w;
       global_vectorstore := global_vectorstore w;
       pdf_cache := pdf_cache w;
       external_calls := external_calls w;
       app_logs := app_logs w ++ [line] |}).

(** The position of the next call to an external service. *)
Definition next_call : M World nat :=
  fun w =>
    (Ret (external_calls w),
     {| user_sessions := user_sessions w;
        global_vectorstore := global_vectorstore w;
        pdf_cache := pdf_cache w;
        external_calls := S (external_calls w);
        app_logs := app_logs w |}).

Definition set_memory (m : list Turn) (u : UserState) : UserState :=
  {| memory := m;
     chain := chain u;
     history := history u;
     system_message := system_message u;
     fuzzy_corpus := fuzzy_corpus u;
     semantic_chain := semantic_chain u |}.

Definition set_history (h : list (string * string)) (u : UserState) : UserState :=
  {| memory := memory u;
     chain := chain u;
     history := h;
     system_message := system_message u;
     fuzzy_corpus := fuzzy_corpus u;
     semantic_chain := semantic_chain u |}.

Definition set_fuzzy_corpus (c : option (list string)) (u : UserState) : UserState :=
  {| memory := memory u;
     chain := chain u;
     history := history u;
     system_message := system_message u;
     fuzzy_corpus := c;
     semantic_chain := semantic_chain u |}.

Definition set_chains (c : option Chain) (sc : option SemanticChain)
    (u : UserState) : UserState :=
  {| memory := memory u;
     chain := c;
     history := history u;
     system_message := system_message u;
     fuzzy_corpus := fuzzy_corpus u;
     semantic_chain := sc |}.

Definition update_user (user_id : string) (f : UserState -> UserState) : M World unit :=
  modify (set_user_sessions (fun m =>
    match m !! user_id with
    | Some u => <[user_id := f u]> m
    | None => m
    end)).

(** The evaluation of a global name that [server3.py] never binds. *)
Definition unbound_name {A} (name : string) : M World A :=
  raise (PyError "NameError" ("name '" ++ name ++ "' is not defined")).

(** [str(e)] *)
Definition exn_message (e : exn) : string :=
  match e with
  | HTTPException code detail => pretty code ++ ": " ++ detail
  | PyError _ message => message
  end.

Definition DEFAULT_SYSTEM_MESSAGE : string :=
  "You are a helpful AI assistant with access to knowledge about Ilesh Sir and UBIK Solutions. "
  ++ String newline
  ("Answer questions based on the provided context. If you don't know something or if it's not in the context, "
  ++ String newline
  "say so directly instead of making up information. Your name is ethinext pharma ai, answer mostly under 50 words unless very much required").

Definition logger (level message : string) : M World unit :=
  write_log (Logged level message).

(** [log_event(event_type, details, user_id)] *)
Definition log_event (event_type details user_id : string) : M World unit :=
  write_log (Event event_type user_id details).

(** [get_user_state] *)
Definition get_user_state (user_id : string) : M World UserState :=
  w <- get_world ;;
  match user_sessions w !! user_id with
  | Some u => ret u
  | None =>
      let u := {| memory := [];
                  chain := None;
                  history := [];
                  system_message := DEFAULT_SYSTEM_MESSAGE;
                  fuzzy_corpus := None;
                  semantic_chain := None |} in
      modify (set_user_sessions (insert user_id u)) ;;;
      log_event "UserJoined" "New user state created." user_id ;;;
      ret u
  end.

Section Operations.

Variable env : Env.

(** [get_pdf_text], under [lru_cache]: the first result for a path is the
    result for good, the empty text of an unreadable file included. *)
Definition get_pdf_text (pdf_path : string) : M World string :=
  w <- get_world ;;
  match pdf_cache w !! pdf_path with
  | Some text => ret text
  | None =>
      text <- match read_pdf env pdf_path with
              | Ret text => ret text
              | Raise e =>
                  logger "ERROR" ("Error reading " ++ pdf_path ++ ": " ++ exn_message e) ;;;
                  ret ""
              end ;;
      modify (set_pdf_cache (insert pdf_path text)) ;;;
      ret text
  end.

Definition get_text_chunks (text : string) : list string :=
  split_text env text.

Definition pdf_paths : list string :=
  [ "data/Ilesh Sir (IK) - Words.pdf";
    "data/UBIK SOLUTION.pdf";
    "data/illesh3.pdf";
    "data/website-data-ik.pdf" ].

Fixpoint combine_texts (paths : list string) (combined_text : string)
    : M World string :=
  match paths with
  | [] => ret combined_text
  | path :: rest =>
      text <- get_pdf_text path ;;
      combine_texts rest (combined_text ++ (text ++ " "))
  end.

(** [initialize_global_vectorstore]; the lock it holds is released on
    every way out and excludes nothing in a sequential run. *)
Definition initialize_global_vectorstore : M World (bool * string) :=
  w <- get_world ;;
  match global_vectorstore w with
  | Some _ => ret (true, "[SYSTEM MESSAGE] Vectorstore is already initialized.")
  | None =>
      combined_text <- combine_texts pdf_paths "" ;;
      if negb (Py.truthy (Py.strip combined_text))
      then ret (false, "No text could be extracted from the PDFs.")
      else
        let text_chunks := get_text_chunks combined_text in
        store <- lift (FAISS_from_texts env text_chunks) ;;
        modify (set_global_vectorstore (Some store)) ;;;
        logger "INFO" "Vectorstore has been created." ;;;
        ret (true, "[SYSTEM MESSAGE] Vectorstore was created successfully.")
  end.

(** [startup_event] *)
Definition startup_event : M World unit :=
  r <- initialize_global_vectorstore ;;
  let '(success, message) := r in
  if negb success
  then logger "ERROR" ("Failed to initialize vectorstore: " ++ message)
  else logger "INFO" "Vectorstore initialized successfully on startup".

(** [get_fuzzy_matches(word, word_list, threshold=80)]: the call
    [process.extractBests(word, word_list, scorer=fuzz.ratio, ...)] starts by
    evaluating [process], which is not bound. *)
Definition get_fuzzy_matches (word : string) (word_list : list string)
    (threshold : Z) : M World (list (string * Z)) :=
  unbound_name "process".

(** The loop of [process_with_fuzzy_matching], [fuzzy_matches] being the
    list appended to. *)
Fixpoint collect_matches (words : list string) (fuzzy_corpus : list string)
    (fuzzy_matches : list FuzzyEntry) : M World (list FuzzyEntry) :=
  match words with
  | [] => ret fuzzy_matches
  | word :: rest =>
      found <- get_fuzzy_matches word fuzzy_corpus 80 ;;
      collect_matches rest fuzzy_corpus
        match found with
        | (best, _) :: _ =>
            if negb (String.eqb best word)
            then fuzzy_matches ++ [{| original := word; matches := found |}]
            else fuzzy_matches
        | [] => fuzzy_matches
        end
  end.

(** [process_with_fuzzy_matching] *)
Definition process_with_fuzzy_matching (question : string)
    (fuzzy_corpus : list string) : M World (string * list FuzzyEntry) :=
  let words := Py.split (Py.lower question) in
  fuzzy_matches <- collect_matches words fuzzy_corpus [] ;;
  ret (question, fuzzy_matches).

(** [create_fuzzy_corpus]; the order of [list(word_set)] is whatever the
    set gives. *)
Definition create_fuzzy_corpus (vectorstore : Vectorstore) : list string :=
  let all_docs := similarity_search env vectorstore "" 1000 in
  let word_set : gset string :=
    list_to_set (flat_map (fun doc => Py.split (Py.lower doc)) all_docs) in
  elements word_set.

(** [create_or_refresh_user_chain].  With an index and no chain, the
    vocabulary is stored (line 186) and then [LLMChain(...)] is called (line
    214): the name is not bound, so the chains are never stored. *)
Definition create_or_refresh_user_chain (user_id : string)
    : M World (bool * string) :=
  user_state <- get_user_state user_id ;;
  match chain user_state with
  | None =>
      w <- get_world ;;
      match global_vectorstore w with
      | None => ret (false, "Global vectorstore is not initialized.")
      | Some store =>
          update_user user_id
            (set_fuzzy_corpus (Some (create_fuzzy_corpus store))) ;;;
          semantic_chain <- unbound_name "LLMChain" ;;
          update_user user_id (fun u =>
            set_chains
              (Some {| qa_system_message := system_message u;
                       retriever := store;
                       memory_owner := user_id |})
              (Some semantic_chain) u) ;;;
          logger "INFO" ("New conversation chain created for user " ++ user_id
                         ++ " with fuzzy matching and semantic understanding") ;;;
          ret (true, "Enhanced conversation chain created successfully.")
      end
  | Some _ => ret (true, "Conversation chain already exists and is ready to use.")
  end.

(** [conversation_chain({'question': q})], a langchain
    [ConversationalRetrievalChain]: with a non-empty chat history the
    question is first condensed into a standalone question; the documents
    are retrieved for it; the answer is generated from them; the exchange
    is then saved in the memory the chain is bound to.  A stage that raises
    ends the call before the memory is written. *)
Definition call_conversation_chain (c : Chain) (question : string)
    : M World string :=
  n <- next_call ;;
  w <- get_world ;;
  let chat_history :=
    match user_sessions w !! memory_owner c with
    | Some u => memory u
    | None => []
    end in
  new_question <- match chat_history with
                  | [] => ret question
                  | _ => lift (condense env n chat_history question)
                  end ;;
  documents <- lift (retrieve env n (retriever c) new_question) ;;
  answer <- lift (generate env n (qa_system_message c) documents new_question) ;;
  update_user (memory_owner c)
    (fun u => set_memory (memory u ++ [(question, answer)]) u) ;;;
  ret answer.

(** [semantic_chain.run(question=..., fuzzy_matches=...)] *)
Definition run_semantic_chain (question fuzzy_matches_str : string)
    : M World string :=
  n <- next_call ;;
  lift (semantic_run env n question fuzzy_matches_str).

(** The body of the [try] of [handle_userinput]. *)
Definition corrected_turn (c : Chain) (fuzzy_corpus : list string)
    (user_question user_id : string) : M World (option string) :=
  r <- process_with_fuzzy_matching user_question fuzzy_corpus ;;
  let '(_, fuzzy_matches) := r in
  let fuzzy_matches_str :=
    match fuzzy_matches with
    | [] => "No similar terms found"
    | _ => str_of_matches env fuzzy_matches
    end in
  processed_question <- run_semantic_chain user_question fuzzy_matches_str ;;
  log_event "QuestionProcessing"
    ("Original: " ++ user_question ++ " | Fuzzy Matches: " ++ fuzzy_matches_str
     ++ " | Processed: " ++ processed_question) user_id ;;;
  answer <- call_conversation_chain c processed_question ;;
  update_user user_id
    (fun u => set_history (history u ++ [(user_question, answer)]) u) ;;;
  log_event "UserQuestion" ("Q: " ++ user_question) user_id ;;;
  log_event "AIAnswer" ("A: " ++ answer) user_id ;;;
  ret (Some answer).

(** The [except Exception] branch of [handle_userinput]. *)
Definition raw_turn (c : Chain) (user_question : string) (e : exn)
    : M World (option string) :=
  logger "ERROR" ("Error processing question: " ++ exn_message e) ;;;
  answer <- call_conversation_chain c user_question ;;
  ret (Some answer).

(** [handle_userinput]: [Some text] is [{'text': text}]. *)
Definition handle_userinput (user_question user_id : string)
    : M World (option string) :=
  user_state <- get_user_state user_id ;;
  match semantic_chain user_state with
  | None => raise (PyError "KeyError" "'semantic_chain'")
  | Some _ =>
      match chain user_state with
      | None => ret None
      | Some conversation_chain =>
          try_except
            (corrected_turn conversation_chain
               (default [] (fuzzy_corpus user_state)) user_question user_id)
            (raw_turn conversation_chain user_question)
      end
  end.

(** What [POST /ask] answers. *)
Inductive AskResponse : Type :=
| AskBadRequest (error : string)
| AskError (message : string)
| AskSuccess (answer_text prompt_question forwarding_status : string).

(** The forwarding of an answer, failures swallowed. *)
Definition forward_answer (text : string) : M World string :=
  try_except
    (n <- next_call ;;
     response <- lift (forward env n text) ;;
     let '(status_code, body) := response in
     if (status_code =? 200)%Z
     then logger "INFO" "Response forwarding success" ;;; ret "success"
     else logger "ERROR" ("Forward request failed with status "
                          ++ pretty status_code ++ ": " ++ body) ;;;
          ret "failed")
    (fun e =>
       logger "ERROR" ("Error forwarding response: " ++ exn_message e) ;;;
       ret "failed").

(** [POST /ask]; the payload is the parsed JSON object, [None] when the
    body is not JSON. *)
Definition ask_question (payload : option (gmap string string))
    : M World AskResponse :=
  match payload with
  | None => ret (AskBadRequest "Invalid JSON payload.")
  | Some data =>
      match data !! "user_id", data !! "question" with
      | Some user_id, Some user_question =>
          w <- get_world ;;
          match user_sessions w !! user_id with
          | Some u =>
              match chain u with
              | None => create_or_refresh_user_chain user_id ;;; ret tt
              | Some _ => ret tt
              end
          | None => create_or_refresh_user_chain user_id ;;; ret tt
          end ;;;
          answer <- handle_userinput user_question user_id ;;
          match answer with
          | None =>
              ret (AskError "No conversation chain or unable to handle question.")
          | Some text =>
              forwarding_status <- forward_answer text ;;
              ret (AskSuccess text user_question forwarding_status)
          end
      | _, _ => ret (AskBadRequest "Missing user_id or question.")
      end
  end.


End Operations.

(** ** The remaining endpoints of server3.py

    A request body is the parsed JSON object, [None] when the body is not
    JSON; the values of the fields read here are taken to be strings. *)

Definition set_chain (c : option Chain) (u : UserState) : UserState :=
  {| memory := memory u;
     chain := c;
     history := history u;
     system_message := system_message u;
     fuzzy_corpus := fuzzy_corpus u;
     semantic_chain := semantic_chain u |}.

Definition set_system_message_of (m : string) (u : UserState) : UserState :=
  {| memory := memory u;
     chain := chain u;
     history := history u;
     system_message := m;
     fuzzy_corpus := fuzzy_corpus u;
     semantic_chain := semantic_chain u |}.

(** What these endpoints answer: a [JSONResponse] with status 400, a dict
    with ["status"] and ["message"], or a dict with ["status"] and
    ["system_message"]. *)
Inductive Reply : Type :=
| BadRequest (error : string)
| StatusMessage (status message : string)
| SystemMessage (status current_message : string).

Section Endpoints.

Variable env : Env.

(** [POST /refresh_chain]; a body that is not JSON raises. *)
Definition refresh_chain (payload : option (gmap string string)) : M World Reply :=
  match payload with
  | None => raise (PyError "JSONDecodeError" "Expecting value")
  | Some data =>
      match data !! "user_id" with
      | None => ret (BadRequest "Missing user_id.")
      | Some user_id =>
          r <- create_or_refresh_user_chain env user_id ;;
          let '(success, message) := r in
          ret (StatusMessage (if success then "success" else "error") message)
      end
  end.

(** [POST /set_system_message] *)
Definition set_system_message (payload : option (gmap string string))
    : M World Reply :=
  match payload with
  | None => ret (BadRequest "Invalid JSON.")
  | Some data =>
      let user_id := default "" (data !! "user_id") in
      let new_message := default "" (data !! "system_message") in
      if negb (Py.truthy user_id) || negb (Py.truthy new_message)
      then ret (BadRequest "Missing user_id or system_message.")
      else
        get_user_state user_id ;;;
        update_user user_id (set_system_message_of new_message) ;;;
        update_user user_id (set_chain None) ;;;
        r <- create_or_refresh_user_chain env user_id ;;
        let '(success, message) := r in
        log_event "SystemMessageUpdated"
          ("System message updated to: " ++ new_message) user_id ;;;
        ret (StatusMessage (if success then "success" else "error")
               ("System message updated. " ++ message))
  end.

(** [GET /get_system_message?user_id=...] *)
Definition get_system_message (user_id : string) : M World Reply :=
  if negb (Py.truthy user_id)
  then ret (BadRequest "Missing user_id.")
  else
    user_state <- get_user_state user_id ;;
    ret (SystemMessage "success" (system_message user_state)).

(** [POST /clear_history] *)
Definition clear_history (payload : option (gmap string string)) : M World Reply :=
  match payload with
  | None => ret (BadRequest "Invalid JSON.")
  | Some data =>
      let user_id := default "" (data !! "user_id") in
      if negb (Py.truthy user_id)
      then ret (BadRequest "Missing user_id.")
      else
        w <- get_world ;;
        match user_sessions w !! user_id with
        | Some _ =>
            update_user user_id (set_memory []) ;;;
            update_user user_id (set_history []) ;;;
            update_user user_id (set_chain None) ;;;
            log_event "HistoryCleared" "User cleared their chat history." user_id ;;;
            ret (StatusMessage "success" "Chat history cleared.")
        | None => ret (StatusMessage "error" "No user session found to clear.")
        end
  end.

(** [POST /logout] *)
Definition logout (payload : option (gmap string string)) : M World Reply :=
  match payload with
  | None => ret (BadRequest "Invalid JSON.")
  | Some data =>
      let user_id := default "" (data !! "user_id") in
      if negb (Py.truthy user_id)
      then ret (BadRequest "Missing user_id.")
      else
        modify (set_user_sessions (delete user_id)) ;;;
        ret (StatusMessage "success" "User session cleared.")
  end.

End Endpoints.

(** The state [get_user_state] gives a user it has not seen. *)
Definition new_user_state : UserState :=
  {| memory := [];
     chain := None;
     history := [];
     system_message := DEFAULT_SYSTEM_MESSAGE;
     fuzzy_corpus := None;
     semantic_chain := None |}.

(** The text [get_pdf_text] gives for a path in a world: the cached one, or
    what the reader gives, the empty text when the reader raises. *)
Definition document_text (env : Env) (w : World) (path : string) : string :=
  match pdf_cache w !! path with
  | Some text => text
  | None =>
      match read_pdf env path with
      | Ret text => text
      | Raise _ => EmptyString
      end
  end.

(** ** The worlds the server reaches

    The module starts with an empty table, no index and nothing cached.
    Every statement of [server3.py] that reads or writes the table or the
    index lies in start-up or in one of the six endpoints below. *)

Definition initial_world : World :=
  {| user_sessions := empty;
     global_vectorstore := None;
     pdf_cache := empty;
     external_calls := 0;
     app_logs := [] |}.

Inductive Request : Type :=
| StartUp
| RefreshChain (payload : option (gmap string string))
| Ask (payload : option (gmap string string))
| SetSystemMessage (payload : option (gmap string string))
| GetSystemMessage (user_id : string)
| ClearHistory (payload : option (gmap string string))
| Logout (payload : option (gmap string string)).

(** The world a request leaves, answered or failed. *)
Definition world_after (env : Env) (r : Request) (w : World) : World :=
  match r with
  | StartUp => snd (startup_event env w)
  | RefreshChain payload => snd (refresh_chain env payload w)
  | Ask payload => snd (ask_question env payload w)
  | SetSystemMessage payload => snd (set_system_message env payload w)
  | GetSystemMessage user_id => snd (get_system_message user_id w)
  | ClearHistory payload => snd (clear_history payload w)
  | Logout payload => snd (logout payload w)
  end.

Fixpoint after_requests (env : Env) (requests : list Request) (w : World) : World :=
  match requests with
  | [] => w
  | r :: rest => after_requests env rest (world_after env r w)
  end.

(** No user has a conversation chain or a rewriting chain, and no turn has
    been recorded for anyone. *)
Definition chainless (w : World) : Prop :=
  forall user_id u,
    user_sessions w !! user_id = Some u ->
    chain u = None /\ semantic_chain u = None /\ memory u = [] /\ history u = [].

End Server3.

(** * Sample environments and worlds *)

Module Sample2.

Import Server2.

Definition sid : string := "5f0c1d2e-7a3b-4c4d-9e5f-6a7b8c9d0e1f".
Definition quiz1 : string := "11111111-1111-4111-8111-111111111111".
Definition question1 : string := "22222222-2222-4222-8222-222222222222".

(** Identifiers handed out by [uuid4], in this order. *)
Definition identifiers : list string :=
  [ "aaaaaaaa-0000-4000-8000-000000000001";
    "aaaaaaaa-0000-4000-8000-000000000002";
    "aaaaaaaa-0000-4000-8000-000000000003";
    "aaaaaaaa-0000-4000-8000-000000000004";
    "aaaaaaaa-0000-4000-8000-000000000005";
    "aaaaaaaa-0000-4000-8000-000000000006";
    "aaaaaaaa-0000-4000-8000-000000000007";
    "aaaaaaaa-0000-4000-8000-000000000008" ].

Definition lines (l : list string) : string :=
  foldr (fun (line text : string) => (line ++ String newline text)%string) "" l.

(** A chain that answers every prompt with [reply]; the clock advances one
    second per reading. *)
Definition env_replying (reply : string) : Env :=
  {| now := fun n => (Z.of_nat n * 1000000)%Z;
     uuid4 := fun n => nth n identifiers "aaaaaaaa-0000-4000-8000-ffffffffffff";
     chain_call := fun _ _ _ _ => Ret reply;
     SYSTEM_MESSAGE := "You are a helpful AI assistant specializing in document analysis.";
     read_pdf := fun _ => Ret "Ubik Solutions sells pharma software.";
     split_text := fun text =>
       List.filter Py.truthy (map Py.strip (Py.split_on newline text));
     FAISS_from_texts := fun texts =>
       match texts with
       | [] => Raise (PyError "IndexError" "list index out of range")
       | _ => Ret {| docs := texts |}
       end |}.

(** The same surroundings with unreadable (empty) documents. *)
Definition env_blank : Env :=
  {| now := now (env_replying "");
     uuid4 := uuid4 (env_replying "");
     chain_call := chain_call (env_replying "");
     SYSTEM_MESSAGE := SYSTEM_MESSAGE (env_replying "");
     read_pdf := fun _ => Ret "";
     split_text := split_text (env_replying "");
     FAISS_from_texts := FAISS_from_texts (env_replying "") |}.

Definition one_question_quiz : Quiz :=
  {| questions := [ {| id := question1;
                       question := "What does Ubik sell?";
                       ideal_answer := None |} ];
     answers := empty;
     current_question := 0 |}.

Definition session_with_quiz : Session :=
  {| created_at := 0;
     last_accessed := 0;
     chain := None;
     memory := [];
     active_quizzes := {[ quiz1 := one_question_quiz ]} |}.

Definition world_with_quiz : World :=
  {| sessions := {[ sid := session_with_quiz ]};
     global_vectorstore := Some {| docs := ["Ubik Solutions sells pharma software."] |};
     clock_reads := 0;
     uuid_draws := 0;
     chain_calls := 0;
     log := [] |}.

Definition handle : SessionHandle :=
  {| session_id := sid; data := Some session_with_quiz |}.

Definition answer1 : QuizAnswer :=
  {| question_id := question1; user_answer := "pharma software" |}.

Definition call1 : AnswerCall :=
  {| to_quiz := quiz1; to_question := question1; body := answer1 |}.

(** A reply of two questions around an empty line, with stray blanks. *)
Definition two_questions : string :=
  lines ["1. What is Ubik?"; ""; "  2. What does it sell?  "].

Definition the_chain : Chain :=
  {| retriever := {| docs := ["Ubik Solutions sells pharma software."] |};
     memory_owner := sid |}.

(** A world before start-up: nothing indexed, nobody known. *)
Definition fresh_world : World :=
  {| sessions := empty;
     global_vectorstore := None;
     clock_reads := 0;
     uuid_draws := 0;
     chain_calls := 0;
     log := [] |}.

(** A session last used at time 0, looked up more than half an hour of
    clock readings later. *)
Definition stale_session : Session :=
  {| created_at := (-4000000000)%Z;
     last_accessed := (-2000000000)%Z;
     chain := None;
     memory := [("What does Ubik sell?", "Pharma software.")];
     active_quizzes := {[ quiz1 := one_question_quiz ]} |}.

Definition world_with_stale_session : World :=
  {| sessions := {[ sid := stale_session ]};
     global_vectorstore := None;
     clock_reads := 0;
     uuid_draws := 0;
     chain_calls := 0;
     log := [] |}.

(** The session once a quiz has been started the usual way: a chain is
    bound. *)
Definition session_with_chain : Session :=
  {| created_at := 0;
     last_accessed := 0;
     chain := Some the_chain;
     memory := [];
     active_quizzes := {[ quiz1 := one_question_quiz ]} |}.

Definition world_with_chain : World :=
  {| sessions := {[ sid := session_with_chain ]};
     global_vectorstore := Some {| docs := ["Ubik Solutions sells pharma software."] |};
     clock_reads := 0;
     uuid_draws := 0;
     chain_calls := 0;
     log := [] |}.

(** The surroundings of [env_replying], one document missing. *)
Definition env_missing_file : Env :=
  {| now := now (env_replying "");
     uuid4 := uuid4 (env_replying "");
     chain_call := chain_call (env_replying "");
     SYSTEM_MESSAGE := SYSTEM_MESSAGE (env_replying "");
     read_pdf := fun path =>
       if String.eqb path "data/illesh3.pdf"
       then Raise (PyError "FileNotFoundError" "data/illesh3.pdf")
       else Ret "Ubik Solutions sells pharma software.";
     split_text := split_text (env_replying "");
     FAISS_from_texts := FAISS_from_texts (env_replying "") |}.

End Sample2.

Module Sample3.

Import Server3.

Definition unavailable (what : string) : exn :=
  PyError "APIConnectionError" (what ++ " is unavailable").

(** Surroundings in which the documents read as [pdf], and the rewriting and
    condensing models work or not; retrieval and generation always work. *)
Definition env_with (pdf : string) (rewriting condensing : bool) : Env :=
  {| read_pdf := fun _ => Ret pdf;
     split_text := fun text =>
       List.filter Py.truthy (map Py.strip (Py.split_on newline text));
     FAISS_from_texts := fun texts =>
       match texts with
       | [] => Raise (PyError "IndexError" "list index out of range")
       | _ => Ret {| docs := texts |}
       end;
     similarity_search := fun store _ k => take k (docs store);
     str_of_matches := fun entries =>
       String.concat ", " (map original entries);
     semantic_run := fun _ question _ =>
       if rewriting then Ret question else Raise (unavailable "rewriting");
     condense := fun _ _ question =>
       if condensing then Ret question else Raise (unavailable "condensing");
     retrieve := fun _ store _ => Ret (docs store);
     generate := fun _ _ _ _ => Ret "Ubik sells pharma software.";
     forward := fun _ _ => Ret (200%Z, "ok") |}.

Definition user : string := "user-1".

Definition store : Vectorstore :=
  {| docs := ["Ubik Solutions sells pharma software."] |}.

Definition the_chain : Chain :=
  {| qa_system_message := DEFAULT_SYSTEM_MESSAGE;
     retriever := store;
     memory_owner := user |}.

(** A user with a chain and [turns] already in memory. *)
Definition user_state (turns : list Turn) : UserState :=
  {| memory := turns;
     chain := Some the_chain;
     history := turns;
     system_message := DEFAULT_SYSTEM_MESSAGE;
     fuzzy_corpus := Some ["ubik"; "solutions"; "sells"; "pharma"; "software."];
     semantic_chain := Some LLMChain |}.

Definition world (turns : list Turn) : World :=
  {| user_sessions := {[ user := user_state turns ]};
     global_vectorstore := Some store;
     pdf_cache := empty;
     external_calls := 0;
     app_logs := [] |}.

Definition earlier_turn : Turn := ("Who is Ilesh?", "The founder of Ubik.").

Definition the_question : string := "What does Uber sell?".

Definition fresh_world : World :=
  {| user_sessions := empty;
     global_vectorstore := None;
     pdf_cache := empty;
     external_calls := 0;
     app_logs := [] |}.

(** A world with the index built and no user yet. *)
Definition indexed_world : World :=
  {| user_sessions := empty;
     global_vectorstore := Some store;
     pdf_cache := empty;
     external_calls := 0;
     app_logs := [] |}.

(** The surroundings of [env_with], no document readable. *)
Definition env_unreadable : Env :=
  let env := env_with "" true true in
  {| read_pdf := fun path => Raise (PyError "FileNotFoundError" path);
     split_text := split_text env;
     FAISS_from_texts := FAISS_from_texts env;
     similarity_search := similarity_search env;
     str_of_matches := str_of_matches env;
     semantic_run := semantic_run env;
     condense := condense env;
     retrieve := retrieve env;
     generate := generate env;
     forward := forward env |}.

End Sample3.

(** * Properties of server2.py *)

Module Server2_Facts.

Import Server2.

(** What a call to [submit_answer] does to the session table: a call that
    returns has found the quiz and the question, and has replaced the quiz by
    one with the answer stored and the cursor one further; a call that raises
    has left the table alone. *)
Lemma submit_answer_step quiz_id question_id answer session w :
  match submit_answer quiz_id question_id answer session w with
  | (Ret r, w') =>
      exists sd quiz,
        Py.uuid_parses quiz_id = true /\
        Py.uuid_parses question_id = true /\
        sessions w !! session_id session = Some sd /\
        active_quizzes sd !! quiz_id = Some quiz /\
        has_question question_id quiz = true /\
        let quiz' :=
          {| questions := questions quiz;
             answers := <[question_id := user_answer answer]> (answers quiz);
             current_question := current_question quiz + 1 |} in
        sessions w' =
          <[session_id session :=
              set_active_quizzes (<[quiz_id := quiz']> (active_quizzes sd)) sd]>
            (sessions w) /\
        r = {| status := "success";
               quiz_complete :=
                 (current_question quiz + 1 >=? Z.of_nat (length (questions quiz)))%Z;
               stored_answer := user_answer answer |}
  | (Raise e, w') => sessions w' = sessions w
  end.
Proof.
  unfold submit_answer, bind, logger, raise, ret, the_data, session_data,
    update_session, modify; simpl.
  destruct (Py.uuid_parses quiz_id && Py.uuid_parses question_id) eqn:Hu; simpl;
    [| reflexivity].
  apply andb_true_iff in Hu as [Hq Hn].
  destruct (data session); simpl; [| reflexivity].
  destruct (sessions w !! session_id session) as [sd|] eqn:Hs; simpl;
    [| reflexivity].
  destruct (active_quizzes sd !! quiz_id) as [quiz|] eqn:Hz; simpl;
    [| reflexivity].
  destruct (has_question question_id quiz) eqn:Hh; simpl; [| reflexivity].
  rewrite Hs. exists sd, quiz. repeat split; assumption.
Qed.

(** A question belongs to a quiz when one of its questions carries the
    identifier: that is what [has_question] computes. *)
Lemma has_question_belongs qid quiz :
  has_question qid quiz = true <->
  exists q, In q (questions quiz) /\ id q = qid.
Proof.
  unfold has_question. rewrite existsb_exists.
  split; intros [q [Hin Heq]]; exists q; split; try assumption.
  - now apply String.eqb_eq.
  - now apply String.eqb_eq.
Qed.

(** The effect of one call on one quiz of the session: the questions stay,
    the cursor stays or moves one further. *)
Lemma submit_keeps_quiz session c w quiz_id quiz :
  lookup_quiz (session_id session) quiz_id w = Some quiz ->
  exists quiz',
    lookup_quiz (session_id session) quiz_id (snd (submit session c w)) = Some quiz' /\
    questions quiz' = questions quiz /\
    current_question quiz' =
      (current_question quiz + Z.of_nat (accepted_calls session quiz_id [c] w))%Z.
Proof.
  intros Hq. unfold accepted_calls, submit.
  pose proof (submit_answer_step (to_quiz c) (to_question c) (body c) session w) as H.
  destruct (submit_answer (to_quiz c) (to_question c) (body c) session w)
    as [[r|e] w'] eqn:E; simpl.
  - destruct H as (sd & quiz0 & _ & _ & Hs & Hz & _ & Hw & _).
    unfold lookup_quiz in *. rewrite Hs in Hq. rewrite Hw, lookup_insert_eq. simpl.
    destruct (String.eqb_spec (to_quiz c) quiz_id) as [Heq|Hne].
    + rewrite Heq in Hz |- *. rewrite lookup_insert_eq.
      rewrite Hz in Hq. inversion Hq; subst quiz0.
      eexists; split; [reflexivity|]. simpl. split; [reflexivity | lia].
    + rewrite lookup_insert_ne by assumption.
      exists quiz. split; [assumption|]. split; [reflexivity | lia].
  - unfold lookup_quiz in *. rewrite H. exists quiz.
    split; [assumption|]. split; [reflexivity | lia].
Qed.

(** The same over a sequence of calls. *)
Lemma after_calls_keeps_quiz session calls : forall w quiz_id quiz,
  lookup_quiz (session_id session) quiz_id w = Some quiz ->
  exists quiz',
    lookup_quiz (session_id session) quiz_id (after_calls session calls w) = Some quiz' /\
    questions quiz' = questions quiz /\
    current_question quiz' =
      (current_question quiz + Z.of_nat (accepted_calls session quiz_id calls w))%Z.
Proof.
  induction calls as [|c rest IH]; intros w quiz_id quiz Hq.
  - exists quiz. simpl. split; [assumption|]. split; [reflexivity | lia].
  - destruct (submit_keeps_quiz session c w quiz_id quiz Hq) as (q1 & H1 & Hqs1 & Hc1).
    destruct (IH _ _ _ H1) as (q2 & H2 & Hqs2 & Hc2).
    exists q2. simpl. split; [assumption|]. split; [congruence|].
    rewrite Hc2, Hc1. simpl.
    destruct (submit session c w) as [[r|e] w']; simpl; lia.
Qed.

Lemma after_calls_app session calls1 calls2 w :
  after_calls session (calls1 ++ calls2) w =
  after_calls session calls2 (after_calls session calls1 w).
Proof.
  revert w. induction calls1 as [|c rest IH]; intros w; simpl; [reflexivity|].
  apply IH.
Qed.

(** C1, as the code has it: over any sequence of [submit_answer] calls a
    quiz keeps its questions, its cursor never decreases and has grown by
    the number of calls to that quiz that were accepted, and an accepted call
    reports [quiz_complete] exactly when the cursor it leaves is at or above
    the number of questions.  The cursor is not bounded by the number of questions. *)
Theorem cursor_counts_accepted_calls session calls w quiz_id quiz :
  lookup_quiz (session_id session) quiz_id w = Some quiz ->
  exists quiz',
    lookup_quiz (session_id session) quiz_id (after_calls session calls w) = Some quiz' /\
    questions quiz' = questions quiz /\
    (current_question quiz <= current_question quiz')%Z /\
    current_question quiz' =
      (current_question quiz + Z.of_nat (accepted_calls session quiz_id calls w))%Z /\
    (forall earlier c r w',
        calls = earlier ++ [c] ->
        to_quiz c = quiz_id ->
        submit session c (after_calls session earlier w) = (Ret r, w') ->
        quiz_complete r = true <->
        (current_question quiz' >= Z.of_nat (length (questions quiz')))%Z).
Proof.
  intros Hq.
  destruct (after_calls_keeps_quiz session calls w quiz_id quiz Hq)
    as (quiz' & Hq' & Hqs & Hc).
  exists quiz'. split; [assumption|]. split; [assumption|].
  split; [lia|]. split; [assumption|].
  intros earlier c r w' -> Hto Hrun.
  rewrite after_calls_app in Hq'. simpl in Hq'. rewrite Hrun in Hq'. simpl in Hq'.
  unfold submit in Hrun.
  pose proof (submit_answer_step (to_quiz c) (to_question c) (body c) session
                (after_calls session earlier w)) as H.
  rewrite Hrun in H.
  destruct H as (sd & quiz0 & _ & _ & Hs & Hz & _ & Hw & Hr).
  unfold lookup_quiz in Hq'. rewrite Hw, lookup_insert_eq in Hq'. simpl in Hq'.
  rewrite Hto in Hq'. rewrite lookup_insert_eq in Hq'.
  inversion Hq'; subst quiz'. subst r. simpl.
  rewrite Z.geb_le. lia.
Qed.

Lemma cursor_counts_accepted_calls_witness :
  exists quiz',
    lookup_quiz Sample2.sid Sample2.quiz1
      (after_calls Sample2.handle [Sample2.call1; Sample2.call1]
         Sample2.world_with_quiz) = Some quiz' /\
    questions quiz' = questions Sample2.one_question_quiz /\
    (current_question Sample2.one_question_quiz <= current_question quiz')%Z /\
    current_question quiz' =
      (current_question Sample2.one_question_quiz +
       Z.of_nat (accepted_calls Sample2.handle Sample2.quiz1
                   [Sample2.call1; Sample2.call1] Sample2.world_with_quiz))%Z /\
    (forall earlier c r w',
        [Sample2.call1; Sample2.call1] = earlier ++ [c] ->
        to_quiz c = Sample2.quiz1 ->
        submit Sample2.handle c
          (after_calls Sample2.handle earlier Sample2.world_with_quiz) = (Ret r, w') ->
        quiz_complete r = true <->
        (current_question quiz' >= Z.of_nat (length (questions quiz')))%Z).
Proof.
  apply (cursor_counts_accepted_calls Sample2.handle
           [Sample2.call1; Sample2.call1] Sample2.world_with_quiz
           Sample2.quiz1 Sample2.one_question_quiz).
  vm_compute. reflexivity.
Defined.

(** C1 as stated fails: a quiz with one question, the same answer submitted
    twice; the cursor is then 2. *)
Lemma cursor_passes_question_count :
  exists quiz',
    lookup_quiz Sample2.sid Sample2.quiz1
      (after_calls Sample2.handle [Sample2.call1; Sample2.call1]
         Sample2.world_with_quiz) = Some quiz' /\
    length (questions quiz') = 1%nat /\
    current_question quiz' = 2%Z /\
    (current_question quiz' > Z.of_nat (length (questions quiz')))%Z.
Proof.
  eexists. split; [vm_compute; reflexivity|].
  split; [reflexivity|]. split; [reflexivity|]. simpl. lia.
Qed.



(** [uuid.UUID] and whitespace.  A file separator (code 28) in front of 31
    hexadecimal digits is not skipped by [int(_, 16)]: the identifier is
    rejected with the 400 error.  A no-break space (code 160) in the same
    place is skipped, and the identifier passes the format check. *)
Example file_separator_is_not_skipped :
  Py.uuid_parses (String (ascii_of_nat 28) "aaaaaaaaaaaaaaaaaaaaaaaaaaaaaaa") = false /\
  fst (submit_answer Sample2.quiz1
         (String (ascii_of_nat 28) "aaaaaaaaaaaaaaaaaaaaaaaaaaaaaaa")
         Sample2.answer1 Sample2.handle Sample2.world_with_quiz) =
    Raise (HTTPException 400 "Invalid quiz or question ID format") /\
  Py.uuid_parses (String (ascii_of_nat 160) "aaaaaaaaaaaaaaaaaaaaaaaaaaaaaaa") = true.
Proof. repeat split; vm_compute; reflexivity. Qed.

(** Identifiers in the canonical form, in braces, as a URN, and with the
    [0x] prefix of a literal pass the format check; 32 characters that are
    not all hexadecimal digits, and underscores at either end, do not. *)
Example identifiers_accepted_and_rejected :
  Py.uuid_parses "11111111-1111-4111-8111-111111111111" = true /\
  Py.uuid_parses "{11111111-1111-4111-8111-111111111111}" = true /\
  Py.uuid_parses "urn:uuid:11111111-1111-4111-8111-111111111111" = true /\
  Py.uuid_parses "0x111111111111411181111111111111" = true /\
  Py.uuid_parses "+1111111111114111811111111111111" = true /\
  Py.uuid_parses "1_111111111114111811111111111111" = true /\
  Py.uuid_parses "_1111111111114111811111111111111" = false /\
  Py.uuid_parses "1111111111114111811111111111111_" = false /\
  Py.uuid_parses "1111111111114111811111111111111g" = false /\
  Py.uuid_parses "1111111111114111811111111111111" = false.
Proof. repeat split; vm_compute; reflexivity. Qed.

(** C8, as the code has it: for identifiers that [uuid.UUID] accepts and a
    quiz of the session, a [question_id] outside the quiz's questions gets
    the 404 error and the session table is untouched; a [question_id] of the
    quiz has its answer stored under it, in place of any earlier one, every
    other stored answer and the questions being kept. *)
Theorem submit_answer_records_or_404 quiz_id question_id answer session w sd quiz :
  Py.uuid_parses quiz_id = true ->
  Py.uuid_parses question_id = true ->
  data session <> None ->
  sessions w !! session_id session = Some sd ->
  active_quizzes sd !! quiz_id = Some quiz ->
  exists w',
    if has_question question_id quiz
    then
      exists quiz',
        submit_answer quiz_id question_id answer session w =
          (Ret {| status := "success";
                  quiz_complete :=
                    (current_question quiz + 1 >=? Z.of_nat (length (questions quiz)))%Z;
                  stored_answer := user_answer answer |}, w') /\
        lookup_quiz (session_id session) quiz_id w' = Some quiz' /\
        questions quiz' = questions quiz /\
        answers quiz' !! question_id = Some (user_answer answer) /\
        (forall other, other <> question_id ->
                       answers quiz' !! other = answers quiz !! other)
    else
      submit_answer quiz_id question_id answer session w =
        (Raise (HTTPException 404 "Question not found in quiz"), w') /\
      sessions w' = sessions w.
Proof.
  intros Hq Hn Hd Hs Hz.
  unfold submit_answer, bind, logger, raise, ret, the_data, session_data,
    update_session, modify; simpl.
  rewrite Hq, Hn; simpl.
  destruct (data session) as [d|]; [| congruence]. simpl.
  rewrite Hs; simpl. rewrite Hz; simpl.
  destruct (has_question question_id quiz) eqn:Hh; simpl.
  - rewrite Hs. eexists. eexists. split; [reflexivity|].
    unfold lookup_quiz; simpl. rewrite lookup_insert_eq; simpl.
    rewrite lookup_insert_eq. split; [reflexivity|]. simpl.
    split; [reflexivity|]. split; [apply lookup_insert_eq|].
    intros other Hne. now apply lookup_insert_ne.
  - eexists. split; reflexivity.
Qed.

Lemma submit_answer_records_or_404_witness :
  exists w',
    if has_question Sample2.question1 Sample2.one_question_quiz
    then
      exists quiz',
        submit_answer Sample2.quiz1 Sample2.question1 Sample2.answer1
          Sample2.handle Sample2.world_with_quiz =
          (Ret {| status := "success";
                  quiz_complete :=
                    (current_question Sample2.one_question_quiz + 1 >=?
                     Z.of_nat (length (questions Sample2.one_question_quiz)))%Z;
                  stored_answer := user_answer Sample2.answer1 |}, w') /\
        lookup_quiz (session_id Sample2.handle) Sample2.quiz1 w' = Some quiz' /\
        questions quiz' = questions Sample2.one_question_quiz /\
        answers quiz' !! Sample2.question1 = Some (user_answer Sample2.answer1) /\
        (forall other, other <> Sample2.question1 ->
                       answers quiz' !! other =
                       answers Sample2.one_question_quiz !! other)
    else
      submit_answer Sample2.quiz1 Sample2.question1 Sample2.answer1
        Sample2.handle Sample2.world_with_quiz =
        (Raise (HTTPException 404 "Question not found in quiz"), w') /\
      sessions w' = sessions Sample2.world_with_quiz.
Proof.
  apply (submit_answer_records_or_404 Sample2.quiz1 Sample2.question1
           Sample2.answer1 Sample2.handle Sample2.world_with_quiz
           Sample2.session_with_quiz Sample2.one_question_quiz).
  - vm_compute. reflexivity.
  - vm_compute. reflexivity.
  - discriminate.
  - vm_compute. reflexivity.
  - vm_compute. reflexivity.
Defined.

(** C8 as stated fails: ["question-7"] is not a question of the quiz, and the
    call answers with the 400 format error, not with a 404. *)
Lemma unknown_question_gets_format_error :
  has_question "question-7" Sample2.one_question_quiz = false /\
  fst (submit_answer Sample2.quiz1 "question-7" Sample2.answer1 Sample2.handle
         Sample2.world_with_quiz) =
    Raise (HTTPException 400 "Invalid quiz or question ID format").
Proof. split; vm_compute; reflexivity. Qed.

(** C2: a session whose last access is more than the time-to-live before
    the clock reading of the lookup is removed by that lookup, which finds
    nothing; the dependency then answers with a new session (no exchange in
    its memory, no chain, no quiz) stored under the identifier just drawn,
    and no error.  The clock is supposed not to jump by a whole time-to-live
    between the creation of the new session and its first lookup. *)
Theorem expired_session_is_replaced env sid s w :
  sid <> "" ->
  sessions w !! sid = Some s ->
  (now env (clock_reads w) - last_accessed s > session_timeout)%Z ->
  (now env (S (S (S (clock_reads w)))) - now env (S (S (clock_reads w)))
     <= session_timeout)%Z ->
  (exists w1,
      SessionManager_get_session env sid w = (Ret None, w1) /\
      sessions w1 = delete sid (sessions w)) /\
  exists fresh w',
    get_session env (Some sid) w =
      (Ret {| session_id := uuid4 env (uuid_draws w); data := Some fresh |}, w') /\
    memory fresh = [] /\
    chain fresh = None /\
    active_quizzes fresh = empty /\
    sessions w' = <[uuid4 env (uuid_draws w) := fresh]> (delete sid (sessions w)) /\
    (uuid4 env (uuid_draws w) <> sid -> sessions w' !! sid = None).
Proof.
  intros Hne Hs Hold Hnew.
  assert (Py.truthy sid = true) as Ht by (destruct sid; [congruence | reflexivity]).
  apply Z.gt_lt, Z.gtb_lt in Hold.
  assert ((now env (S (S (S (clock_reads w)))) - now env (S (S (clock_reads w)))
           >? session_timeout)%Z = false) as Hnew'.
  { destruct (Z.gtb_spec (now env (S (S (S (clock_reads w))))
                          - now env (S (S (clock_reads w)))) session_timeout);
      [lia | reflexivity]. }
  split.
  - unfold SessionManager_get_session, bind, get_world, datetime_now, modify, ret;
      simpl. rewrite Hs; simpl. rewrite Hold; simpl.
    eexists. split; reflexivity.
  - unfold get_session, bind, ret. rewrite Ht.
    unfold SessionManager_get_session at 1.
    unfold bind, get_world, datetime_now, modify, ret; simpl.
    rewrite Hs; simpl. rewrite Hold; simpl.
    unfold SessionManager_create_session, SessionManager_get_session, bind,
      get_world, uuid4_str, datetime_now, modify, ret; simpl.
    rewrite lookup_insert_eq; simpl. rewrite Hnew'; simpl.
    eexists. eexists. split; [reflexivity|]. simpl.
    split; [reflexivity|]. split; [reflexivity|]. split; [reflexivity|].
    split.
    + apply insert_insert_eq.
    + intros Hfresh. rewrite insert_insert_eq.
      rewrite lookup_insert_ne by assumption. apply lookup_delete_eq.
Qed.

Lemma expired_session_is_replaced_witness :
  (exists w1,
      SessionManager_get_session (Sample2.env_replying "") Sample2.sid
        Sample2.world_with_stale_session = (Ret None, w1) /\
      sessions w1 = delete Sample2.sid (sessions Sample2.world_with_stale_session)) /\
  exists fresh w',
    get_session (Sample2.env_replying "") (Some Sample2.sid)
      Sample2.world_with_stale_session =
      (Ret {| session_id :=
                uuid4 (Sample2.env_replying "")
                  (uuid_draws Sample2.world_with_stale_session);
              data := Some fresh |}, w') /\
    memory fresh = [] /\
    chain fresh = None /\
    active_quizzes fresh = empty /\
    sessions w' =
      <[uuid4 (Sample2.env_replying "")
          (uuid_draws Sample2.world_with_stale_session) := fresh]>
        (delete Sample2.sid (sessions Sample2.world_with_stale_session)) /\
    (uuid4 (Sample2.env_replying "")
       (uuid_draws Sample2.world_with_stale_session) <> Sample2.sid ->
     sessions w' !! Sample2.sid = None).
Proof.
  apply (expired_session_is_replaced (Sample2.env_replying "") Sample2.sid
           Sample2.stale_session Sample2.world_with_stale_session).
  - discriminate.
  - vm_compute. reflexivity.
  - vm_compute. reflexivity.
  - vm_compute. discriminate.
Defined.

(** ** Starting a quiz *)

Lemma build_questions_run env lines : forall w,
  exists w',
    build_questions env lines w =
      (Ret (numbered env (uuid_draws w) (List.filter Py.truthy lines)), w') /\
    sessions w' = sessions w /\
    global_vectorstore w' = global_vectorstore w.
Proof.
  induction lines as [|line rest IH]; intros w; simpl.
  - exists w. repeat split.
  - destruct (Py.truthy line) eqn:Ht.
    + unfold bind, uuid4_str, ret; simpl.
      match goal with
      | |- context [build_questions env rest ?w1] =>
          destruct (IH w1) as (w' & Hrun & Hs & Hg); rewrite Hrun
      end.
      exists w'. repeat split; assumption.
    + apply IH.
Qed.

Lemma question_lines_all_truthy text :
  List.filter Py.truthy (question_lines text) = question_lines text.
Proof.
  unfold question_lines.
  induction (Py.split_on newline text) as [|line rest IH]; simpl; [reflexivity|].
  destruct (Py.truthy (Py.strip line)) eqn:Ht; simpl; [| assumption].
  rewrite Ht. f_equal. assumption.
Qed.

Lemma numbered_length env n lines : length (numbered env n lines) = length lines.
Proof.
  revert n. induction lines as [|l r IH]; intros n; simpl; [reflexivity|].
  now rewrite IH.
Qed.

Lemma numbered_texts env n lines : map question (numbered env n lines) = lines.
Proof.
  revert n. induction lines as [|l r IH]; intros n; simpl; [reflexivity|].
  now rewrite IH.
Qed.

Lemma numbered_ids env n lines :
  map id (numbered env n lines) = map (uuid4 env) (seq n (length lines)).
Proof.
  revert n. induction lines as [|l r IH]; intros n; simpl; [reflexivity|].
  now rewrite IH.
Qed.

(** Binding a chain to the session leaves every memory as it was. *)
Lemma chain_memory_set_chain c sid sd c' w w1 :
  sessions w !! sid = Some sd ->
  sessions w1 = <[sid := set_chain c' sd]> (sessions w) ->
  chain_memory c w1 = chain_memory c w.
Proof.
  intros Hs Hw1. unfold chain_memory. rewrite Hw1.
  destruct (decide (sid = memory_owner c)) as [<-|Hne].
  - rewrite lookup_insert_eq, Hs. reflexivity.
  - now rewrite lookup_insert_ne.
Qed.

(** The run of [generate_questions] when the chain returns [answer_text]:
    the questions are the kept lines with the next draws of [uuid4], cut to
    the requested number; sessions keep their chains and quizzes. *)
Lemma generate_questions_run env c n w answer_text :
  chain_call env (chain_calls w) (retriever c) (chain_memory c w)
    (questions_prompt env n) = Ret answer_text ->
  exists w',
    generate_questions env c n w =
      (Ret (slice_to n (numbered env (uuid_draws w) (question_lines answer_text))), w') /\
    (forall sid s, sessions w !! sid = Some s ->
       exists s', sessions w' !! sid = Some s' /\
                  active_quizzes s' = active_quizzes s /\
                  chain s' = chain s) /\
    global_vectorstore w' = global_vectorstore w.
Proof.
  intros Hcall.
  unfold generate_questions, call_chain, bind, next_chain_call, get_world, lift,
    update_session, modify, ret; simpl.
  change (chain_memory c _) with (chain_memory c w). rewrite Hcall; simpl.
  match goal with
  | |- context [build_questions env ?ls ?w1] =>
      destruct (build_questions_run env ls w1) as (w' & Hrun & Hs & Hg);
      rewrite Hrun
  end.
  rewrite question_lines_all_truthy. simpl in *.
  exists w'. split; [reflexivity|]. split; [| assumption].
  intros sid s Hsid. rewrite Hs.
  destruct (sessions w !! memory_owner c) as [so|] eqn:Ho.
  - destruct (decide (memory_owner c = sid)) as [Heq|Hne].
    + rewrite Heq in *. rewrite lookup_insert_eq.
      rewrite Hsid in Ho. inversion Ho; subst so.
      eexists; split; [reflexivity|]. split; reflexivity.
    + rewrite lookup_insert_ne by assumption. exists s. repeat split; assumption.
  - exists s. repeat split; assumption.
Qed.

Lemma slice_to_5 {A} (l : list A) : slice_to 5 l = take 5 l.
Proof. reflexivity. Qed.

(** The run of [start_quiz] on a session that has, or can get, a chain whose
    call returns [answer_text]. *)
Lemma start_quiz_run env session w sd c answer_text :
  data session <> None ->
  sessions w !! session_id session = Some sd ->
  chain_in_use (session_id session) sd w = Some c ->
  chain_call env (chain_calls w) (retriever c) (chain_memory c w)
    (questions_prompt env 5) = Ret answer_text ->
  exists w',
    start_quiz env session w =
      (Ret {| started_session_id := session_id session;
              started_quiz_id := uuid4 env (uuid_draws w);
              started_questions :=
                take 5 (numbered env (S (uuid_draws w)) (question_lines answer_text)) |},
       w') /\
    lookup_quiz (session_id session) (uuid4 env (uuid_draws w)) w' =
      Some {| questions :=
                take 5 (numbered env (S (uuid_draws w)) (question_lines answer_text));
              answers := empty;
              current_question := 0 |}.
Proof.
  intros Hd Hs Hc Hcall.
  rewrite <- !slice_to_5.
  unfold start_quiz, the_data.
  destruct (data session) as [d|]; [| congruence].
  unfold bind at 1. unfold session_data at 1. rewrite Hs.
  unfold chain_in_use in Hc.
  destruct (chain sd) as [c0|] eqn:Hchain.
  - inversion Hc; subst c0.
    unfold bind, ret, uuid4_str, session_data; simpl. rewrite Hs, Hchain.
    match goal with
    | |- context [generate_questions env c 5 ?w1] =>
        destruct (generate_questions_run env c 5 w1 answer_text Hcall)
          as (w2 & Hrun & Hkeep & _);
        rewrite Hrun
    end.
    destruct (Hkeep _ _ Hs) as (s' & Hs' & _ & _).
    unfold update_session, modify, set_sessions; simpl. rewrite Hs'.
    eexists. split; [reflexivity|].
    unfold lookup_quiz; simpl. rewrite lookup_insert_eq; simpl.
    apply lookup_insert_eq.
  - destruct (global_vectorstore w) as [store|] eqn:Hg; [| discriminate].
    inversion Hc as [Hc']. 
    unfold create_chain, uuid4_str, session_data, get_world,
      update_session, modify, set_sessions, ret, bind; simpl.
    rewrite Hg; simpl. rewrite Hs; simpl. rewrite lookup_insert_eq; simpl.
    rewrite Hc'.
    match goal with
    | |- context [generate_questions env c 5 ?w1] =>
        assert (chain_call env (chain_calls w1) (retriever c) (chain_memory c w1)
                  (questions_prompt env 5) = Ret answer_text) as Hcall1;
        [ rewrite (chain_memory_set_chain c (session_id session) sd (Some c) w w1 Hs);
          [exact Hcall | rewrite <- Hc'; reflexivity]
        | destruct (generate_questions_run env c 5 w1 answer_text Hcall1)
            as (w2 & Hrun & Hkeep & _);
          rewrite Hrun;
          destruct (Hkeep (session_id session) (set_chain (Some c) sd))
            as (s' & Hs' & _ & _);
          [ simpl; rewrite <- Hc'; apply lookup_insert_eq |] ]
    end.
    unfold set_sessions; simpl. rewrite Hs'.
    eexists. split; [reflexivity|].
    unfold lookup_quiz; simpl. rewrite lookup_insert_eq; simpl.
    apply lookup_insert_eq.
Qed.

(** [generate_questions] for any requested number that is not negative:
    as many questions as there are kept lines, at most the number asked. *)
Lemma generate_questions_count env c n w answer_text :
  (0 <= n)%Z ->
  chain_call env (chain_calls w) (retriever c) (chain_memory c w)
    (questions_prompt env n) = Ret answer_text ->
  exists qs w',
    generate_questions env c n w = (Ret qs, w') /\
    length qs = Nat.min (Z.to_nat n) (length (question_lines answer_text)) /\
    map question qs = take (Z.to_nat n) (question_lines answer_text).
Proof.
  intros Hn Hcall.
  destruct (generate_questions_run env c n w answer_text Hcall) as (w' & Hrun & _).
  eexists. exists w'. split; [exact Hrun|].
  unfold slice_to. destruct (Z.leb_spec 0 n) as [_|Hlt]; [| lia].
  rewrite length_take, numbered_length. split; [reflexivity|].
  rewrite <- firstn_map, numbered_texts. reflexivity.
Qed.

(** *** The lines of a response *)

Lemma append_nil_l (s : string) : ("" ++ s)%string = s.
Proof. reflexivity. Qed.

Lemma append_cons c (r s : string) : (String c r ++ s)%string = String c (r ++ s).
Proof. reflexivity. Qed.

Lemma join_lines_cons x y ys :
  Lines.join_lines (x :: y :: ys) =
    (x ++ String newline (Lines.join_lines (y :: ys)))%string.
Proof. reflexivity. Qed.

Lemma split_on_line line rest :
  Lines.newline_free line = true ->
  Py.split_on newline (line ++ String newline rest) =
    line :: Py.split_on newline rest.
Proof.
  induction line as [|c r IH]; cbn [Lines.newline_free]; intros Hfree.
  - rewrite append_nil_l. cbn [Py.split_on]. rewrite Ascii.eqb_refl. reflexivity.
  - apply andb_prop in Hfree as [Hc Hr]. apply negb_true_iff in Hc.
    rewrite append_cons. cbn [Py.split_on]. rewrite Hc, (IH Hr). reflexivity.
Qed.

Lemma split_on_single line :
  Lines.newline_free line = true -> Py.split_on newline line = [line].
Proof.
  induction line as [|c r IH];
    cbn [Py.split_on Lines.newline_free]; intros Hfree; [reflexivity|].
  apply andb_prop in Hfree as [Hc Hr]. apply negb_true_iff in Hc.
  rewrite Hc, (IH Hr). reflexivity.
Qed.

(** Splitting a text at its newlines gives back the lines it was made of. *)
Lemma split_on_join lines :
  lines <> [] ->
  forallb Lines.newline_free lines = true ->
  Py.split_on newline (Lines.join_lines lines) = lines.
Proof.
  induction lines as [|x rest IH]; intros Hne Hfree; [congruence|].
  cbn [forallb] in Hfree. apply andb_prop in Hfree as [Hx Hrest].
  destruct rest as [|y ys].
  - now apply split_on_single.
  - rewrite join_lines_cons, (split_on_line x _ Hx). f_equal.
    apply IH; [discriminate | assumption].
Qed.

(** Every text is made of lines: the hypothesis of [split_on_join] loses no
    response. *)
Lemma every_text_is_its_lines text :
  Py.split_on newline text <> [] /\
  forallb Lines.newline_free (Py.split_on newline text) = true /\
  Lines.join_lines (Py.split_on newline text) = text.
Proof.
  induction text as [|c r (Hne & Hfree & Hjoin)]; cbn [Py.split_on].
  - split; [discriminate|]. split; reflexivity.
  - destruct (Ascii.eqb c newline) eqn:Hc.
    + apply Ascii.eqb_eq in Hc. subst c.
      split; [discriminate|]. split; [exact Hfree|].
      destruct (Py.split_on newline r) as [|y ys]; [congruence|].
      rewrite join_lines_cons, Hjoin. reflexivity.
    + destruct (Py.split_on newline r) as [|y ys]; [congruence|].
      split; [discriminate|]. cbn [forallb] in Hfree.
      apply andb_prop in Hfree as [Hy Hys].
      split.
      * cbn [forallb Lines.newline_free]. now rewrite Hc, Hy, Hys.
      * destruct ys as [|z zs].
        -- change (String c y = String c r). f_equal. exact Hjoin.
        -- rewrite join_lines_cons, append_cons, <- join_lines_cons, Hjoin.
           reflexivity.
Qed.

(** *** Stripping a line *)

Lemma lstrip_split s :
  exists before,
    s = (before ++ Py.lstrip s)%string /\ Lines.all_space before = true.
Proof.
  induction s as [|c r (before & Heq & Hsp)]; cbn [Py.lstrip].
  - exists "". split; reflexivity.
  - destruct (Py.isspace c) eqn:Hc.
    + exists (String c before). rewrite append_cons, <- Heq.
      split; [reflexivity|]. cbn [Lines.all_space]. now rewrite Hc, Hsp.
    + exists "". split; reflexivity.
Qed.

Lemma lstrip_head s c r : Py.lstrip s = String c r -> Py.isspace c = false.
Proof.
  induction s as [|a s IH]; cbn [Py.lstrip]; [discriminate|].
  destruct (Py.isspace a) eqn:Ha; [exact IH|].
  intros H. inversion H; subst. exact Ha.
Qed.

Lemma rstrip_split s :
  exists after,
    s = (Py.rstrip s ++ after)%string /\ Lines.all_space after = true.
Proof.
  induction s as [|c r (after & Heq & Hsp)]; cbn [Py.rstrip].
  - exists "". split; reflexivity.
  - destruct (Py.rstrip r) as [|b t] eqn:Hr.
    + rewrite append_nil_l in Heq. subst after.
      destruct (Py.isspace c) eqn:Hc.
      * exists (String c r). split; [reflexivity|].
        cbn [Lines.all_space]. now rewrite Hc, Hsp.
      * exists r. split; [reflexivity | assumption].
    + exists after. split; [| assumption]. rewrite append_cons, <- Heq. reflexivity.
Qed.

Lemma rstrip_head c r c' r' :
  Py.rstrip (String c r) = String c' r' -> c' = c.
Proof.
  cbn [Py.rstrip]. destruct (Py.rstrip r); [destruct (Py.isspace c)|];
    intros H; inversion H; reflexivity.
Qed.

Lemma rstrip_last s : forall r c,
  Py.rstrip s = (r ++ String c "")%string -> Py.isspace c = false.
Proof.
  induction s as [|a s IH]; cbn [Py.rstrip]; intros r c H.
  - destruct r; discriminate.
  - destruct (Py.rstrip s) as [|b t] eqn:Hs.
    + destruct (Py.isspace a) eqn:Ha; [destruct r; discriminate|].
      destruct r as [|x r].
      * rewrite append_nil_l in H. inversion H; subst. exact Ha.
      * rewrite append_cons in H. inversion H. destruct r; discriminate.
    + destruct r as [|x r].
      * rewrite append_nil_l in H. inversion H.
      * rewrite append_cons in H. inversion H; subst. now apply (IH r c).
Qed.

Lemma rstrip_has_content s : Py.truthy (Py.rstrip s) = Lines.has_content s.
Proof.
  induction s as [|c r IH]; cbn [Py.rstrip Lines.has_content]; [reflexivity|].
  destruct (Py.rstrip r) as [|b t]; cbn [Py.truthy] in *.
  - rewrite <- IH, orb_false_r. destruct (Py.isspace c); reflexivity.
  - rewrite <- IH. now rewrite orb_true_r.
Qed.

Lemma lstrip_has_content s : Lines.has_content (Py.lstrip s) = Lines.has_content s.
Proof.
  induction s as [|c r IH]; cbn [Py.lstrip Lines.has_content]; [reflexivity|].
  destruct (Py.isspace c) eqn:Hc; cbn [Lines.has_content negb orb];
    [exact IH | now rewrite Hc].
Qed.

(** The code's test [if line.strip()] holds exactly of the lines with a
    character that is not whitespace. *)
Lemma strip_truthy line : Py.truthy (Py.strip line) = Lines.has_content line.
Proof.
  unfold Py.strip. now rewrite rstrip_has_content, lstrip_has_content.
Qed.

(** [line.strip()] is the line without the whitespace around it. *)
Lemma strip_trimmed line : Lines.trimmed_of line (Py.strip line).
Proof.
  unfold Lines.trimmed_of, Py.strip.
  destruct (lstrip_split line) as (before & Hb & Hbs).
  destruct (rstrip_split (Py.lstrip line)) as (after & Ha & Has).
  exists before, after. split; [now rewrite <- Ha|].
  split; [assumption|]. split; [assumption|]. split.
  - intros c r Hr.
    destruct (Py.lstrip line) as [|a t] eqn:Hl; [discriminate|].
    apply rstrip_head in Hr. subst c. now apply (lstrip_head line a t).
  - intros r c Hr. exact (rstrip_last (Py.lstrip line) r c Hr).
Qed.

(** The questions the code reads off a response made of [lines]: the lines
    with content, trimmed. *)
Lemma question_lines_of_lines lines :
  lines <> [] ->
  forallb Lines.newline_free lines = true ->
  question_lines (Lines.join_lines lines) =
    map Py.strip (List.filter Lines.has_content lines).
Proof.
  intros Hne Hfree. unfold question_lines.
  rewrite (split_on_join lines Hne Hfree). f_equal.
  apply filter_ext. intros line. apply strip_truthy.
Qed.

Lemma Forall2_strip_trimmed (lines : list string) :
  Forall2 (fun text line => Lines.trimmed_of line text) (map Py.strip lines) lines.
Proof.
  induction lines as [|l rest IH]; simpl; constructor; [apply strip_trimmed | exact IH].
Qed.

(** C9, as the code has it: for a response made of the lines [lines],
    [start_quiz] returns as many questions as there are lines with a
    character that is not whitespace, at most five: the first such lines in
    order, each trimmed of the whitespace around it, each under the next
    identifier drawn from [uuid4] after the quiz's own; these identifiers
    differ from each other and from the quiz's whenever the draws do. *)
Theorem start_quiz_question_count env session w sd c lines :
  data session <> None ->
  sessions w !! session_id session = Some sd ->
  chain_in_use (session_id session) sd w = Some c ->
  lines <> [] ->
  forallb Lines.newline_free lines = true ->
  chain_call env (chain_calls w) (retriever c) (chain_memory c w)
    (questions_prompt env 5) = Ret (Lines.join_lines lines) ->
  exists quiz_id qs w',
    start_quiz env session w =
      (Ret {| started_session_id := session_id session;
              started_quiz_id := quiz_id;
              started_questions := qs |}, w') /\
    length qs = Nat.min 5 (length (List.filter Lines.has_content lines)) /\
    Forall2 (fun q line => Lines.trimmed_of line (question q))
      qs (take 5 (List.filter Lines.has_content lines)) /\
    quiz_id = uuid4 env (uuid_draws w) /\
    map id qs = map (uuid4 env) (seq (S (uuid_draws w)) (length qs)) /\
    (NoDup (map (uuid4 env) (seq (uuid_draws w) (S (length qs)))) ->
     NoDup (quiz_id :: map id qs)).
Proof.
  intros Hd Hs Hc Hne Hfree Hcall.
  destruct (start_quiz_run env session w sd c (Lines.join_lines lines) Hd Hs Hc Hcall)
    as (w' & Hrun & _).
  rewrite (question_lines_of_lines lines Hne Hfree) in Hrun.
  eexists. eexists. exists w'. split; [exact Hrun|].
  set (kept := List.filter Lines.has_content lines) in *.
  assert (map id (take 5 (numbered env (S (uuid_draws w)) (map Py.strip kept)))
          = map (uuid4 env)
              (seq (S (uuid_draws w))
                 (length (take 5 (numbered env (S (uuid_draws w))
                                    (map Py.strip kept)))))) as Hids.
  { rewrite <- firstn_map, numbered_ids, firstn_map, take_seq.
    now rewrite length_take, numbered_length. }
  split; [now rewrite length_take, numbered_length, length_map|].
  split.
  { assert (Forall2 (fun text line => Lines.trimmed_of line text)
              (map question (take 5 (numbered env (S (uuid_draws w))
                                       (map Py.strip kept))))
              (take 5 kept)) as H.
    { rewrite <- firstn_map, numbered_texts, firstn_map.
      apply Forall2_strip_trimmed. }
    apply Forall2_fmap_l in H. exact H. }
  split; [reflexivity|]. split; [exact Hids|].
  intros Hnodup. rewrite Hids. exact Hnodup.
Qed.

Lemma start_quiz_question_count_witness :
  exists quiz_id qs w',
    start_quiz
      (Sample2.env_replying
         (Lines.join_lines ["1. What is Ubik?"; "   "; "  2. What does it sell?  "]))
      Sample2.handle Sample2.world_with_quiz =
      (Ret {| started_session_id := session_id Sample2.handle;
              started_quiz_id := quiz_id;
              started_questions := qs |}, w') /\
    length qs =
      Nat.min 5 (length (List.filter Lines.has_content
                           ["1. What is Ubik?"; "   "; "  2. What does it sell?  "])) /\
    Forall2 (fun q line => Lines.trimmed_of line (question q))
      qs (take 5 (List.filter Lines.has_content
                    ["1. What is Ubik?"; "   "; "  2. What does it sell?  "])) /\
    quiz_id =
      uuid4 (Sample2.env_replying
               (Lines.join_lines ["1. What is Ubik?"; "   "; "  2. What does it sell?  "]))
        (uuid_draws Sample2.world_with_quiz) /\
    map id qs =
      map (uuid4 (Sample2.env_replying
                    (Lines.join_lines
                       ["1. What is Ubik?"; "   "; "  2. What does it sell?  "])))
        (seq (S (uuid_draws Sample2.world_with_quiz)) (length qs)) /\
    (NoDup (map (uuid4 (Sample2.env_replying
                          (Lines.join_lines
                             ["1. What is Ubik?"; "   "; "  2. What does it sell?  "])))
              (seq (uuid_draws Sample2.world_with_quiz) (S (length qs)))) ->
     NoDup (quiz_id :: map id qs)).
Proof.
  apply (start_quiz_question_count
           (Sample2.env_replying
              (Lines.join_lines ["1. What is Ubik?"; "   "; "  2. What does it sell?  "]))
           Sample2.handle Sample2.world_with_quiz Sample2.session_with_quiz
           Sample2.the_chain
           ["1. What is Ubik?"; "   "; "  2. What does it sell?  "]).
  - discriminate.
  - vm_compute. reflexivity.
  - vm_compute. reflexivity.
  - discriminate.
  - vm_compute. reflexivity.
  - reflexivity.
Defined.

(** The sample reply gives two questions, stripped. *)
Example two_questions_kept :
  question_lines Sample2.two_questions =
    ["1. What is Ubik?"; "2. What does it sell?"].
Proof. vm_compute. reflexivity. Qed.

(** C9 as stated fails: the response below has two non-empty lines, the
    first one of three spaces, and [start_quiz] returns one question, not
    two; the text of that question is not the text of its line either, the
    blanks around it being cut off. *)
Lemma whitespace_line_is_not_a_question :
  exists r w',
    start_quiz
      (Sample2.env_replying (Lines.join_lines ["   "; "  What is Ubik?  "]))
      Sample2.handle Sample2.world_with_quiz = (Ret r, w') /\
    length (List.filter Lines.nonempty ["   "; "  What is Ubik?  "]) = 2 /\
    map question (started_questions r) = ["What is Ubik?"] /\
    length (started_questions r) <>
      Nat.min 5 (length (List.filter Lines.nonempty ["   "; "  What is Ubik?  "])).
Proof.
  eexists. eexists. split; [vm_compute; reflexivity|].
  split; [reflexivity|]. split; [reflexivity|]. simpl. lia.
Qed.

(** C3, as the code has it: when the response has no line with anything but
    whitespace on it, [start_quiz] returns normally, with an empty list of
    questions, and stores a quiz without questions (cursor 0) under the new
    quiz identifier. *)
Theorem empty_generation_starts_empty_quiz env session w sd c answer_text :
  data session <> None ->
  sessions w !! session_id session = Some sd ->
  chain_in_use (session_id session) sd w = Some c ->
  chain_call env (chain_calls w) (retriever c) (chain_memory c w)
    (questions_prompt env 5) = Ret answer_text ->
  question_lines answer_text = [] ->
  exists w',
    start_quiz env session w =
      (Ret {| started_session_id := session_id session;
              started_quiz_id := uuid4 env (uuid_draws w);
              started_questions := [] |}, w') /\
    lookup_quiz (session_id session) (uuid4 env (uuid_draws w)) w' =
      Some {| questions := []; answers := empty; current_question := 0 |}.
Proof.
  intros Hd Hs Hc Hcall Hnone.
  destruct (start_quiz_run env session w sd c answer_text Hd Hs Hc Hcall)
    as (w' & Hrun & Hquiz).
  rewrite Hnone in Hrun, Hquiz. simpl in Hrun, Hquiz.
  exists w'. split; assumption.
Qed.

Lemma empty_generation_starts_empty_quiz_witness :
  exists w',
    start_quiz (Sample2.env_replying "") Sample2.handle Sample2.world_with_quiz =
      (Ret {| started_session_id := session_id Sample2.handle;
              started_quiz_id :=
                uuid4 (Sample2.env_replying "") (uuid_draws Sample2.world_with_quiz);
              started_questions := [] |}, w') /\
    lookup_quiz (session_id Sample2.handle)
      (uuid4 (Sample2.env_replying "") (uuid_draws Sample2.world_with_quiz)) w' =
      Some {| questions := []; answers := empty; current_question := 0 |}.
Proof.
  apply (empty_generation_starts_empty_quiz (Sample2.env_replying "")
           Sample2.handle Sample2.world_with_quiz Sample2.session_with_quiz
           Sample2.the_chain "").
  - discriminate.
  - vm_compute. reflexivity.
  - vm_compute. reflexivity.
  - reflexivity.
  - reflexivity.
Defined.

(** C3 as stated fails: the chain answers with the empty text, which has no
    line to keep, and [start_quiz] returns a quiz, without questions, that is
    then found in the session. *)
Lemma empty_generation_is_not_an_error :
  question_lines "" = [] /\
  fst (start_quiz (Sample2.env_replying "") Sample2.handle Sample2.world_with_quiz) =
    Ret {| started_session_id := Sample2.sid;
           started_quiz_id := "aaaaaaaa-0000-4000-8000-000000000001";
           started_questions := [] |} /\
  lookup_quiz Sample2.sid "aaaaaaaa-0000-4000-8000-000000000001"
    (snd (start_quiz (Sample2.env_replying "") Sample2.handle
            Sample2.world_with_quiz)) =
    Some {| questions := []; answers := empty; current_question := 0 |}.
Proof. repeat split; vm_compute; reflexivity. Qed.

End Server2_Facts.

(** * Properties of the index build, in both servers *)

Module Index_Facts.

Lemma bind_returns {W A B} (m : M W A) (k : A -> M W B) w b w' :
  bind m k w = (Ret b, w') ->
  exists a w1, m w = (Ret a, w1) /\ k a w1 = (Ret b, w').
Proof.
  unfold bind. destruct (m w) as [[a|e] w1]; intros H; [| discriminate].
  exists a, w1. split; [reflexivity | assumption].
Qed.

(** Reading the documents touches neither the store nor the users, and in
    [server3.py] it never raises. *)
Lemma combine_texts3_keeps env paths : forall acc w,
  exists text w1,
    Server3.combine_texts env paths acc w = (Ret text, w1) /\
    Server3.global_vectorstore w1 = Server3.global_vectorstore w /\
    Server3.user_sessions w1 = Server3.user_sessions w.
Proof.
  induction paths as [|path rest IH]; intros acc w; simpl.
  - exists acc, w. repeat split.
  - unfold bind at 1.
    assert (exists text w0,
               Server3.get_pdf_text env path w = (Ret text, w0) /\
               Server3.global_vectorstore w0 = Server3.global_vectorstore w /\
               Server3.user_sessions w0 = Server3.user_sessions w)
      as (text & w0 & Hget & Hg & Hu).
    { unfold Server3.get_pdf_text, bind, get_world, ret; simpl.
      destruct (Server3.pdf_cache w !! path) as [cached|].
      - exists cached, w. repeat split.
      - destruct (Server3.read_pdf env path) as [text|e]; simpl;
          eexists; eexists; repeat split. }
    rewrite Hget.
    destruct (IH (acc ++ (text ++ " "))%string w0) as (t & w1 & Hrun & Hg1 & Hu1).
    exists t, w1. split; [assumption|]. split; congruence.
Qed.

(** In [server2.py] it leaves the world as it is. *)
Lemma combine_texts2_keeps env paths : forall acc w r w1,
  Server2.combine_texts env paths acc w = (r, w1) -> w1 = w.
Proof.
  induction paths as [|path rest IH]; intros acc w r w1; simpl.
  - unfold ret. now inversion 1.
  - unfold bind at 1, Server2.get_pdf_text, lift.
    destruct (Server2.read_pdf env path) as [text|e].
    + apply IH.
    + now inversion 1.
Qed.

(** A build of [server3.py] that reports success leaves a store in place. *)
Lemma build3_success_publishes env w message w' :
  Server3.initialize_global_vectorstore env w = (Ret (true, message), w') ->
  exists store, Server3.global_vectorstore w' = Some store.
Proof.
  unfold Server3.initialize_global_vectorstore.
  unfold bind at 1, get_world. cbv beta iota.
  destruct (Server3.global_vectorstore w) as [store|] eqn:Hg.
  - unfold ret. inversion 1; subst. eauto.
  - intros H. apply bind_returns in H as (text & w1 & _ & H).
    destruct (negb (Py.truthy (Py.strip text))); [inversion H|].
    apply bind_returns in H as (store & w2 & _ & H).
    unfold bind, modify, Server3.logger, Server3.write_log, ret in H.
    inversion H; subst. simpl. eauto.
Qed.

(** A build of [server2.py] that returns leaves a store in place. *)
Lemma build2_success_publishes env w w' :
  Server2.initialize_vectorstore env w = (Ret tt, w') ->
  exists store, Server2.global_vectorstore w' = Some store.
Proof.
  unfold Server2.initialize_vectorstore.
  unfold bind at 1, get_world. cbv beta iota.
  destruct (Server2.global_vectorstore w) as [store|] eqn:Hg.
  - unfold ret. inversion 1; subst. eauto.
  - intros H. apply bind_returns in H as (text & w1 & _ & H).
    apply bind_returns in H as (store & w2 & _ & H).
    unfold modify in H. inversion H; subst. simpl. eauto.
Qed.

(** C6: after a build that succeeded, a further build request changes
    nothing: in [server3.py] it returns success with the message that the
    vector store is already initialized, in [server2.py] (whose build has
    nothing to report) it just returns; either way the world, the stored
    vector store included, is the one the first build left. *)
Theorem second_build_is_a_noop env3 w3 message w3' env2 w2 w2' :
  Server3.initialize_global_vectorstore env3 w3 = (Ret (true, message), w3') ->
  Server2.initialize_vectorstore env2 w2 = (Ret tt, w2') ->
  Server3.initialize_global_vectorstore env3 w3' =
    (Ret (true, "[SYSTEM MESSAGE] Vectorstore is already initialized."), w3') /\
  Server3.global_vectorstore w3' <> None /\
  Server2.initialize_vectorstore env2 w2' = (Ret tt, w2') /\
  Server2.global_vectorstore w2' <> None.
Proof.
  intros H3 H2.
  destruct (build3_success_publishes _ _ _ _ H3) as (s3 & Hs3).
  destruct (build2_success_publishes _ _ _ H2) as (s2 & Hs2).
  split; [| split; [congruence | split; [| congruence]]].
  - unfold Server3.initialize_global_vectorstore, bind, get_world.
    cbv beta iota. rewrite Hs3. reflexivity.
  - unfold Server2.initialize_vectorstore, bind, get_world.
    cbv beta iota. rewrite Hs2. reflexivity.
Qed.

Lemma second_build_is_a_noop_witness :
  Server3.initialize_global_vectorstore (Sample3.env_with "Ubik" true true)
    (snd (Server3.initialize_global_vectorstore (Sample3.env_with "Ubik" true true)
            Sample3.fresh_world)) =
    (Ret (true, "[SYSTEM MESSAGE] Vectorstore is already initialized."),
     snd (Server3.initialize_global_vectorstore (Sample3.env_with "Ubik" true true)
            Sample3.fresh_world)) /\
  Server3.global_vectorstore
    (snd (Server3.initialize_global_vectorstore (Sample3.env_with "Ubik" true true)
            Sample3.fresh_world)) <> None /\
  Server2.initialize_vectorstore (Sample2.env_replying "")
    (snd (Server2.initialize_vectorstore (Sample2.env_replying "")
            Sample2.fresh_world)) =
    (Ret tt,
     snd (Server2.initialize_vectorstore (Sample2.env_replying "")
            Sample2.fresh_world)) /\
  Server2.global_vectorstore
    (snd (Server2.initialize_vectorstore (Sample2.env_replying "")
            Sample2.fresh_world)) <> None.
Proof.
  apply (second_build_is_a_noop
           (Sample3.env_with "Ubik" true true) Sample3.fresh_world
           "[SYSTEM MESSAGE] Vectorstore was created successfully."
           (snd (Server3.initialize_global_vectorstore
                   (Sample3.env_with "Ubik" true true) Sample3.fresh_world))
           (Sample2.env_replying "") Sample2.fresh_world
           (snd (Server2.initialize_vectorstore (Sample2.env_replying "")
                   Sample2.fresh_world))).
  - vm_compute. reflexivity.
  - vm_compute. reflexivity.
Defined.

(** ** A blank corpus *)

Lemma all_space_app (a b : string) :
  Lines.all_space (a ++ b) = Lines.all_space a && Lines.all_space b.
Proof.
  induction a as [|c r IH]; [reflexivity|].
  change (String c r ++ b)%string with (String c (r ++ b)).
  cbn [Lines.all_space]. now rewrite IH, andb_assoc.
Qed.

Lemma all_space_no_content s :
  Lines.all_space s = true -> Lines.has_content s = false.
Proof.
  induction s as [|c r IH]; cbn [Lines.all_space Lines.has_content];
    [reflexivity|].
  intros H. apply andb_prop in H as [Hc Hr]. now rewrite Hc, (IH Hr).
Qed.

(** Reading a document gives its text and leaves the text of every document
    as it was (the one just read is cached as read). *)
Lemma get_pdf_text3_gives_document env path w :
  exists w1,
    Server3.get_pdf_text env path w = (Ret (Server3.document_text env w path), w1) /\
    Server3.global_vectorstore w1 = Server3.global_vectorstore w /\
    Server3.user_sessions w1 = Server3.user_sessions w /\
    forall p, Server3.document_text env w1 p = Server3.document_text env w p.
Proof.
  unfold Server3.get_pdf_text, Server3.document_text, get_world, bind at 1.
  destruct (Server3.pdf_cache w !! path) as [cached|] eqn:Hc.
  - exists w. unfold ret. repeat split.
  - destruct (Server3.read_pdf env path) as [text|e] eqn:Hr;
      unfold Server3.logger, Server3.write_log, modify, Server3.set_pdf_cache,
        ret, bind; simpl;
      (eexists; split; [reflexivity|]; split; [reflexivity|];
       split; [reflexivity|]; intros p; simpl;
       destruct (decide (path = p)) as [<-|Hne];
       [rewrite lookup_insert_eq, Hc, Hr; reflexivity
       | rewrite lookup_insert_ne by assumption; reflexivity]).
Qed.

Lemma combine_texts3_blank env paths : forall acc w,
  Lines.all_space acc = true ->
  (forall path, In path paths ->
     Lines.all_space (Server3.document_text env w path) = true) ->
  exists text w1,
    Server3.combine_texts env paths acc w = (Ret text, w1) /\
    Lines.all_space text = true /\
    Server3.global_vectorstore w1 = Server3.global_vectorstore w /\
    Server3.user_sessions w1 = Server3.user_sessions w.
Proof.
  induction paths as [|path rest IH]; intros acc w Hacc Hblank; simpl.
  - exists acc, w. repeat split. assumption.
  - destruct (get_pdf_text3_gives_document env path w) as (w0 & Hget & Hg & Hu & Hdoc).
    unfold bind at 1. rewrite Hget.
    destruct (IH (acc ++ (Server3.document_text env w path ++ " "))%string w0)
      as (text & w1 & Hrun & Hsp & Hg1 & Hu1).
    + rewrite !all_space_app, Hacc, (Hblank path (or_introl eq_refl)). reflexivity.
    + intros p Hp. rewrite Hdoc. apply Hblank. now right.
    + exists text, w1. split; [assumption|]. split; [assumption|]. split; congruence.
Qed.

(** C7, as the code has it.  In [server3.py], when every document reads as
    blank text, the build does not raise: it returns [(False, ...)] before
    anything is split or indexed, no store is published, and start-up writes
    the failure to the log as an error and returns.  [server2.py] has no
    check of its own: its build hands the chunks, however few, to
    [FAISS.from_texts]; the store is published when that call returns, and
    its exception leaves start-up when it raises. *)
Theorem blank_corpus_is_reported_not_raised env3 w3 env2 w2 text2 w2r :
  Server3.global_vectorstore w3 = None ->
  (forall path, In path Server3.pdf_paths ->
     Lines.all_space (Server3.document_text env3 w3 path) = true) ->
  Server2.global_vectorstore w2 = None ->
  Server2.combine_texts env2 Server2.PDF_PATHS "" w2 = (Ret text2, w2r) ->
  (exists w3r,
     Server3.initialize_global_vectorstore env3 w3 =
       (Ret (false, "No text could be extracted from the PDFs."), w3r) /\
     Server3.global_vectorstore w3r = None /\
     Server3.user_sessions w3r = Server3.user_sessions w3 /\
     Server3.startup_event env3 w3 =
       (Ret tt,
        snd (Server3.logger "ERROR"
               "Failed to initialize vectorstore: No text could be extracted from the PDFs."
               w3r))) /\
  Server2.startup_event env2 w2 =
    match Server2.FAISS_from_texts env2 (Server2.get_text_chunks env2 text2) with
    | Ret store => (Ret tt, Server2.set_global_vectorstore (Some store) w2)
    | Raise e => (Raise e, w2)
    end.
Proof.
  intros Hg3 Hblank Hg2 Hc2. split.
  - destruct (combine_texts3_blank env3 Server3.pdf_paths "" w3 eq_refl Hblank)
      as (text & w3r & Hrun & Hsp & Hg & Hu).
    assert (Py.truthy (Py.strip text) = false) as Hempty
      by (rewrite Server2_Facts.strip_truthy; now apply all_space_no_content).
    assert (Server3.initialize_global_vectorstore env3 w3 =
            (Ret (false, "No text could be extracted from the PDFs."), w3r)) as Hbuild.
    { unfold Server3.initialize_global_vectorstore.
      unfold bind at 1, get_world. cbv beta iota. rewrite Hg3.
      unfold bind at 1. rewrite Hrun, Hempty. reflexivity. }
    exists w3r. split; [exact Hbuild|]. split; [congruence|]. split; [exact Hu|].
    unfold Server3.startup_event, bind. rewrite Hbuild. reflexivity.
  - pose proof (combine_texts2_keeps _ _ _ _ _ _ Hc2) as ->.
    unfold Server2.startup_event, Server2.initialize_vectorstore.
    unfold bind at 1, get_world. cbv beta iota. rewrite Hg2.
    unfold bind at 1. rewrite Hc2.
    unfold bind, lift, modify.
    destruct (Server2.FAISS_from_texts env2 (Server2.get_text_chunks env2 text2));
      reflexivity.
Qed.

Lemma blank_corpus_is_reported_not_raised_witness :
  (exists w3r,
     Server3.initialize_global_vectorstore (Sample3.env_with "" true true)
       Sample3.fresh_world =
       (Ret (false, "No text could be extracted from the PDFs."), w3r) /\
     Server3.global_vectorstore w3r = None /\
     Server3.user_sessions w3r = Server3.user_sessions Sample3.fresh_world /\
     Server3.startup_event (Sample3.env_with "" true true) Sample3.fresh_world =
       (Ret tt,
        snd (Server3.logger "ERROR"
               "Failed to initialize vectorstore: No text could be extracted from the PDFs."
               w3r))) /\
  Server2.startup_event Sample2.env_blank Sample2.fresh_world =
    match Server2.FAISS_from_texts Sample2.env_blank
            (Server2.get_text_chunks Sample2.env_blank "    ") with
    | Ret store =>
        (Ret tt, Server2.set_global_vectorstore (Some store) Sample2.fresh_world)
    | Raise e => (Raise e, Sample2.fresh_world)
    end.
Proof.
  apply (blank_corpus_is_reported_not_raised
           (Sample3.env_with "" true true) Sample3.fresh_world
           Sample2.env_blank Sample2.fresh_world "    " Sample2.fresh_world).
  - reflexivity.
  - intros path _. reflexivity.
  - reflexivity.
  - vm_compute. reflexivity.
Defined.

(** C7 as stated fails: with documents that read as empty, the corpus of
    [server3.py] splits into no chunk, and neither the build nor start-up
    raises; the build returns its failure pair, start-up returns normally
    and the server goes on without an index. *)
Lemma blank_corpus_does_not_stop_startup :
  Server3.get_text_chunks (Sample3.env_with "" true true) "    " = [] /\
  fst (Server3.combine_texts (Sample3.env_with "" true true) Server3.pdf_paths ""
         Sample3.fresh_world) = Ret "    " /\
  fst (Server3.initialize_global_vectorstore (Sample3.env_with "" true true)
         Sample3.fresh_world) =
    Ret (false, "No text could be extracted from the PDFs.") /\
  fst (Server3.startup_event (Sample3.env_with "" true true) Sample3.fresh_world) =
    Ret tt /\
  Server3.global_vectorstore
    (snd (Server3.startup_event (Sample3.env_with "" true true) Sample3.fresh_world)) =
    None.
Proof. repeat split; vm_compute; reflexivity. Qed.

End Index_Facts.

(** * Properties of server3.py *)

Module Server3_Facts.

Import Server3.

(** ** Stepping through a computation *)

Lemma bind_ret_eq {W A B} (m : M W A) (k : A -> M W B) w a w1 :
  m w = (Ret a, w1) -> bind m k w = k a w1.
Proof. intros H. unfold bind. now rewrite H. Qed.

Lemma bind_raise_eq {W A B} (m : M W A) (k : A -> M W B) w e w1 :
  m w = (Raise e, w1) -> bind m k w = (Raise e, w1).
Proof. intros H. unfold bind. now rewrite H. Qed.

Lemma get_user_state_run user_id w :
  exists w1,
    get_user_state user_id w =
      (Ret (default new_user_state (user_sessions w !! user_id)), w1) /\
    user_sessions w1 =
      <[user_id := default new_user_state (user_sessions w !! user_id)]>
        (user_sessions w) /\
    global_vectorstore w1 = global_vectorstore w /\
    external_calls w1 = external_calls w /\
    pdf_cache w1 = pdf_cache w.
Proof.
  unfold get_user_state, get_world, bind at 1.
  destruct (user_sessions w !! user_id) as [u|] eqn:Hu.
  - exists w. unfold ret. split; [reflexivity|].
    split; [symmetry; now apply insert_id|]. repeat split.
  - unfold log_event, write_log, modify, set_user_sessions, ret, bind; simpl.
    eexists. split; [reflexivity|]. repeat split.
Qed.

Lemma update_user_run user_id f w u :
  user_sessions w !! user_id = Some u ->
  exists w1,
    update_user user_id f w = (Ret tt, w1) /\
    user_sessions w1 = <[user_id := f u]> (user_sessions w) /\
    global_vectorstore w1 = global_vectorstore w /\
    external_calls w1 = external_calls w /\
    pdf_cache w1 = pdf_cache w.
Proof.
  intros Hu. unfold update_user, modify, set_user_sessions.
  eexists. split; [reflexivity|]. simpl. rewrite Hu. repeat split.
Qed.

Lemma log_event_run event_type details user_id w :
  exists w1,
    log_event event_type details user_id w = (Ret tt, w1) /\
    user_sessions w1 = user_sessions w /\
    global_vectorstore w1 = global_vectorstore w /\
    external_calls w1 = external_calls w /\
    app_logs w1 = app_logs w ++ [Event event_type user_id details].
Proof.
  unfold log_event, write_log, modify. eexists. split; [reflexivity|]. repeat split.
Qed.

(** ** The fuzzy corrector *)

(** C4, what the code does.  [process_with_fuzzy_matching] gives the question
    back with an empty report only when the question has no token; as soon
    as there is one, the first call of [get_fuzzy_matches] evaluates
    [process], which [server3.py] never binds, and the [NameError] leaves
    the function: no report is returned, whatever the vocabulary. *)
Theorem fuzzy_matching_raises_name_error question fuzzy_corpus w :
  process_with_fuzzy_matching question fuzzy_corpus w =
    match Py.split (Py.lower question) with
    | [] => (Ret (question, []), w)
    | _ :: _ => (Raise (PyError "NameError" "name 'process' is not defined"), w)
    end.
Proof.
  unfold process_with_fuzzy_matching.
  destruct (Py.split (Py.lower question)) as [|word rest]; reflexivity.
Qed.

(** The sample question, with the word it is close to in the vocabulary. *)
Example uber_question_raises :
  process_with_fuzzy_matching Sample3.the_question
    ["ubik"; "solutions"; "sells"; "pharma"; "software."] Sample3.indexed_world =
    (Raise (PyError "NameError" "name 'process' is not defined"),
     Sample3.indexed_world).
Proof. vm_compute. reflexivity. Qed.

(** ** Binding a chain *)

(** [create_or_refresh_user_chain] for a user without a chain: without an
    index it reports failure; with one it stores the vocabulary and then
    raises, [LLMChain] not being bound. *)
Lemma create_or_refresh_run env user_id w :
  chain (default new_user_state (user_sessions w !! user_id)) = None ->
  exists w1,
    create_or_refresh_user_chain env user_id w =
      (match global_vectorstore w with
       | Some _ => Raise (PyError "NameError" "name 'LLMChain' is not defined")
       | None => Ret (false, "Global vectorstore is not initialized.")
       end, w1) /\
    user_sessions w1 =
      <[user_id :=
          let u := default new_user_state (user_sessions w !! user_id) in
          match global_vectorstore w with
          | Some store => set_fuzzy_corpus (Some (create_fuzzy_corpus env store)) u
          | None => u
          end]> (user_sessions w) /\
    global_vectorstore w1 = global_vectorstore w /\
    external_calls w1 = external_calls w /\
    pdf_cache w1 = pdf_cache w.
Proof.
  intros Hnone.
  destruct (get_user_state_run user_id w) as (wa & Hget & Hsa & Hga & Hea & Hpa).
  set (u := default new_user_state (user_sessions w !! user_id)) in *.
  unfold create_or_refresh_user_chain.
  rewrite (bind_ret_eq _ _ _ _ _ Hget), Hnone.
  rewrite (bind_ret_eq get_world _ wa wa wa eq_refl), Hga.
  destruct (global_vectorstore w) as [store|] eqn:Hg.
  - destruct (update_user_run user_id
                (set_fuzzy_corpus (Some (create_fuzzy_corpus env store))) wa u)
      as (wb & Hupd & Hsb & Hgb & Heb & Hpb);
      [rewrite Hsa; apply lookup_insert_eq|].
    rewrite (bind_ret_eq _ _ _ _ _ Hupd).
    exists wb. split; [reflexivity|].
    split; [rewrite Hsb, Hsa; apply insert_insert_eq|].
    split; [congruence|]. split; congruence.
  - exists wa. split; [reflexivity|]. split; [exact Hsa|].
    split; [congruence|]. split; assumption.
Qed.

(** ** The worlds the server reaches *)

Lemma chainless_initial : chainless initial_world.
Proof. intros user_id u H. simpl in H. rewrite lookup_empty in H. discriminate. Qed.

Lemma chainless_same_users w w1 :
  user_sessions w1 = user_sessions w -> chainless w -> chainless w1.
Proof. intros Heq H user_id u Hu. rewrite Heq in Hu. now apply (H user_id). Qed.

Lemma chainless_insert w w1 user_id u :
  user_sessions w1 = <[user_id := u]> (user_sessions w) ->
  chain u = None -> semantic_chain u = None -> memory u = [] -> history u = [] ->
  chainless w -> chainless w1.
Proof.
  intros Heq Hc Hsc Hm Hh H other u' Hu'. rewrite Heq in Hu'.
  destruct (decide (user_id = other)) as [<-|Hne].
  - rewrite lookup_insert_eq in Hu'. inversion Hu'; subst u'. repeat split; assumption.
  - rewrite lookup_insert_ne in Hu' by assumption. now apply (H other).
Qed.

Lemma chainless_delete w w1 user_id :
  user_sessions w1 = delete user_id (user_sessions w) ->
  chainless w -> chainless w1.
Proof.
  intros Heq H other u Hu. rewrite Heq in Hu.
  destruct (decide (user_id = other)) as [<-|Hne].
  - rewrite lookup_delete_eq in Hu. discriminate.
  - rewrite lookup_delete_ne in Hu by assumption. now apply (H other).
Qed.

(** The state of a user in a chainless world, known or new. *)
Lemma chainless_default w user_id :
  chainless w ->
  let u := default new_user_state (user_sessions w !! user_id) in
  chain u = None /\ semantic_chain u = None /\ memory u = [] /\ history u = [].
Proof.
  intros H. destruct (user_sessions w !! user_id) as [u|] eqn:Hu; simpl.
  - now apply (H user_id).
  - repeat split.
Qed.

Lemma create_or_refresh_chainless env user_id w :
  chainless w ->
  exists w1,
    create_or_refresh_user_chain env user_id w =
      (match global_vectorstore w with
       | Some _ => Raise (PyError "NameError" "name 'LLMChain' is not defined")
       | None => Ret (false, "Global vectorstore is not initialized.")
       end, w1) /\
    chainless w1 /\
    global_vectorstore w1 = global_vectorstore w /\
    (exists u1, user_sessions w1 !! user_id = Some u1 /\ semantic_chain u1 = None).
Proof.
  intros Hw.
  destruct (chainless_default w user_id Hw) as (Hc & Hsc & Hm & Hh).
  destruct (create_or_refresh_run env user_id w Hc) as (w1 & Hrun & Hs & Hg & _).
  exists w1. split; [exact Hrun|].
  assert (forall u1,
            u1 = (let u := default new_user_state (user_sessions w !! user_id) in
                  match global_vectorstore w with
                  | Some store =>
                      set_fuzzy_corpus (Some (create_fuzzy_corpus env store)) u
                  | None => u
                  end) ->
            chain u1 = None /\ semantic_chain u1 = None /\
            memory u1 = [] /\ history u1 = []) as Hu1.
  { intros u1 ->. cbv zeta. destruct (global_vectorstore w); simpl;
      repeat split; assumption. }
  destruct (Hu1 _ eq_refl) as (H1 & H2 & H3 & H4).
  split; [exact (chainless_insert w w1 user_id _ Hs H1 H2 H3 H4 Hw)|].
  split; [exact Hg|].
  eexists. split; [rewrite Hs; apply lookup_insert_eq | exact H2].
Qed.

Lemma startup_keeps_users env w :
  user_sessions (snd (startup_event env w)) = user_sessions w.
Proof.
  assert (user_sessions (snd (initialize_global_vectorstore env w)) = user_sessions w
          /\ exists r, fst (initialize_global_vectorstore env w) = r) as [Hb _].
  { split; [| eauto].
    unfold initialize_global_vectorstore. unfold bind at 1, get_world. cbv beta iota.
    destruct (global_vectorstore w); [reflexivity|].
    destruct (Index_Facts.combine_texts3_keeps env pdf_paths "" w)
      as (text & w1 & Hrun & _ & Hu).
    unfold bind at 1. rewrite Hrun.
    destruct (negb (Py.truthy (Py.strip text))); [exact Hu|].
    unfold bind, lift, modify, logger, write_log, ret.
    destruct (FAISS_from_texts env (get_text_chunks env text)); simpl; exact Hu. }
  unfold startup_event, bind.
  destruct (initialize_global_vectorstore env w) as [[[success message]|e] w1];
    simpl in *; [| exact Hb].
  destruct (negb success); unfold logger, write_log, modify; simpl; exact Hb.
Qed.

(** What [ask_question] does in a chainless world: with an index the chain
    cannot be bound and the [NameError] leaves the endpoint; without one
    [handle_userinput] finds no ['semantic_chain'] key. *)
Lemma ask_question_chainless env data user_id user_question w :
  data !! "user_id" = Some user_id ->
  data !! "question" = Some user_question ->
  chainless w ->
  exists w1,
    ask_question env (Some data) w =
      (Raise match global_vectorstore w with
             | Some _ => PyError "NameError" "name 'LLMChain' is not defined"
             | None => PyError "KeyError" "'semantic_chain'"
             end, w1) /\
    chainless w1.
Proof.
  intros Hid Hq Hw.
  destruct (create_or_refresh_chainless env user_id w Hw)
    as (wa & Hcr & Hwa & Hga & u1 & Hu1 & Hsc1).
  unfold ask_question. rewrite Hid, Hq.
  rewrite (bind_ret_eq get_world _ w w w eq_refl).
  assert (match user_sessions w !! user_id with
          | Some u =>
              match chain u with
              | None => (create_or_refresh_user_chain env user_id ;;; ret tt)%py
              | Some _ => ret tt
              end
          | None => (create_or_refresh_user_chain env user_id ;;; ret tt)%py
          end = (create_or_refresh_user_chain env user_id ;;; ret tt)%py) as ->.
  { destruct (user_sessions w !! user_id) as [u|] eqn:Hu; [| reflexivity].
    destruct (Hw user_id u Hu) as (-> & _). reflexivity. }
  destruct (global_vectorstore w) as [store|] eqn:Hg.
  - exists wa. split; [| exact Hwa].
    apply bind_raise_eq. apply bind_raise_eq. exact Hcr.
  - destruct (get_user_state_run user_id wa) as (wb & Hget & Hsb & _).
    rewrite Hu1 in Hget, Hsb. simpl in Hget, Hsb.
    exists wb. split.
    + rewrite (bind_ret_eq _ _ _ _ _ (bind_ret_eq _ _ _ _ _ Hcr)).
      apply bind_raise_eq. unfold handle_userinput.
      rewrite (bind_ret_eq _ _ _ _ _ Hget), Hsc1. reflexivity.
    + apply (chainless_same_users wa wb); [| exact Hwa].
      rewrite Hsb. now apply insert_id.
Qed.

Lemma ask_question_keeps_chainless env payload w :
  chainless w -> chainless (snd (ask_question env payload w)).
Proof.
  intros Hw. destruct payload as [data|]; [| exact Hw].
  destruct (data !! "user_id") as [user_id|] eqn:Hid;
    [| unfold ask_question; rewrite Hid; exact Hw].
  destruct (data !! "question") as [user_question|] eqn:Hq;
    [| unfold ask_question; rewrite Hid, Hq; exact Hw].
  destruct (ask_question_chainless env data user_id user_question w Hid Hq Hw)
    as (w1 & Hrun & Hw1).
  rewrite Hrun. exact Hw1.
Qed.

Lemma refresh_chain_keeps_chainless env payload w :
  chainless w -> chainless (snd (refresh_chain env payload w)).
Proof.
  intros Hw. destruct payload as [data|]; [| exact Hw].
  unfold refresh_chain.
  destruct (data !! "user_id") as [user_id|]; [| exact Hw].
  destruct (create_or_refresh_chainless env user_id w Hw) as (w1 & Hrun & Hw1 & _).
  unfold bind. rewrite Hrun.
  destruct (global_vectorstore w); exact Hw1.
Qed.

Lemma get_system_message_keeps_chainless user_id w :
  chainless w -> chainless (snd (get_system_message user_id w)).
Proof.
  intros Hw. unfold get_system_message.
  destruct (negb (Py.truthy user_id)); [exact Hw|].
  destruct (chainless_default w user_id Hw) as (Hc & Hsc & Hm & Hh).
  destruct (get_user_state_run user_id w) as (w1 & Hget & Hs & _).
  unfold bind. rewrite Hget. simpl.
  exact (chainless_insert w w1 user_id _ Hs Hc Hsc Hm Hh Hw).
Qed.

Lemma set_system_message_keeps_chainless env payload w :
  chainless w -> chainless (snd (set_system_message env payload w)).
Proof.
  intros Hw. destruct payload as [data|]; [| exact Hw].
  unfold set_system_message. cbv zeta.
  destruct (negb (Py.truthy (default "" (data !! "user_id")))
            || negb (Py.truthy (default "" (data !! "system_message"))));
    [exact Hw|].
  set (user_id := default "" (data !! "user_id")).
  set (new_message := default "" (data !! "system_message")).
  destruct (chainless_default w user_id Hw) as (Hc & Hsc & Hm & Hh).
  destruct (get_user_state_run user_id w) as (wa & Hget & Hsa & _).
  assert (chainless wa) as Hwa
    by exact (chainless_insert w wa user_id _ Hsa Hc Hsc Hm Hh Hw).
  destruct (update_user_run user_id (set_system_message_of new_message) wa
              (default new_user_state (user_sessions w !! user_id)))
    as (wb & Hupd1 & Hsb & _); [rewrite Hsa; apply lookup_insert_eq|].
  assert (chainless wb) as Hwb
    by (apply (chainless_insert wa wb user_id _ Hsb); simpl;
        first [assumption | reflexivity]).
  destruct (update_user_run user_id (set_chain None) wb
              (set_system_message_of new_message
                 (default new_user_state (user_sessions w !! user_id))))
    as (wc & Hupd2 & Hsc' & _); [rewrite Hsb; apply lookup_insert_eq|].
  assert (chainless wc) as Hwc
    by (apply (chainless_insert wb wc user_id _ Hsc'); simpl;
        first [assumption | reflexivity]).
  destruct (create_or_refresh_chainless env user_id wc Hwc) as (wd & Hrun & Hwd & _).
  rewrite (bind_ret_eq _ _ _ _ _ Hget), (bind_ret_eq _ _ _ _ _ Hupd1),
    (bind_ret_eq _ _ _ _ _ Hupd2).
  unfold bind at 1. rewrite Hrun.
  destruct (global_vectorstore wc); [exact Hwd|].
  unfold bind, log_event, write_log, modify, ret; simpl.
  apply (chainless_same_users wd); [reflexivity | exact Hwd].
Qed.

Lemma clear_history_keeps_chainless payload w :
  chainless w -> chainless (snd (clear_history payload w)).
Proof.
  intros Hw. destruct payload as [data|]; [| exact Hw].
  unfold clear_history. cbv zeta.
  destruct (negb (Py.truthy (default "" (data !! "user_id")))); [exact Hw|].
  set (user_id := default "" (data !! "user_id")).
  rewrite (bind_ret_eq get_world _ w w w eq_refl).
  destruct (user_sessions w !! user_id) as [u|] eqn:Hu; [| exact Hw].
  destruct (Hw user_id u Hu) as (Hc & Hsc & Hm & Hh).
  destruct (update_user_run user_id (set_memory []) w u Hu) as (wa & Hupd1 & Hsa & _).
  destruct (update_user_run user_id (set_history []) wa (set_memory [] u))
    as (wb & Hupd2 & Hsb & _); [rewrite Hsa; apply lookup_insert_eq|].
  destruct (update_user_run user_id (set_chain None) wb
              (set_history [] (set_memory [] u)))
    as (wc & Hupd3 & Hsc' & _); [rewrite Hsb; apply lookup_insert_eq|].
  destruct (log_event_run "HistoryCleared" "User cleared their chat history."
              user_id wc) as (wd & Hlog & Hsd & _).
  rewrite (bind_ret_eq _ _ _ _ _ Hupd1), (bind_ret_eq _ _ _ _ _ Hupd2),
    (bind_ret_eq _ _ _ _ _ Hupd3), (bind_ret_eq _ _ _ _ _ Hlog).
  simpl.
  apply (chainless_insert w wd user_id
           (set_chain None (set_history [] (set_memory [] u))));
    [| reflexivity | exact Hsc | reflexivity | reflexivity | exact Hw].
  rewrite Hsd, Hsc', Hsb, Hsa, !insert_insert_eq. reflexivity.
Qed.

Lemma logout_keeps_chainless payload w :
  chainless w -> chainless (snd (logout payload w)).
Proof.
  intros Hw. destruct payload as [data|]; [| exact Hw].
  unfold logout. cbv zeta.
  destruct (negb (Py.truthy (default "" (data !! "user_id")))); [exact Hw|].
  unfold bind, modify, set_user_sessions, ret; simpl.
  eapply chainless_delete; [| exact Hw]. reflexivity.
Qed.

Lemma world_after_keeps_chainless env r w :
  chainless w -> chainless (world_after env r w).
Proof.
  intros Hw. destruct r; simpl.
  - apply (chainless_same_users w); [apply startup_keeps_users | exact Hw].
  - now apply refresh_chain_keeps_chainless.
  - now apply ask_question_keeps_chainless.
  - now apply set_system_message_keeps_chainless.
  - now apply get_system_message_keeps_chainless.
  - now apply clear_history_keeps_chainless.
  - now apply logout_keeps_chainless.
Qed.

(** In every world the server reaches, nobody has a chain and no turn has
    been recorded. *)
Lemma reached_worlds_are_chainless env requests : forall w,
  chainless w -> chainless (after_requests env requests w).
Proof.
  induction requests as [|r rest IH]; intros w Hw; simpl; [exact Hw|].
  apply IH. now apply world_after_keeps_chainless.
Qed.

(** ** The conversation engine *)

(** C5, what the code does.  In every world the server reaches from
    start-up, whatever requests came before, a request to [ask_question]
    that names a user and a question fails: with an index the chain cannot
    be bound ([LLMChain] is not bound) and the [NameError] leaves the
    endpoint before [handle_userinput] is called; without an index
    [handle_userinput] reads the key ['semantic_chain'], which no state has,
    before its [try].  The fallback of [handle_userinput] is never entered
    and no answer is returned. *)
Theorem every_ask_request_raises env requests data user_id user_question :
  data !! "user_id" = Some user_id ->
  data !! "question" = Some user_question ->
  exists w1,
    ask_question env (Some data) (after_requests env requests initial_world) =
      (Raise match global_vectorstore (after_requests env requests initial_world) with
             | Some _ => PyError "NameError" "name 'LLMChain' is not defined"
             | None => PyError "KeyError" "'semantic_chain'"
             end, w1).
Proof.
  intros Hid Hq.
  destruct (ask_question_chainless env data user_id user_question
              (after_requests env requests initial_world) Hid Hq)
    as (w1 & Hrun & _).
  - apply reached_worlds_are_chainless, chainless_initial.
  - exists w1. exact Hrun.
Qed.

Lemma every_ask_request_raises_witness :
  exists w1,
    ask_question (Sample3.env_with "Ubik" true true)
      (Some {[ "user_id" := Sample3.user; "question" := Sample3.the_question ]})
      (after_requests (Sample3.env_with "Ubik" true true) [StartUp] initial_world) =
      (Raise match global_vectorstore
                     (after_requests (Sample3.env_with "Ubik" true true) [StartUp]
                        initial_world) with
             | Some _ => PyError "NameError" "name 'LLMChain' is not defined"
             | None => PyError "KeyError" "'semantic_chain'"
             end, w1).
Proof.
  apply (every_ask_request_raises (Sample3.env_with "Ubik" true true) [StartUp]
           {[ "user_id" := Sample3.user; "question" := Sample3.the_question ]}
           Sample3.user Sample3.the_question).
  - vm_compute. reflexivity.
  - vm_compute. reflexivity.
Defined.

(** The sample request after a start-up that built the index: the request
    fails with the [NameError]. *)
Example ask_after_startup_fails :
  global_vectorstore
    (after_requests (Sample3.env_with "Ubik" true true) [StartUp] initial_world)
    = Some {| docs := ["Ubik Ubik Ubik Ubik"] |} /\
  fst (ask_question (Sample3.env_with "Ubik" true true)
         (Some {[ "user_id" := Sample3.user; "question" := Sample3.the_question ]})
         (after_requests (Sample3.env_with "Ubik" true true) [StartUp] initial_world))
    = Raise (PyError "NameError" "name 'LLMChain' is not defined").
Proof. split; vm_compute; reflexivity. Qed.

End Server3_Facts.

(** * Further properties of server2.py *)

Module Server2_More.

Import Server2.

(** ** The session manager *)

Lemma lookup_foldl_delete (keys : list string) : forall (table : gmap string Session) k,
  foldl (fun t sid => delete sid t) table keys !! k =
  if in_dec String.string_dec k keys then None else table !! k.
Proof.
  induction keys as [|k0 rest IH]; intros table k; simpl; [reflexivity|].
  rewrite IH.
  destruct (String.string_dec k0 k) as [->|Hne].
  - destruct (in_dec String.string_dec k rest); [reflexivity|].
    apply lookup_delete_eq.
  - destruct (in_dec String.string_dec k rest); [reflexivity|].
    now apply lookup_delete_ne.
Qed.

Lemma in_expired_sessions t (table : gmap string Session) k :
  In k (expired_sessions t table) <->
  exists s, table !! k = Some s /\ (t - last_accessed s >? session_timeout)%Z = true.
Proof.
  unfold expired_sessions. rewrite in_map_iff. split.
  - intros ([k' s] & Hk & Hin). simpl in Hk. subst k'.
    apply filter_In in Hin as [Hin Hexp]. simpl in Hexp.
    apply list_elem_of_In, elem_of_map_to_list in Hin. eauto.
  - intros (s & Hs & Hexp). exists (k, s). split; [reflexivity|].
    apply filter_In. split; [| exact Hexp].
    apply list_elem_of_In, elem_of_map_to_list. exact Hs.
Qed.

(** X1: [cleanup_expired_sessions] reads the clock once and removes exactly
    the sessions last accessed more than the timeout before that reading;
    every other session stays as it is. *)
Theorem cleanup_removes_exactly_the_expired env w :
  exists w',
    SessionManager_cleanup_expired_sessions env w = (Ret tt, w') /\
    clock_reads w' = S (clock_reads w) /\
    forall sid,
      sessions w' !! sid =
      match sessions w !! sid with
      | Some s =>
          if (now env (clock_reads w) - last_accessed s >? session_timeout)%Z
          then None else Some s
      | None => None
      end.
Proof.
  unfold SessionManager_cleanup_expired_sessions, datetime_now, get_world, modify,
    set_sessions, bind; simpl.
  eexists. split; [reflexivity|]. simpl. split; [reflexivity|].
  intros sid. rewrite lookup_foldl_delete.
  destruct (in_dec String.string_dec sid
              (expired_sessions (now env (clock_reads w)) (sessions w)))
    as [Hin|Hout].
  - apply in_expired_sessions in Hin as (s & Hs & Hexp). now rewrite Hs, Hexp.
  - destruct (sessions w !! sid) as [s|] eqn:Hs; [| reflexivity].
    destruct (now env (clock_reads w) - last_accessed s >? session_timeout)%Z eqn:Hexp;
      [| reflexivity].
    exfalso. apply Hout. apply in_expired_sessions. eauto.
Qed.

(** X2: a known session presented within its time-to-live (an elapsed time
    equal to the timeout included) is handed back under the same identifier,
    with only its last access moved to the next clock reading; no identifier
    is drawn and no other entry of the table changes. *)
Theorem live_session_is_touched env sid s w :
  sid <> "" ->
  sessions w !! sid = Some s ->
  (now env (clock_reads w) - last_accessed s <= session_timeout)%Z ->
  exists w',
    get_session env (Some sid) w =
      (Ret {| session_id := sid;
              data := Some (set_last_accessed (now env (S (clock_reads w))) s) |}, w') /\
    sessions w' =
      <[sid := set_last_accessed (now env (S (clock_reads w))) s]> (sessions w) /\
    uuid_draws w' = uuid_draws w.
Proof.
  intros Hne Hs Hlive.
  assert (Py.truthy sid = true) as Ht by (destruct sid; [congruence | reflexivity]).
  assert ((now env (clock_reads w) - last_accessed s >? session_timeout)%Z = false)
    as Hcheck.
  { destruct (Z.gtb_spec (now env (clock_reads w) - last_accessed s) session_timeout);
      [lia | reflexivity]. }
  unfold get_session. rewrite Ht.
  unfold SessionManager_get_session, get_world, datetime_now, modify, set_sessions,
    ret, bind; simpl.
  rewrite Hs; simpl. rewrite Hcheck; simpl.
  eexists. split; [reflexivity|]. split; reflexivity.
Qed.

Lemma live_session_is_touched_witness :
  exists w',
    get_session (Sample2.env_replying "") (Some Sample2.sid) Sample2.world_with_quiz =
      (Ret {| session_id := Sample2.sid;
              data := Some (set_last_accessed
                              (now (Sample2.env_replying "")
                                 (S (clock_reads Sample2.world_with_quiz)))
                              Sample2.session_with_quiz) |}, w') /\
    sessions w' =
      <[Sample2.sid := set_last_accessed
                         (now (Sample2.env_replying "")
                            (S (clock_reads Sample2.world_with_quiz)))
                         Sample2.session_with_quiz]>
        (sessions Sample2.world_with_quiz) /\
    uuid_draws w' = uuid_draws Sample2.world_with_quiz.
Proof.
  apply (live_session_is_touched (Sample2.env_replying "") Sample2.sid
           Sample2.session_with_quiz Sample2.world_with_quiz).
  - discriminate.
  - vm_compute. reflexivity.
  - vm_compute. discriminate.
Defined.

Lemma create_session_run env w :
  exists w1,
    SessionManager_create_session env w = (Ret (uuid4 env (uuid_draws w)), w1) /\
    sessions w1 =
      <[uuid4 env (uuid_draws w) :=
          {| created_at := now env (clock_reads w);
             last_accessed := now env (S (clock_reads w));
             chain := None;
             memory := [];
             active_quizzes := empty |}]> (sessions w) /\
    clock_reads w1 = S (S (clock_reads w)) /\
    uuid_draws w1 = S (uuid_draws w).
Proof.
  unfold SessionManager_create_session, uuid4_str, datetime_now, modify,
    set_sessions, ret, bind; simpl.
  eexists. split; [reflexivity|]. repeat split.
Qed.

Lemma get_session_found env sid s w :
  sessions w !! sid = Some s ->
  (now env (clock_reads w) - last_accessed s <= session_timeout)%Z ->
  exists w1,
    SessionManager_get_session env sid w =
      (Ret (Some (set_last_accessed (now env (S (clock_reads w))) s)), w1) /\
    sessions w1 = <[sid := set_last_accessed (now env (S (clock_reads w))) s]> (sessions w).
Proof.
  intros Hs Hlive.
  assert ((now env (clock_reads w) - last_accessed s >? session_timeout)%Z = false)
    as Hcheck.
  { destruct (Z.gtb_spec (now env (clock_reads w) - last_accessed s) session_timeout);
      [lia | reflexivity]. }
  unfold SessionManager_get_session, get_world, datetime_now, modify, set_sessions,
    ret, bind; simpl.
  rewrite Hs; simpl. rewrite Hcheck; simpl.
  eexists. split; reflexivity.
Qed.

Lemma get_session_absent env sid w :
  sessions w !! sid = None ->
  SessionManager_get_session env sid w = (Ret None, w).
Proof.
  intros Hs. unfold SessionManager_get_session, get_world, bind, ret.
  now rewrite Hs.
Qed.

(** Creating a session and fetching it at once. *)
Lemma create_then_get env w :
  (now env (S (S (clock_reads w))) - now env (S (clock_reads w)) <= session_timeout)%Z ->
  exists w1 fresh w2,
    SessionManager_create_session env w = (Ret (uuid4 env (uuid_draws w)), w1) /\
    SessionManager_get_session env (uuid4 env (uuid_draws w)) w1 = (Ret (Some fresh), w2) /\
    memory fresh = [] /\ chain fresh = None /\ active_quizzes fresh = empty /\
    sessions w2 = <[uuid4 env (uuid_draws w) := fresh]> (sessions w).
Proof.
  intros Hclock.
  destruct (create_session_run env w) as (w1 & Hcreate & Hs1 & Hc1 & _).
  destruct (get_session_found env (uuid4 env (uuid_draws w))
              {| created_at := now env (clock_reads w);
                 last_accessed := now env (S (clock_reads w));
                 chain := None; memory := []; active_quizzes := empty |} w1)
    as (w2 & Hget & Hs2).
  - rewrite Hs1. apply lookup_insert_eq.
  - rewrite Hc1. simpl. exact Hclock.
  - exists w1. eexists. exists w2. split; [exact Hcreate|]. split; [exact Hget|].
    simpl. split; [reflexivity|]. split; [reflexivity|]. split; [reflexivity|].
    rewrite Hs2, Hs1. apply insert_insert_eq.
Qed.

(** X3: a request without the header, with an empty one, or with an
    identifier the table does not know gets a new session (nothing in memory,
    no chain, no quiz) under the identifier just drawn; every entry of the
    table under another key is untouched.  The clock is supposed not to jump
    by a whole time-to-live between the creation and the first lookup. *)
Theorem unknown_identifier_gets_new_session env header w :
  match header with
  | Some s => s = "" \/ sessions w !! s = None
  | None => True
  end ->
  (now env (S (S (clock_reads w))) - now env (S (clock_reads w)) <= session_timeout)%Z ->
  exists fresh w',
    get_session env header w =
      (Ret {| session_id := uuid4 env (uuid_draws w); data := Some fresh |}, w') /\
    memory fresh = [] /\
    chain fresh = None /\
    active_quizzes fresh = empty /\
    sessions w' !! uuid4 env (uuid_draws w) = Some fresh /\
    forall other, other <> uuid4 env (uuid_draws w) ->
                  sessions w' !! other = sessions w !! other.
Proof.
  intros Hunknown Hclock.
  destruct (create_then_get env w Hclock)
    as (w1 & fresh & w2 & Hcreate & Hget & Hm & Hc & Hq & Hs2).
  exists fresh, w2.
  split; [| split; [exact Hm | split; [exact Hc | split; [exact Hq | split]]]].
  - unfold get_session.
    assert ((sid <- SessionManager_create_session env ;;
             session <- SessionManager_get_session env sid ;;
             match session with
             | Some _ => ret {| session_id := sid; data := session |}
             | None =>
                 sid' <- SessionManager_create_session env ;;
                 session' <- SessionManager_get_session env sid' ;;
                 ret {| session_id := sid'; data := session' |}
             end)%py w =
            (Ret {| session_id := uuid4 env (uuid_draws w); data := Some fresh |}, w2))
      as Hfirst.
    { unfold bind. rewrite Hcreate, Hget. reflexivity. }
    destruct header as [s|]; [| exact Hfirst].
    destruct (Py.truthy s) eqn:Ht; [| exact Hfirst].
    destruct Hunknown as [->|Hnone]; [discriminate|].
    unfold bind at 1. unfold ret at 1.
    unfold bind at 1. rewrite (get_session_absent env s w Hnone).
    unfold bind. rewrite Hcreate, Hget. reflexivity.
  - rewrite Hs2. apply lookup_insert_eq.
  - intros other Hother. rewrite Hs2. apply lookup_insert_ne. congruence.
Qed.

Lemma unknown_identifier_gets_new_session_witness :
  exists fresh w',
    get_session (Sample2.env_replying "") (Some "no-such-session")
      Sample2.world_with_quiz =
      (Ret {| session_id :=
                uuid4 (Sample2.env_replying "") (uuid_draws Sample2.world_with_quiz);
              data := Some fresh |}, w') /\
    memory fresh = [] /\
    chain fresh = None /\
    active_quizzes fresh = empty /\
    sessions w' !! uuid4 (Sample2.env_replying "")
                     (uuid_draws Sample2.world_with_quiz) = Some fresh /\
    forall other,
      other <> uuid4 (Sample2.env_replying "") (uuid_draws Sample2.world_with_quiz) ->
      sessions w' !! other = sessions Sample2.world_with_quiz !! other.
Proof.
  apply (unknown_identifier_gets_new_session (Sample2.env_replying "")
           (Some "no-such-session") Sample2.world_with_quiz).
  - right. vm_compute. reflexivity.
  - vm_compute. discriminate.
Defined.

(** ** Submitting answers *)

(** Any call, accepted or not, leaves every other session as it is, and in
    its own session changes nothing but the quizzes, of which it neither adds
    nor removes one. *)
Lemma submit_touches_quizzes_only session c w :
  (forall other, other <> session_id session ->
     sessions (snd (submit session c w)) !! other = sessions w !! other) /\
  (forall sd, sessions w !! session_id session = Some sd ->
     exists sd',
       sessions (snd (submit session c w)) !! session_id session = Some sd' /\
       created_at sd' = created_at sd /\
       last_accessed sd' = last_accessed sd /\
       chain sd' = chain sd /\
       memory sd' = memory sd /\
       dom (active_quizzes sd') = dom (active_quizzes sd)) /\
  (sessions w !! session_id session = None ->
   sessions (snd (submit session c w)) !! session_id session = None) /\
  global_vectorstore (snd (submit session c w)) = global_vectorstore w /\
  uuid_draws (snd (submit session c w)) = uuid_draws w.
Proof.
  unfold submit.
  pose proof (Server2_Facts.submit_answer_step (to_quiz c) (to_question c) (body c)
                session w) as H.
  assert (global_vectorstore
            (snd (submit_answer (to_quiz c) (to_question c) (body c) session w))
          = global_vectorstore w /\
          uuid_draws
            (snd (submit_answer (to_quiz c) (to_question c) (body c) session w))
          = uuid_draws w) as [Hg Hu].
  { unfold submit_answer, bind, logger, raise, ret, the_data, session_data,
      update_session, modify; simpl.
    destruct (Py.uuid_parses (to_quiz c) && Py.uuid_parses (to_question c)); simpl;
      [| split; reflexivity].
    destruct (data session); simpl; [| split; reflexivity].
    destruct (sessions w !! session_id session) as [sd|]; simpl; [| split; reflexivity].
    destruct (active_quizzes sd !! to_quiz c) as [quiz|]; simpl; [| split; reflexivity].
    destruct (has_question (to_question c) quiz); simpl; split; reflexivity. }
  destruct (submit_answer (to_quiz c) (to_question c) (body c) session w)
    as [[r|e] w'] eqn:E; simpl in *.
  - destruct H as (sd & quiz & _ & _ & Hs & Hz & _ & Hw & _).
    split; [| split; [| split; [| split]]]; try assumption.
    + intros other Hother. rewrite Hw. apply lookup_insert_ne. congruence.
    + intros sd0 Hsd0. rewrite Hs in Hsd0. inversion Hsd0; subst sd0.
      rewrite Hw, lookup_insert_eq. eexists. split; [reflexivity|]. simpl.
      repeat split. apply dom_insert_lookup_L. eauto.
    + intros Hnone. congruence.
  - split; [| split; [| split; [| split]]]; try assumption.
    + intros other _. now rewrite H.
    + intros sd Hsd. exists sd. rewrite H. repeat split. assumption.
    + intros Hnone. now rewrite H.
Qed.

(** *** A request with its session dependency *)

Lemma create_session_frame env w :
  exists w1,
    SessionManager_create_session env w = (Ret (uuid4 env (uuid_draws w)), w1) /\
    uuid_draws w1 = S (uuid_draws w) /\
    global_vectorstore w1 = global_vectorstore w /\
    forall k, k <> uuid4 env (uuid_draws w) -> sessions w1 !! k = sessions w !! k.
Proof.
  unfold SessionManager_create_session, uuid4_str, datetime_now, modify,
    set_sessions, ret, bind; simpl.
  eexists. split; [reflexivity|]. simpl. split; [reflexivity|].
  split; [reflexivity|]. intros k Hk. apply lookup_insert_ne. congruence.
Qed.

Lemma manager_get_session_frame env sid w :
  exists r w1,
    SessionManager_get_session env sid w = (Ret r, w1) /\
    uuid_draws w1 = uuid_draws w /\
    global_vectorstore w1 = global_vectorstore w /\
    forall k, k <> sid -> sessions w1 !! k = sessions w !! k.
Proof.
  unfold SessionManager_get_session, get_world, datetime_now, modify, set_sessions,
    ret, bind; simpl.
  destruct (sessions w !! sid) as [s|]; simpl.
  - destruct (now env (clock_reads w) - last_accessed s >? session_timeout)%Z; simpl;
      eexists; eexists; (split; [reflexivity|]); simpl;
      (split; [reflexivity|]); (split; [reflexivity|]); intros k Hk.
    + apply lookup_delete_ne. congruence.
    + apply lookup_insert_ne. congruence.
  - eexists. eexists. split; [reflexivity|]. repeat split.
Qed.

(** The dependency changes, in the table, the entry under the identifier it
    was given and the entries under the identifiers it draws, two at most;
    the session it hands over is filed under one of these. *)
Lemma get_session_frame env header w :
  exists h w1,
    get_session env header w = (Ret h, w1) /\
    global_vectorstore w1 = global_vectorstore w /\
    (header = Some (session_id h) \/
     session_id h = uuid4 env (uuid_draws w) \/
     session_id h = uuid4 env (S (uuid_draws w))) /\
    forall k,
      header <> Some k ->
      k <> uuid4 env (uuid_draws w) ->
      k <> uuid4 env (S (uuid_draws w)) ->
      sessions w1 !! k = sessions w !! k.
Proof.
  assert (forall sid w0,
            (header = Some sid \/ sid = uuid4 env (uuid_draws w)) ->
            (uuid_draws w0 = uuid_draws w \/ uuid_draws w0 = S (uuid_draws w)) ->
            exists h w1,
              (session <- SessionManager_get_session env sid ;;
               match session with
               | Some _ => ret {| session_id := sid; data := session |}
               | None =>
                   sid' <- SessionManager_create_session env ;;
                   session' <- SessionManager_get_session env sid' ;;
                   ret {| session_id := sid'; data := session' |}
               end)%py w0 = (Ret h, w1) /\
              global_vectorstore w1 = global_vectorstore w0 /\
              (header = Some (session_id h) \/
               session_id h = uuid4 env (uuid_draws w) \/
               session_id h = uuid4 env (S (uuid_draws w))) /\
              forall k,
                header <> Some k ->
                k <> uuid4 env (uuid_draws w) ->
                k <> uuid4 env (S (uuid_draws w)) ->
                sessions w1 !! k = sessions w0 !! k) as Hrest.
  { intros sid w0 Hsid Hdraws.
    assert (forall k, header <> Some k -> k <> uuid4 env (uuid_draws w) -> k <> sid)
      as Hother.
    { intros k H1 H2 ->. destruct Hsid as [Hh | Hd]; [now apply H1 | now apply H2]. }
    destruct (manager_get_session_frame env sid w0) as (r & wa & Hget & Hda & Hga & Hfa).
    unfold bind at 1. rewrite Hget.
    destruct r as [s|].
    - eexists. exists wa. split; [reflexivity|]. split; [exact Hga|].
      split; [simpl; destruct Hsid as [Hh | Hd]; [now left | right; now left]|].
      intros k H1 H2 _. apply Hfa. now apply Hother.
    - destruct (create_session_frame env wa) as (wb & Hcreate & Hdb & Hgb & Hfb).
      destruct (manager_get_session_frame env (uuid4 env (uuid_draws wa)) wb)
        as (r' & wc & Hget' & _ & Hgc & Hfc).
      unfold bind at 1. rewrite Hcreate. unfold bind at 1. rewrite Hget'.
      eexists. exists wc. split; [reflexivity|]. split; [congruence|].
      split.
      { simpl. rewrite Hda. destruct Hdraws as [-> | ->];
          [right; now left | right; now right]. }
      intros k H1 H2 H3.
      assert (k <> uuid4 env (uuid_draws wa)) as Hk
        by (rewrite Hda; destruct Hdraws as [-> | ->]; assumption).
      rewrite (Hfc k Hk), (Hfb k Hk). apply Hfa. now apply Hother. }
  assert (exists h w1,
            (sid <- SessionManager_create_session env ;;
             session <- SessionManager_get_session env sid ;;
             match session with
             | Some _ => ret {| session_id := sid; data := session |}
             | None =>
                 sid' <- SessionManager_create_session env ;;
                 session' <- SessionManager_get_session env sid' ;;
                 ret {| session_id := sid'; data := session' |}
             end)%py w = (Ret h, w1) /\
            global_vectorstore w1 = global_vectorstore w /\
            (header = Some (session_id h) \/
             session_id h = uuid4 env (uuid_draws w) \/
             session_id h = uuid4 env (S (uuid_draws w))) /\
            forall k,
              header <> Some k ->
              k <> uuid4 env (uuid_draws w) ->
              k <> uuid4 env (S (uuid_draws w)) ->
              sessions w1 !! k = sessions w !! k) as Hfresh.
  { destruct (create_session_frame env w) as (wa & Hcreate & Hda & Hga & Hfa).
    destruct (Hrest (uuid4 env (uuid_draws w)) wa) as (h & w1 & Hrun & Hg & Hkey & Hf).
    - now right.
    - right. exact Hda.
    - unfold bind at 1. rewrite Hcreate.
      exists h, w1. split; [exact Hrun|]. split; [congruence|].
      split; [exact Hkey|].
      intros k H1 H2 H3. rewrite (Hf k H1 H2 H3). now apply Hfa. }
  unfold get_session. destruct header as [s|]; [| exact Hfresh].
  destruct (Py.truthy s); [| exact Hfresh].
  unfold bind at 1, ret at 1.
  apply Hrest; now left.
Qed.

Lemma get_session_live env sid s w :
  sid <> "" ->
  sessions w !! sid = Some s ->
  (now env (clock_reads w) - last_accessed s <= session_timeout)%Z ->
  exists w1,
    get_session env (Some sid) w =
      (Ret {| session_id := sid;
              data := Some (set_last_accessed (now env (S (clock_reads w))) s) |}, w1) /\
    sessions w1 =
      <[sid := set_last_accessed (now env (S (clock_reads w))) s]> (sessions w) /\
    uuid_draws w1 = uuid_draws w.
Proof.
  intros Hne Hs Hlive.
  assert (Py.truthy sid = true) as Ht by (destruct sid; [congruence | reflexivity]).
  assert ((now env (clock_reads w) - last_accessed s >? session_timeout)%Z = false)
    as Hcheck.
  { destruct (Z.gtb_spec (now env (clock_reads w) - last_accessed s) session_timeout);
      [lia | reflexivity]. }
  unfold get_session. rewrite Ht.
  unfold SessionManager_get_session, get_world, datetime_now, modify, set_sessions,
    ret, bind; simpl.
  rewrite Hs; simpl. rewrite Hcheck; simpl.
  eexists. split; [reflexivity|]. split; reflexivity.
Qed.

(** X4: what one request to [submit_answer] can touch, the [get_session]
    dependency included.  The vector store is never touched.  In the session
    table, only the entry under the identifier presented and the entries
    under the identifiers drawn on the way (two at most) can change.  When
    the identifier presented is that of a live session, no identifier is
    drawn and that session keeps its creation time, chain, memory and the
    set of its quiz identifiers; its last access moves to the second clock
    reading of the request. *)
Theorem answer_request_frame env header c w :
  exists r w',
    submit_answer_request env header c w = (r, w') /\
    global_vectorstore w' = global_vectorstore w /\
    (forall k,
       header <> Some k ->
       k <> uuid4 env (uuid_draws w) ->
       k <> uuid4 env (S (uuid_draws w)) ->
       sessions w' !! k = sessions w !! k) /\
    (forall sid s,
       header = Some sid -> sid <> "" ->
       sessions w !! sid = Some s ->
       (now env (clock_reads w) - last_accessed s <= session_timeout)%Z ->
       exists s',
         sessions w' !! sid = Some s' /\
         created_at s' = created_at s /\
         last_accessed s' = now env (S (clock_reads w)) /\
         chain s' = chain s /\
         memory s' = memory s /\
         dom (active_quizzes s') = dom (active_quizzes s) /\
         uuid_draws w' = uuid_draws w).
Proof.
  destruct (get_session_frame env header w) as (h & w1 & Hdep & Hg1 & Hkey & Hf1).
  destruct (submit h c w1) as [r w'] eqn:Hsub.
  exists r, w'.
  assert (submit_answer_request env header c w = (r, w')) as Hrun.
  { unfold submit_answer_request, bind. rewrite Hdep. exact Hsub. }
  split; [exact Hrun|].
  destruct (submit_touches_quizzes_only h c w1) as (Ho & Hs & Hn & Hg & Hu).
  rewrite Hsub in Ho, Hs, Hn, Hg, Hu. simpl in Ho, Hs, Hn, Hg, Hu.
  split; [congruence|]. split.
  - intros k H1 H2 H3.
    assert (k <> session_id h) as Hk.
    { intros ->. destruct Hkey as [Hh | [Hd | Hd]];
        [now apply H1 | now apply H2 | now apply H3]. }
    rewrite (Ho k Hk). now apply Hf1.
  - intros sid s -> Hne Hfound Hlive.
    destruct (get_session_live env sid s w Hne Hfound Hlive) as (w2 & Hlive_run & Hs2 & Hu2).
    rewrite Hlive_run in Hdep. inversion Hdep; subst h w2.
    simpl in Hs.
    destruct (Hs (set_last_accessed (now env (S (clock_reads w))) s))
      as (s' & Hs' & Hc' & Hl' & Hch' & Hm' & Hd').
    { rewrite Hs2. apply lookup_insert_eq. }
    exists s'. split; [exact Hs'|]. split; [exact Hc'|]. split; [exact Hl'|].
    split; [exact Hch'|]. split; [exact Hm'|]. split; [exact Hd'|]. congruence.
Qed.

Lemma size_list_to_set_le (l : list string) :
  (size (list_to_set l : gset string) <= length l)%nat.
Proof.
  induction l as [|x l IH].
  - rewrite list_to_set_nil, size_empty. simpl. lia.
  - rewrite list_to_set_cons, size_union_alt, size_singleton. simpl.
    assert (size (list_to_set l ∖ {[x]} : gset string) <= size (list_to_set l : gset string))%nat
      as Hle by (apply subseteq_size, subseteq_difference_l; reflexivity).
    lia.
Qed.

(** A quiz whose answers are filed under its questions has no more answers
    than questions. *)
Lemma answers_bounded_by_questions quiz :
  (forall k, is_Some (answers quiz !! k) -> has_question k quiz = true) ->
  (size (answers quiz) <= length (questions quiz))%nat.
Proof.
  intros Hin.
  assert (size (dom (answers quiz)) = size (answers quiz)) as <- by apply size_dom.
  transitivity (size (list_to_set (map id (questions quiz)) : gset string)).
  - apply subseteq_size. intros k Hk. apply elem_of_dom in Hk.
    apply Hin, Server2_Facts.has_question_belongs in Hk as (q & Hq & <-).
    apply elem_of_list_to_set, list_elem_of_In, in_map. exact Hq.
  - etransitivity; [apply size_list_to_set_le|]. now rewrite length_map.
Qed.

Lemma submit_keeps_in_step session c w quiz_id quiz :
  lookup_quiz (session_id session) quiz_id w = Some quiz ->
  answers_in_step quiz ->
  exists quiz',
    lookup_quiz (session_id session) quiz_id (snd (submit session c w)) = Some quiz' /\
    questions quiz' = questions quiz /\
    answers_in_step quiz'.
Proof.
  intros Hq [Hkeys Hsize]. unfold submit.
  pose proof (Server2_Facts.submit_answer_step (to_quiz c) (to_question c) (body c)
                session w) as H.
  destruct (submit_answer (to_quiz c) (to_question c) (body c) session w)
    as [[r|e] w'] eqn:E; simpl.
  - destruct H as (sd & quiz0 & _ & _ & Hs & Hz & Hhas & Hw & _).
    unfold lookup_quiz in *. rewrite Hs in Hq. rewrite Hw, lookup_insert_eq. simpl.
    destruct (String.eqb_spec (to_quiz c) quiz_id) as [Heq|Hne].
    + rewrite Heq in Hz |- *. rewrite lookup_insert_eq.
      rewrite Hz in Hq. inversion Hq; subst quiz0.
      eexists. split; [reflexivity|]. split; [reflexivity|].
      split; simpl.
      * intros k Hk. unfold has_question in *. simpl.
        destruct (decide (to_question c = k)) as [<-|Hk'].
        -- exact Hhas.
        -- rewrite lookup_insert_ne in Hk by assumption. now apply Hkeys.
      * rewrite map_size_insert.
        destruct (answers quiz !! to_question c); unfold Datatypes.id; lia.
    + rewrite lookup_insert_ne by assumption.
      exists quiz. split; [assumption|]. split; [reflexivity | split; assumption].
  - unfold lookup_quiz in *. rewrite H. exists quiz.
    split; [assumption|]. split; [reflexivity | split; assumption].
Qed.

(** X5: a quiz whose stored answers are filed under its own questions and
    are no more than its cursor counts (a quiz just started is one) stays so
    over any sequence of [submit_answer] calls; the number of stored answers
    is then at most the cursor and at most the number of questions, which is
    what [get_quiz_result] reports as answered and total. *)
Theorem answers_stay_in_step session calls : forall w quiz_id quiz,
  lookup_quiz (session_id session) quiz_id w = Some quiz ->
  answers_in_step quiz ->
  exists quiz',
    lookup_quiz (session_id session) quiz_id (after_calls session calls w) = Some quiz' /\
    answers_in_step quiz' /\
    (Z.of_nat (size (answers quiz')) <= current_question quiz')%Z /\
    (size (answers quiz') <= length (questions quiz'))%nat.
Proof.
  induction calls as [|c rest IH]; intros w quiz_id quiz Hq Hstep; simpl.
  - exists quiz. split; [assumption|]. split; [assumption|].
    split; [apply Hstep | apply answers_bounded_by_questions, Hstep].
  - destruct (submit_keeps_in_step session c w quiz_id quiz Hq Hstep)
      as (q1 & H1 & _ & Hstep1).
    exact (IH _ _ _ H1 Hstep1).
Qed.

Lemma answers_stay_in_step_witness :
  exists quiz',
    lookup_quiz (session_id Sample2.handle) Sample2.quiz1
      (after_calls Sample2.handle [Sample2.call1; Sample2.call1]
         Sample2.world_with_quiz) = Some quiz' /\
    answers_in_step quiz' /\
    (Z.of_nat (size (answers quiz')) <= current_question quiz')%Z /\
    (size (answers quiz') <= length (questions quiz'))%nat.
Proof.
  apply (answers_stay_in_step Sample2.handle [Sample2.call1; Sample2.call1]
           Sample2.world_with_quiz Sample2.quiz1 Sample2.one_question_quiz).
  - vm_compute. reflexivity.
  - split.
    + intros k [a Ha]. simpl in Ha. rewrite lookup_empty in Ha. discriminate.
    + simpl. rewrite map_size_empty. lia.
Defined.

(** ** Starting a quiz, once more *)

Lemma bind_raises {W A B} (m : M W A) (k : A -> M W B) w e w' :
  bind m k w = (Raise e, w') ->
  m w = (Raise e, w') \/ exists a w1, m w = (Ret a, w1) /\ k a w1 = (Raise e, w').
Proof.
  unfold bind. destruct (m w) as [[a|e0] w1]; intros H.
  - right. eauto.
  - left. inversion H. reflexivity.
Qed.

(** A call of the chain that returns saves the exchange in the memory the
    chain is bound to; a call that raises saves nothing. *)
Lemma call_chain_run env c prompt w :
  exists w1,
    match chain_call env (chain_calls w) (retriever c) (chain_memory c w) prompt with
    | Ret answer =>
        call_chain env c prompt w = (Ret answer, w1) /\
        sessions w1 =
          match sessions w !! memory_owner c with
          | Some s =>
              <[memory_owner c := set_memory (memory s ++ [(prompt, answer)]) s]>
                (sessions w)
          | None => sessions w
          end
    | Raise e =>
        call_chain env c prompt w = (Raise e, w1) /\ sessions w1 = sessions w
    end /\
    uuid_draws w1 = uuid_draws w /\
    global_vectorstore w1 = global_vectorstore w.
Proof.
  unfold call_chain, next_chain_call, get_world, lift, update_session, modify,
    set_sessions, ret, bind; simpl.
  change (chain_memory c _) with (chain_memory c w).
  destruct (chain_call env (chain_calls w) (retriever c) (chain_memory c w) prompt)
    as [answer|e]; simpl; eexists;
    (split; [split; reflexivity | split; reflexivity]).
Qed.

Lemma build_questions_draws env lines : forall w,
  exists w',
    build_questions env lines w =
      (Ret (numbered env (uuid_draws w) (List.filter Py.truthy lines)), w') /\
    sessions w' = sessions w /\
    global_vectorstore w' = global_vectorstore w /\
    uuid_draws w' = (uuid_draws w + length (List.filter Py.truthy lines))%nat.
Proof.
  induction lines as [|line rest IH]; intros w; simpl.
  - exists w. repeat split. lia.
  - destruct (Py.truthy line) eqn:Ht.
    + unfold bind, uuid4_str, ret; simpl.
      match goal with
      | |- context [build_questions env rest ?w1] =>
          destruct (IH w1) as (w' & Hrun & Hs & Hg & Hu); rewrite Hrun
      end.
      exists w'. simpl in *. repeat split; try assumption. lia.
    + apply IH.
Qed.

(** X6: [generate_questions] for any integer count: a count that is not
    negative cuts the questions to that many, a negative one drops that many
    from the end; either way one identifier is drawn for every kept line of
    the response, the lines that are cut off included. *)
Theorem generate_questions_any_count env c n w answer_text :
  chain_call env (chain_calls w) (retriever c) (chain_memory c w)
    (questions_prompt env n) = Ret answer_text ->
  exists qs w',
    generate_questions env c n w = (Ret qs, w') /\
    length qs =
      (if (0 <=? n)%Z
       then Nat.min (Z.to_nat n) (length (question_lines answer_text))
       else length (question_lines answer_text) - Z.to_nat (- n))%nat /\
    qs = slice_to n (numbered env (uuid_draws w) (question_lines answer_text)) /\
    uuid_draws w' = (uuid_draws w + length (question_lines answer_text))%nat.
Proof.
  intros Hcall.
  destruct (call_chain_run env c (questions_prompt env n) w) as (w1 & Hrun & Hu1 & _).
  rewrite Hcall in Hrun. destruct Hrun as [Hrun _].
  destruct (build_questions_draws env (question_lines answer_text) w1)
    as (w2 & Hbuild & _ & _ & Hu2).
  rewrite Server2_Facts.question_lines_all_truthy in Hbuild, Hu2.
  eexists. exists w2. split.
  - unfold generate_questions, bind. rewrite Hrun, Hbuild. reflexivity.
  - rewrite Hu1. split; [| split; [reflexivity | lia]].
    unfold slice_to. destruct (0 <=? n)%Z.
    + now rewrite length_take, Server2_Facts.numbered_length.
    + rewrite length_take, Server2_Facts.numbered_length. lia.
Qed.

Lemma generate_questions_any_count_witness :
  exists qs w',
    generate_questions (Sample2.env_replying Sample2.two_questions) Sample2.the_chain
      (-1) Sample2.world_with_quiz = (Ret qs, w') /\
    length qs =
      (if (0 <=? -1)%Z
       then Nat.min (Z.to_nat (-1)) (length (question_lines Sample2.two_questions))
       else length (question_lines Sample2.two_questions) - Z.to_nat (- -1))%nat /\
    qs = slice_to (-1)
           (numbered (Sample2.env_replying Sample2.two_questions)
              (uuid_draws Sample2.world_with_quiz)
              (question_lines Sample2.two_questions)) /\
    uuid_draws w' =
      (uuid_draws Sample2.world_with_quiz
       + length (question_lines Sample2.two_questions))%nat.
Proof.
  apply (generate_questions_any_count (Sample2.env_replying Sample2.two_questions)
           Sample2.the_chain (-1) Sample2.world_with_quiz Sample2.two_questions).
  reflexivity.
Defined.

Lemma generate_questions_effect env c n w answer_text :
  chain_call env (chain_calls w) (retriever c) (chain_memory c w)
    (questions_prompt env n) = Ret answer_text ->
  exists w',
    generate_questions env c n w =
      (Ret (slice_to n (numbered env (uuid_draws w) (question_lines answer_text))), w') /\
    sessions w' =
      match sessions w !! memory_owner c with
      | Some s =>
          <[memory_owner c :=
              set_memory (memory s ++ [(questions_prompt env n, answer_text)]) s]>
            (sessions w)
      | None => sessions w
      end.
Proof.
  intros Hcall.
  destruct (call_chain_run env c (questions_prompt env n) w) as (w1 & Hrun & Hu1 & _).
  rewrite Hcall in Hrun. destruct Hrun as [Hrun Hs1].
  destruct (build_questions_draws env (question_lines answer_text) w1)
    as (w2 & Hbuild & Hs2 & _ & _).
  rewrite Server2_Facts.question_lines_all_truthy in Hbuild.
  exists w2. split.
  - unfold generate_questions, bind. rewrite Hrun, Hbuild, Hu1. reflexivity.
  - congruence.
Qed.

(** X7: a successful [start_quiz] on a session whose chain is bound to the
    session's own memory (the chain [create_chain] builds is) appends the
    generation prompt and the model's reply to that conversational memory,
    adds the new quiz to the session's quizzes without touching the others,
    and leaves every other session as it is. *)
Theorem start_quiz_effects env session w sd c answer_text :
  data session <> None ->
  sessions w !! session_id session = Some sd ->
  chain_in_use (session_id session) sd w = Some c ->
  memory_owner c = session_id session ->
  chain_call env (chain_calls w) (retriever c) (chain_memory c w)
    (questions_prompt env 5) = Ret answer_text ->
  exists r w' sd',
    start_quiz env session w = (Ret r, w') /\
    sessions w' !! session_id session = Some sd' /\
    memory sd' = memory sd ++ [(questions_prompt env 5, answer_text)] /\
    chain sd' = Some c /\
    active_quizzes sd' =
      <[started_quiz_id r :=
          {| questions := started_questions r; answers := empty; current_question := 0 |}]>
        (active_quizzes sd) /\
    (forall other_quiz, other_quiz <> started_quiz_id r ->
       active_quizzes sd' !! other_quiz = active_quizzes sd !! other_quiz) /\
    (forall other, other <> session_id session ->
       sessions w' !! other = sessions w !! other).
Proof.
  intros Hd Hs Hc Hown Hcall.
  unfold start_quiz, the_data.
  destruct (data session) as [d|]; [| congruence].
  unfold bind at 1. unfold session_data at 1. rewrite Hs.
  unfold chain_in_use in Hc.
  destruct (chain sd) as [c0|] eqn:Hchain.
  - inversion Hc; subst c0.
    unfold bind, ret, uuid4_str, session_data; simpl. rewrite Hs, Hchain.
    match goal with
    | |- context [generate_questions env c 5 ?w1] =>
        destruct (generate_questions_effect env c 5 w1 answer_text Hcall)
          as (w2 & Hrun & Hs2);
        rewrite Hrun
    end.
    simpl in Hs2. rewrite Hown, Hs in Hs2.
    unfold update_session, modify, set_sessions; simpl.
    rewrite Hs2, lookup_insert_eq.
    eexists. eexists. eexists. split; [reflexivity|]. simpl.
    rewrite lookup_insert_eq. split; [reflexivity|]. simpl.
    split; [reflexivity|]. split; [assumption|]. split; [reflexivity|].
    split.
    + intros other_quiz Hother. now apply lookup_insert_ne.
    + intros other Hother. rewrite !lookup_insert_ne by congruence. reflexivity.
  - destruct (global_vectorstore w) as [store|] eqn:Hg; [| discriminate].
    inversion Hc as [Hc'].
    unfold create_chain, uuid4_str, session_data, get_world,
      update_session, modify, set_sessions, ret, bind; simpl.
    rewrite Hg; simpl. rewrite Hs; simpl. rewrite lookup_insert_eq; simpl.
    rewrite Hc'.
    match goal with
    | |- context [generate_questions env c 5 ?w1] =>
        assert (chain_call env (chain_calls w1) (retriever c) (chain_memory c w1)
                  (questions_prompt env 5) = Ret answer_text) as Hcall1;
        [ rewrite (Server2_Facts.chain_memory_set_chain c (session_id session) sd
                     (Some c) w w1 Hs);
          [exact Hcall | rewrite <- Hc'; reflexivity]
        | destruct (generate_questions_effect env c 5 w1 answer_text Hcall1)
            as (w2 & Hrun & Hs2);
          rewrite Hrun ]
    end.
    simpl in Hs2. rewrite Hown in Hs2. rewrite lookup_insert_eq in Hs2.
    unfold set_sessions; simpl. rewrite Hs2, lookup_insert_eq.
    eexists. eexists. eexists. split; [reflexivity|]. simpl.
    rewrite lookup_insert_eq. split; [reflexivity|]. simpl.
    split; [reflexivity|]. split; [reflexivity|]. split; [reflexivity|].
    split.
    + intros other_quiz Hother. now apply lookup_insert_ne.
    + intros other Hother. rewrite !lookup_insert_ne by congruence. reflexivity.
Qed.

Lemma start_quiz_effects_witness :
  exists r w' sd',
    start_quiz (Sample2.env_replying Sample2.two_questions) Sample2.handle
      Sample2.world_with_quiz = (Ret r, w') /\
    sessions w' !! session_id Sample2.handle = Some sd' /\
    memory sd' =
      memory Sample2.session_with_quiz ++
      [(questions_prompt (Sample2.env_replying Sample2.two_questions) 5,
        Sample2.two_questions)] /\
    chain sd' = Some Sample2.the_chain /\
    active_quizzes sd' =
      <[started_quiz_id r :=
          {| questions := started_questions r; answers := empty; current_question := 0 |}]>
        (active_quizzes Sample2.session_with_quiz) /\
    (forall other_quiz, other_quiz <> started_quiz_id r ->
       active_quizzes sd' !! other_quiz =
       active_quizzes Sample2.session_with_quiz !! other_quiz) /\
    (forall other, other <> session_id Sample2.handle ->
       sessions w' !! other = sessions Sample2.world_with_quiz !! other).
Proof.
  apply (start_quiz_effects (Sample2.env_replying Sample2.two_questions)
           Sample2.handle Sample2.world_with_quiz Sample2.session_with_quiz
           Sample2.the_chain Sample2.two_questions).
  - discriminate.
  - vm_compute. reflexivity.
  - vm_compute. reflexivity.
  - reflexivity.
  - reflexivity.
Defined.

Lemma same_quizzes_refl w : same_quizzes w w.
Proof. split; reflexivity. Qed.

Lemma same_quizzes_trans w1 w2 w3 :
  same_quizzes w1 w2 -> same_quizzes w2 w3 -> same_quizzes w1 w3.
Proof.
  intros [H12 G12] [H23 G23]. split; [| congruence].
  intros sid q. now rewrite H23, H12.
Qed.

Lemma same_sessions_same_quizzes w w' :
  sessions w' = sessions w -> global_vectorstore w' = global_vectorstore w ->
  same_quizzes w w'.
Proof.
  intros Hs Hg. split; [| exact Hg]. intros sid q. unfold lookup_quiz. now rewrite Hs.
Qed.

Lemma the_data_outcome session otherwise w r w' :
  the_data session otherwise w = (r, w') ->
  w' = w /\
  match r with
  | Ret sd => sessions w !! session_id session = Some sd
  | Raise _ => True
  end.
Proof.
  unfold the_data, session_data, raise.
  destruct (data session).
  - destruct (sessions w !! session_id session) as [sd|] eqn:Hs;
      inversion 1; subst; split; auto.
  - inversion 1; subst; split; auto.
Qed.

(** Making sure the session has a chain changes no quiz. *)
Lemma ensure_chain_outcome sid sd w r w' :
  sessions w !! sid = Some sd ->
  match chain sd with
  | Some _ => ret tt
  | None => create_chain sid
  end w = (r, w') ->
  same_quizzes w w' /\ uuid_draws w' = uuid_draws w.
Proof.
  intros Hs.
  destruct (chain sd).
  - unfold ret. inversion 1; subst. split; [apply same_quizzes_refl | reflexivity].
  - unfold create_chain, get_world, bind.
    destruct (global_vectorstore w) as [store|] eqn:Hg.
    + unfold update_session, modify, set_sessions. rewrite Hs. inversion 1; subst.
      split; [| reflexivity]. split; [| reflexivity].
      intros sid' q. unfold lookup_quiz; simpl.
      destruct (decide (sid = sid')) as [<-|Hne].
      * now rewrite lookup_insert_eq, Hs.
      * now rewrite lookup_insert_ne.
    + unfold raise. inversion 1; subst.
      split; [apply same_quizzes_refl | reflexivity].
Qed.

Lemma generate_questions_raises env c n w e w' :
  generate_questions env c n w = (Raise e, w') ->
  sessions w' = sessions w /\ global_vectorstore w' = global_vectorstore w.
Proof.
  intros H.
  destruct (call_chain_run env c (questions_prompt env n) w) as (w1 & Hrun & _ & Hg1).
  destruct (chain_call env (chain_calls w) (retriever c) (chain_memory c w)
              (questions_prompt env n)) as [answer|e0].
  - destruct Hrun as [Hrun _].
    destruct (build_questions_draws env (question_lines answer) w1)
      as (w2 & Hbuild & _).
    unfold generate_questions, bind in H. rewrite Hrun, Hbuild in H. discriminate.
  - destruct Hrun as [Hrun Hs1].
    unfold generate_questions, bind in H. rewrite Hrun in H. inversion H; subst.
    split; assumption.
Qed.

(** X8: whenever [start_quiz] raises (no session data, no index to build a
    chain from, a failing chain call), no quiz has been created or changed in
    any session and the vector store is as it was. *)
Theorem failed_start_creates_no_quiz env session w e w' :
  start_quiz env session w = (Raise e, w') ->
  same_quizzes w w'.
Proof.
  unfold start_quiz. intros H.
  apply bind_raises in H as [H | (sd & w1 & H1 & H)].
  { apply the_data_outcome in H as [-> _]. apply same_quizzes_refl. }
  apply the_data_outcome in H1 as [-> Hs].
  apply bind_raises in H as [H | ([] & w2 & H2 & H)].
  { now apply (ensure_chain_outcome _ _ _ _ _ Hs) in H as [H _]. }
  apply (ensure_chain_outcome _ _ _ _ _ Hs) in H2 as [H2 _].
  apply (same_quizzes_trans _ _ _ H2).
  apply bind_raises in H as [H | (quiz_id & w3 & H3 & H)].
  { unfold uuid4_str in H. discriminate. }
  assert (same_quizzes w2 w3) as H23.
  { unfold uuid4_str in H3. inversion H3; subst.
    apply same_sessions_same_quizzes; reflexivity. }
  apply (same_quizzes_trans _ _ _ H23).
  apply bind_raises in H as [H | (sd' & w4 & H4 & H)].
  { unfold session_data in H.
    destruct (sessions w3 !! session_id session); inversion H; subst.
    apply same_quizzes_refl. }
  assert (w4 = w3) as ->.
  { unfold session_data in H4.
    destruct (sessions w3 !! session_id session); inversion H4; reflexivity. }
  destruct (chain sd') as [c|].
  - apply bind_raises in H as [H | (qs & w5 & _ & H)].
    + apply generate_questions_raises in H as [Hs5 Hg5].
      now apply same_sessions_same_quizzes.
    + apply bind_raises in H as [H | (u & w6 & _ & H)].
      * unfold update_session, modify in H. discriminate.
      * unfold ret in H. discriminate.
  - unfold raise in H. inversion H; subst. apply same_quizzes_refl.
Qed.

Lemma failed_start_creates_no_quiz_witness :
  same_quizzes Sample2.world_with_stale_session
    (snd (start_quiz (Sample2.env_replying "")
            {| session_id := Sample2.sid; data := Some Sample2.stale_session |}
            Sample2.world_with_stale_session)).
Proof.
  apply (failed_start_creates_no_quiz (Sample2.env_replying "")
           {| session_id := Sample2.sid; data := Some Sample2.stale_session |}
           Sample2.world_with_stale_session
           (PyError "Exception" "Vectorstore not initialized")).
  vm_compute. reflexivity.
Defined.

(** ** Reading the result *)

Lemma accepted_call_has_data quiz_id question_id answer session w r w' :
  submit_answer quiz_id question_id answer session w = (Ret r, w') ->
  data session <> None.
Proof.
  unfold submit_answer, bind, logger, raise, the_data; simpl.
  destruct (Py.uuid_parses quiz_id && Py.uuid_parses question_id); simpl;
    [| discriminate].
  destruct (data session); [discriminate | discriminate].
Qed.

(** [get_quiz_result] on a session that has a chain reads and changes
    nothing. *)
Lemma get_quiz_result_run quiz_id session w sd quiz :
  data session <> None ->
  sessions w !! session_id session = Some sd ->
  active_quizzes sd !! quiz_id = Some quiz ->
  chain sd <> None ->
  get_quiz_result quiz_id session w =
    (Ret {| result_quiz_id := quiz_id;
            result_answers := evaluated_answers quiz;
            total_questions := Z.of_nat (length (questions quiz));
            answered_questions := Z.of_nat (size (answers quiz)) |}, w).
Proof.
  intros Hd Hs Hq Hc.
  unfold get_quiz_result, the_data, session_data, bind, ret.
  destruct (data session); [| congruence].
  rewrite Hs, Hq. destruct (chain sd); [reflexivity | congruence].
Qed.

(** X9: after an accepted [submit_answer], [get_quiz_result] (the session
    having a chain) pairs every question that carries the submitted identifier
    with the submitted answer, and every other question with the answer it had
    before or with the text for a missing answer; it reports the number of
    questions and of stored answers, and changes nothing. *)
Theorem submitted_answer_is_reported quiz_id question_id answer session w r w1 sd0 :
  submit_answer quiz_id question_id answer session w = (Ret r, w1) ->
  sessions w !! session_id session = Some sd0 ->
  chain sd0 <> None ->
  exists quiz,
    lookup_quiz (session_id session) quiz_id w = Some quiz /\
    get_quiz_result quiz_id session w1 =
      (Ret {| result_quiz_id := quiz_id;
              result_answers :=
                map (fun q =>
                       (question q,
                        if String.eqb (id q) question_id then user_answer answer
                        else default "No answer provided" (answers quiz !! id q)))
                    (questions quiz);
              total_questions := Z.of_nat (length (questions quiz));
              answered_questions :=
                Z.of_nat (match answers quiz !! question_id with
                          | Some _ => size (answers quiz)
                          | None => S (size (answers quiz))
                          end) |}, w1).
Proof.
  intros Hrun Hsd0 Hchain0.
  assert (forall sd, sessions w !! session_id session = Some sd -> chain sd <> None)
    as Hchain by (intros sd Hsd; congruence).
  pose proof (accepted_call_has_data _ _ _ _ _ _ _ Hrun) as Hd.
  pose proof (Server2_Facts.submit_answer_step quiz_id question_id answer session w)
    as H.
  rewrite Hrun in H. destruct H as (sd & quiz & _ & _ & Hs & Hz & _ & Hw & _).
  exists quiz. split; [unfold lookup_quiz; now rewrite Hs|].
  rewrite (get_quiz_result_run quiz_id session w1
             (set_active_quizzes
                (<[quiz_id := {| questions := questions quiz;
                                 answers := <[question_id := user_answer answer]>
                                              (answers quiz);
                                 current_question := current_question quiz + 1 |}]>
                   (active_quizzes sd)) sd)
             {| questions := questions quiz;
                answers := <[question_id := user_answer answer]> (answers quiz);
                current_question := current_question quiz + 1 |}).
  - unfold evaluated_answers; simpl.
    rewrite map_size_insert.
    rewrite (map_ext
               (fun q => (question q,
                          default "No answer provided"
                            (<[question_id := user_answer answer]> (answers quiz) !! id q)))
               (fun q => (question q,
                          if String.eqb (id q) question_id then user_answer answer
                          else default "No answer provided" (answers quiz !! id q)))).
    + destruct (answers quiz !! question_id); reflexivity.
    + intros q. f_equal.
      destruct (String.eqb_spec (id q) question_id) as [->|Hne].
      * now rewrite lookup_insert_eq.
      * rewrite lookup_insert_ne by congruence. reflexivity.
  - exact Hd.
  - rewrite Hw. apply lookup_insert_eq.
  - simpl. apply lookup_insert_eq.
  - simpl. now apply Hchain.
Qed.

Lemma submitted_answer_is_reported_witness :
  exists quiz,
    lookup_quiz (session_id Sample2.handle) Sample2.quiz1 Sample2.world_with_chain
      = Some quiz /\
    get_quiz_result Sample2.quiz1 Sample2.handle
      (snd (submit_answer Sample2.quiz1 Sample2.question1 Sample2.answer1
              Sample2.handle Sample2.world_with_chain)) =
      (Ret {| result_quiz_id := Sample2.quiz1;
              result_answers :=
                map (fun q =>
                       (question q,
                        if String.eqb (id q) Sample2.question1
                        then user_answer Sample2.answer1
                        else default "No answer provided" (answers quiz !! id q)))
                    (questions quiz);
              total_questions := Z.of_nat (length (questions quiz));
              answered_questions :=
                Z.of_nat (match answers quiz !! Sample2.question1 with
                          | Some _ => size (answers quiz)
                          | None => S (size (answers quiz))
                          end) |},
       snd (submit_answer Sample2.quiz1 Sample2.question1 Sample2.answer1
              Sample2.handle Sample2.world_with_chain)).
Proof.
  apply (submitted_answer_is_reported Sample2.quiz1 Sample2.question1
           Sample2.answer1 Sample2.handle Sample2.world_with_chain
           {| status := "success"; quiz_complete := true;
              stored_answer := "pharma software" |}
           (snd (submit_answer Sample2.quiz1 Sample2.question1 Sample2.answer1
                   Sample2.handle Sample2.world_with_chain))
           Sample2.session_with_chain).
  - vm_compute. reflexivity.
  - vm_compute. reflexivity.
  - discriminate.
Defined.

End Server2_More.
(** * Further properties of server3.py *)

Module Server3_More.

Import Server3.
Import Server3_Facts.

(** ** Documents and users *)

(** X10: [get_pdf_text] never raises; an unreadable file reads as the empty
    text; and once a path has been read, reading it again gives the same text
    and changes nothing (no second read, no second log line). *)
Theorem pdf_text_is_read_once env path w :
  exists text w1,
    get_pdf_text env path w = (Ret text, w1) /\
    get_pdf_text env path w1 = (Ret text, w1) /\
    user_sessions w1 = user_sessions w /\
    global_vectorstore w1 = global_vectorstore w /\
    (pdf_cache w !! path = None ->
     match read_pdf env path with
     | Ret t => text = t /\ app_logs w1 = app_logs w
     | Raise e =>
         text = "" /\
         app_logs w1 =
           app_logs w ++
           [Logged "ERROR" ("Error reading " ++ path ++ ": " ++ exn_message e)%string]
     end).
Proof.
  unfold get_pdf_text at 1. unfold get_world, bind at 1.
  destruct (pdf_cache w !! path) as [cached|] eqn:Hc.
  - exists cached, w. unfold ret. split; [reflexivity|]. split.
    + unfold get_pdf_text, get_world, bind, ret. now rewrite Hc.
    + repeat split. discriminate.
  - destruct (read_pdf env path) as [t|e] eqn:Hr;
      unfold logger, write_log, modify, set_pdf_cache, ret, bind; simpl.
    + eexists. eexists. split; [reflexivity|]. split.
      * unfold get_pdf_text, get_world, bind, ret; simpl.
        now rewrite lookup_insert_eq.
      * repeat split.
    + eexists. eexists. split; [reflexivity|]. split.
      * unfold get_pdf_text, get_world, bind, ret; simpl.
        now rewrite lookup_insert_eq.
      * repeat split.
Qed.

(** X11: [get_user_state] gives a user it has not seen the default state
    (empty memory and history, no chain, the default system message), stores
    it and logs the arrival; a user it has seen gets the stored state and
    nothing changes; no other user is touched, and asking again returns the
    same state and changes nothing. *)
Theorem user_state_is_created_once user_id w :
  exists u w1,
    get_user_state user_id w = (Ret u, w1) /\
    user_sessions w1 !! user_id = Some u /\
    get_user_state user_id w1 = (Ret u, w1) /\
    (forall other, other <> user_id ->
       user_sessions w1 !! other = user_sessions w !! other) /\
    global_vectorstore w1 = global_vectorstore w /\
    match user_sessions w !! user_id with
    | Some known => u = known /\ w1 = w
    | None =>
        u = new_user_state /\
        app_logs w1 = app_logs w ++ [Event "UserJoined" user_id "New user state created."]
    end.
Proof.
  unfold get_user_state at 1. unfold get_world, bind at 1.
  destruct (user_sessions w !! user_id) as [known|] eqn:Hu.
  - exists known, w. unfold ret. split; [reflexivity|]. split; [assumption|].
    split; [unfold get_user_state, get_world, bind, ret; now rewrite Hu|].
    repeat split.
  - unfold log_event, write_log, modify, set_user_sessions, ret, bind; simpl.
    eexists. eexists. split; [reflexivity|]. simpl.
    split; [apply lookup_insert_eq|].
    split; [unfold get_user_state, get_world, bind, ret; simpl;
            now rewrite lookup_insert_eq|].
    split; [intros other Hother; apply lookup_insert_ne; congruence|].
    repeat split.
Qed.

(** ** Binding a chain *)

(** X12: [create_or_refresh_user_chain] for a user without a chain (a new
    user included) never binds one.  Without an index it reports failure.
    With an index it stores the vocabulary of the index for the user and
    then raises [NameError], [LLMChain] not being bound: no chain and no
    rewriting chain is stored, and the same call fails again in the same
    way.  Memory, history and system message are kept, and no other user is
    touched. *)
Theorem chain_binding_raises env user_id w :
  chain (default new_user_state (user_sessions w !! user_id)) = None ->
  exists w1 u1 w2,
    create_or_refresh_user_chain env user_id w =
      (match global_vectorstore w with
       | Some _ => Raise (PyError "NameError" "name 'LLMChain' is not defined")
       | None => Ret (false, "Global vectorstore is not initialized.")
       end, w1) /\
    user_sessions w1 !! user_id = Some u1 /\
    chain u1 = None /\
    semantic_chain u1 =
      semantic_chain (default new_user_state (user_sessions w !! user_id)) /\
    fuzzy_corpus u1 =
      match global_vectorstore w with
      | Some store => Some (create_fuzzy_corpus env store)
      | None => fuzzy_corpus (default new_user_state (user_sessions w !! user_id))
      end /\
    memory u1 = memory (default new_user_state (user_sessions w !! user_id)) /\
    history u1 = history (default new_user_state (user_sessions w !! user_id)) /\
    system_message u1 =
      system_message (default new_user_state (user_sessions w !! user_id)) /\
    (forall other, other <> user_id ->
       user_sessions w1 !! other = user_sessions w !! other) /\
    global_vectorstore w1 = global_vectorstore w /\
    create_or_refresh_user_chain env user_id w1 =
      (match global_vectorstore w with
       | Some _ => Raise (PyError "NameError" "name 'LLMChain' is not defined")
       | None => Ret (false, "Global vectorstore is not initialized.")
       end, w2) /\
    user_sessions w2 = user_sessions w1.
Proof.
  intros Hnone.
  destruct (create_or_refresh_run env user_id w Hnone) as (w1 & Hrun & Hs & Hg & _).
  set (u := default new_user_state (user_sessions w !! user_id)) in *.
  set (u1 := match global_vectorstore w with
             | Some store => set_fuzzy_corpus (Some (create_fuzzy_corpus env store)) u
             | None => u
             end).
  assert (user_sessions w1 !! user_id = Some u1) as Hu1
    by (rewrite Hs; apply lookup_insert_eq).
  assert (chain u1 = None) as Hc1
    by (unfold u1; destruct (global_vectorstore w); simpl; exact Hnone).
  destruct (create_or_refresh_run env user_id w1) as (w2 & Hrun2 & Hs2 & _).
  { rewrite Hu1. exact Hc1. }
  rewrite Hg in Hrun2.
  exists w1, u1, w2. split; [exact Hrun|]. split; [exact Hu1|]. split; [exact Hc1|].
  split; [unfold u1; destruct (global_vectorstore w); reflexivity|].
  split; [unfold u1; destruct (global_vectorstore w); reflexivity|].
  split; [unfold u1; destruct (global_vectorstore w); reflexivity|].
  split; [unfold u1; destruct (global_vectorstore w); reflexivity|].
  split; [unfold u1; destruct (global_vectorstore w); reflexivity|].
  split; [intros other Hother; rewrite Hs; apply lookup_insert_ne; congruence|].
  split; [exact Hg|]. split; [exact Hrun2|].
  rewrite Hs2, Hg, Hu1. cbv zeta. simpl.
  apply insert_id. rewrite Hu1. f_equal.
  unfold u1. destruct (global_vectorstore w); reflexivity.
Qed.

Lemma chain_binding_raises_witness :
  exists w1 u1 w2,
    create_or_refresh_user_chain (Sample3.env_with "Ubik" true true) Sample3.user
      Sample3.indexed_world =
      (match global_vectorstore Sample3.indexed_world with
       | Some _ => Raise (PyError "NameError" "name 'LLMChain' is not defined")
       | None => Ret (false, "Global vectorstore is not initialized.")
       end, w1) /\
    user_sessions w1 !! Sample3.user = Some u1 /\
    chain u1 = None /\
    semantic_chain u1 =
      semantic_chain
        (default new_user_state (user_sessions Sample3.indexed_world !! Sample3.user)) /\
    fuzzy_corpus u1 =
      match global_vectorstore Sample3.indexed_world with
      | Some store =>
          Some (create_fuzzy_corpus (Sample3.env_with "Ubik" true true) store)
      | None =>
          fuzzy_corpus
            (default new_user_state
               (user_sessions Sample3.indexed_world !! Sample3.user))
      end /\
    memory u1 =
      memory
        (default new_user_state (user_sessions Sample3.indexed_world !! Sample3.user)) /\
    history u1 =
      history
        (default new_user_state (user_sessions Sample3.indexed_world !! Sample3.user)) /\
    system_message u1 =
      system_message
        (default new_user_state (user_sessions Sample3.indexed_world !! Sample3.user)) /\
    (forall other, other <> Sample3.user ->
       user_sessions w1 !! other = user_sessions Sample3.indexed_world !! other) /\
    global_vectorstore w1 = global_vectorstore Sample3.indexed_world /\
    create_or_refresh_user_chain (Sample3.env_with "Ubik" true true) Sample3.user w1 =
      (match global_vectorstore Sample3.indexed_world with
       | Some _ => Raise (PyError "NameError" "name 'LLMChain' is not defined")
       | None => Ret (false, "Global vectorstore is not initialized.")
       end, w2) /\
    user_sessions w2 = user_sessions w1.
Proof.
  apply (chain_binding_raises (Sample3.env_with "Ubik" true true) Sample3.user
           Sample3.indexed_world).
  reflexivity.
Defined.

(** The sample user in the indexed world: the call raises. *)
Example binding_raises_with_an_index :
  fst (create_or_refresh_user_chain (Sample3.env_with "Ubik" true true) Sample3.user
         Sample3.indexed_world) =
    Raise (PyError "NameError" "name 'LLMChain' is not defined").
Proof. vm_compute. reflexivity. Qed.

(** ** The system message *)

Lemma get_system_message_run user_id w u :
  user_id <> "" ->
  user_sessions w !! user_id = Some u ->
  get_system_message user_id w = (Ret (SystemMessage "success" (system_message u)), w).
Proof.
  intros Hne Hu.
  assert (Py.truthy user_id = true) as Ht by (destruct user_id; [congruence | reflexivity]).
  unfold get_system_message, get_user_state, get_world, bind, ret.
  rewrite Ht; simpl. now rewrite Hu.
Qed.


(** X13: [set_system_message] with a user and a message that are not empty
    stores the message for the user (a new user included), keeps memory and
    history and drops the chain, whatever comes of the request:
    [get_system_message] afterwards returns the message.  The request itself
    never reports success: without an index the reply has status ["error"],
    with an index the [NameError] of the chain binding leaves the endpoint
    and no reply is returned. *)
Theorem system_message_is_stored env data user_id new_message w :
  data !! "user_id" = Some user_id ->
  data !! "system_message" = Some new_message ->
  user_id <> "" ->
  new_message <> "" ->
  exists w1 u1,
    set_system_message env (Some data) w =
      (match global_vectorstore w with
       | Some _ => Raise (PyError "NameError" "name 'LLMChain' is not defined")
       | None =>
           Ret (StatusMessage "error"
                  "System message updated. Global vectorstore is not initialized.")
       end, w1) /\
    user_sessions w1 !! user_id = Some u1 /\
    system_message u1 = new_message /\
    chain u1 = None /\
    memory u1 = memory (default new_user_state (user_sessions w !! user_id)) /\
    history u1 = history (default new_user_state (user_sessions w !! user_id)) /\
    (forall other, other <> user_id ->
       user_sessions w1 !! other = user_sessions w !! other) /\
    global_vectorstore w1 = global_vectorstore w /\
    get_system_message user_id w1 = (Ret (SystemMessage "success" new_message), w1).
Proof.
  intros Hid Hmsg Hne Hmne.
  assert (Py.truthy user_id = true) as Ht by (destruct user_id; [congruence | reflexivity]).
  assert (Py.truthy new_message = true) as Htm
    by (destruct new_message; [congruence | reflexivity]).
  set (u := default new_user_state (user_sessions w !! user_id)).
  destruct (get_user_state_run user_id w) as (wa & Hget & Hsa & Hga & _).
  destruct (update_user_run user_id (set_system_message_of new_message) wa u)
    as (wb & Hupd1 & Hsb & Hgb & _); [rewrite Hsa; apply lookup_insert_eq|].
  destruct (update_user_run user_id (set_chain None) wb
              (set_system_message_of new_message u))
    as (wc & Hupd2 & Hsc & Hgc & _); [rewrite Hsb; apply lookup_insert_eq|].
  set (uc := set_chain None (set_system_message_of new_message u)) in *.
  assert (user_sessions wc = <[user_id := uc]> (user_sessions w)) as Hswc
    by (rewrite Hsc, Hsb, Hsa, !insert_insert_eq; reflexivity).
  destruct (create_or_refresh_run env user_id wc) as (wd & Hcr & Hsd & Hgd & _).
  { rewrite Hswc, lookup_insert_eq. reflexivity. }
  assert (global_vectorstore wc = global_vectorstore w) as Hgw by congruence.
  rewrite Hgw, Hswc, lookup_insert_eq in Hsd. cbv zeta in Hsd. simpl in Hsd.
  rewrite insert_insert_eq in Hsd. rewrite Hgw in Hcr.
  set (ud := match global_vectorstore w with
             | Some store => set_fuzzy_corpus (Some (create_fuzzy_corpus env store)) uc
             | None => uc
             end) in *.
  assert (exists w1,
            set_system_message env (Some data) w =
              (match global_vectorstore w with
               | Some _ => Raise (PyError "NameError" "name 'LLMChain' is not defined")
               | None =>
                   Ret (StatusMessage "error"
                          "System message updated. Global vectorstore is not initialized.")
               end, w1) /\
            user_sessions w1 = user_sessions wd /\
            global_vectorstore w1 = global_vectorstore wd) as (w1 & Hrun & Hs1 & Hg1).
  { unfold set_system_message. cbv zeta. rewrite Hid, Hmsg.
    change (default "" (Some user_id)) with user_id.
    change (default "" (Some new_message)) with new_message.
    rewrite Ht, Htm. cbn [negb orb].
    rewrite (bind_ret_eq _ _ _ _ _ Hget), (bind_ret_eq _ _ _ _ _ Hupd1),
      (bind_ret_eq _ _ _ _ _ Hupd2).
    destruct (global_vectorstore w) as [store|].
    - exists wd. split; [| split; reflexivity]. now apply bind_raise_eq.
    - rewrite (bind_ret_eq _ _ _ _ _ Hcr).
      destruct (log_event_run "SystemMessageUpdated"
                  ("System message updated to: " ++ new_message) user_id wd)
        as (we & Hlog & Hse & Hge & _).
      exists we. split; [| split; assumption].
      rewrite (bind_ret_eq _ _ _ _ _ Hlog). reflexivity. }
  assert (user_sessions w1 !! user_id = Some ud) as Hu1
    by (rewrite Hs1, Hsd; apply lookup_insert_eq).
  exists w1, ud. split; [exact Hrun|]. split; [exact Hu1|].
  split; [unfold ud; destruct (global_vectorstore w); reflexivity|].
  split; [unfold ud; destruct (global_vectorstore w); reflexivity|].
  split; [unfold ud; destruct (global_vectorstore w); reflexivity|].
  split; [unfold ud; destruct (global_vectorstore w); reflexivity|].
  split; [intros other Hother; rewrite Hs1, Hsd; apply lookup_insert_ne; congruence|].
  split; [congruence|].
  rewrite (get_system_message_run user_id w1 ud Hne Hu1).
  unfold ud. destruct (global_vectorstore w); reflexivity.
Qed.

Lemma system_message_is_stored_witness :
  exists w1 u1,
    set_system_message (Sample3.env_with "Ubik" true true)
      (Some {[ "user_id" := Sample3.user; "system_message" := "Answer in French." ]})
      Sample3.indexed_world =
      (match global_vectorstore Sample3.indexed_world with
       | Some _ => Raise (PyError "NameError" "name 'LLMChain' is not defined")
       | None =>
           Ret (StatusMessage "error"
                  "System message updated. Global vectorstore is not initialized.")
       end, w1) /\
    user_sessions w1 !! Sample3.user = Some u1 /\
    system_message u1 = "Answer in French." /\
    chain u1 = None /\
    memory u1 =
      memory
        (default new_user_state (user_sessions Sample3.indexed_world !! Sample3.user)) /\
    history u1 =
      history
        (default new_user_state (user_sessions Sample3.indexed_world !! Sample3.user)) /\
    (forall other, other <> Sample3.user ->
       user_sessions w1 !! other = user_sessions Sample3.indexed_world !! other) /\
    global_vectorstore w1 = global_vectorstore Sample3.indexed_world /\
    get_system_message Sample3.user w1 =
      (Ret (SystemMessage "success" "Answer in French."), w1).
Proof.
  apply (system_message_is_stored (Sample3.env_with "Ubik" true true)
           {[ "user_id" := Sample3.user; "system_message" := "Answer in French." ]}
           Sample3.user "Answer in French." Sample3.indexed_world).
  - vm_compute. reflexivity.
  - vm_compute. reflexivity.
  - discriminate.
  - discriminate.
Defined.

(** ** The worlds the server reaches *)

(** X14: no chain is ever bound.  Starting from the empty table, whatever
    requests are served (start-up, refresh, ask, set or get the system
    message, clear, logout), with whatever payloads and surroundings, every
    user state in the table has no conversation chain and no rewriting
    chain, and its memory and its history are empty: no turn of conversation
    is ever recorded. *)
Theorem no_chain_is_ever_bound env requests :
  chainless (after_requests env requests initial_world).
Proof. apply reached_worlds_are_chainless, chainless_initial. Qed.

(** X21: [refresh_chain] never reports success.  In every world the server
    reaches, a request that names a user gets the status ["error"] while
    there is no index, and fails with the [NameError] of the chain binding
    once there is one. *)
Theorem refresh_chain_never_succeeds env requests data user_id :
  data !! "user_id" = Some user_id ->
  exists w1,
    refresh_chain env (Some data) (after_requests env requests initial_world) =
      (match global_vectorstore (after_requests env requests initial_world) with
       | Some _ => Raise (PyError "NameError" "name 'LLMChain' is not defined")
       | None => Ret (StatusMessage "error" "Global vectorstore is not initialized.")
       end, w1).
Proof.
  intros Hid.
  destruct (create_or_refresh_chainless env user_id
              (after_requests env requests initial_world))
    as (w1 & Hrun & _).
  { apply reached_worlds_are_chainless, chainless_initial. }
  unfold refresh_chain. rewrite Hid.
  destruct (global_vectorstore (after_requests env requests initial_world)).
  - exists w1. now apply bind_raise_eq.
  - exists w1. rewrite (bind_ret_eq _ _ _ _ _ Hrun). reflexivity.
Qed.

Lemma refresh_chain_never_succeeds_witness :
  exists w1,
    refresh_chain (Sample3.env_with "Ubik" true true)
      (Some {[ "user_id" := Sample3.user ]})
      (after_requests (Sample3.env_with "Ubik" true true)
         [StartUp; GetSystemMessage Sample3.user] initial_world) =
      (match global_vectorstore
               (after_requests (Sample3.env_with "Ubik" true true)
                  [StartUp; GetSystemMessage Sample3.user] initial_world) with
       | Some _ => Raise (PyError "NameError" "name 'LLMChain' is not defined")
       | None => Ret (StatusMessage "error" "Global vectorstore is not initialized.")
       end, w1).
Proof.
  apply (refresh_chain_never_succeeds (Sample3.env_with "Ubik" true true)
           [StartUp; GetSystemMessage Sample3.user]
           {[ "user_id" := Sample3.user ]} Sample3.user).
  vm_compute. reflexivity.
Defined.

(** ** Clearing and logging out *)

Lemma clear_history_run data user_id w u :
  data !! "user_id" = Some user_id ->
  user_id <> "" ->
  user_sessions w !! user_id = Some u ->
  exists w1,
    clear_history (Some data) w =
      (Ret (StatusMessage "success" "Chat history cleared."), w1) /\
    user_sessions w1 =
      <[user_id := {| memory := [];
                      chain := None;
                      history := [];
                      system_message := system_message u;
                      fuzzy_corpus := fuzzy_corpus u;
                      semantic_chain := semantic_chain u |}]> (user_sessions w) /\
    global_vectorstore w1 = global_vectorstore w /\
    external_calls w1 = external_calls w.
Proof.
  intros Hid Hne Hu.
  assert (Py.truthy user_id = true) as Ht by (destruct user_id; [congruence | reflexivity]).
  destruct (update_user_run user_id (set_memory []) w u Hu)
    as (wa & Hupd1 & Hsa & Hga & Hea & _).
  destruct (update_user_run user_id (set_history []) wa (set_memory [] u))
    as (wb & Hupd2 & Hsb & Hgb & Heb & _); [rewrite Hsa; apply lookup_insert_eq|].
  destruct (update_user_run user_id (set_chain None) wb (set_history [] (set_memory [] u)))
    as (wc & Hupd3 & Hsc & Hgc & Hec & _); [rewrite Hsb; apply lookup_insert_eq|].
  destruct (log_event_run "HistoryCleared" "User cleared their chat history." user_id wc)
    as (wd & Hlog & Hsd & Hgd & Hed & _).
  exists wd. split.
  - unfold clear_history. cbv zeta. rewrite Hid.
    change (default "" (Some user_id)) with user_id. rewrite Ht. cbn [negb].
    rewrite (bind_ret_eq get_world _ w w w eq_refl). rewrite Hu.
    rewrite (bind_ret_eq _ _ _ _ _ Hupd1), (bind_ret_eq _ _ _ _ _ Hupd2),
      (bind_ret_eq _ _ _ _ _ Hupd3), (bind_ret_eq _ _ _ _ _ Hlog).
    reflexivity.
  - split; [| split; congruence].
    rewrite Hsd, Hsc, Hsb, Hsa, !insert_insert_eq. reflexivity.
Qed.

(** X16: [clear_history] for a known user empties the user's memory and
    history and drops the chain, keeps the system message, the vocabulary and
    the rewriting chain, and touches no other user; for an unknown user it
    answers with an error and changes nothing (no state is created). *)
Theorem clear_history_resets_one_user data user_id w :
  data !! "user_id" = Some user_id ->
  user_id <> "" ->
  exists reply w1,
    clear_history (Some data) w = (Ret reply, w1) /\
    global_vectorstore w1 = global_vectorstore w /\
    (forall other, other <> user_id ->
       user_sessions w1 !! other = user_sessions w !! other) /\
    match user_sessions w !! user_id with
    | Some u =>
        reply = StatusMessage "success" "Chat history cleared." /\
        user_sessions w1 !! user_id =
          Some {| memory := [];
                  chain := None;
                  history := [];
                  system_message := system_message u;
                  fuzzy_corpus := fuzzy_corpus u;
                  semantic_chain := semantic_chain u |}
    | None =>
        reply = StatusMessage "error" "No user session found to clear." /\
        w1 = w
    end.
Proof.
  intros Hid Hne.
  destruct (user_sessions w !! user_id) as [u|] eqn:Hu.
  - destruct (clear_history_run data user_id w u Hid Hne Hu) as (w1 & Hrun & Hs & Hg & _).
    eexists. exists w1. split; [exact Hrun|]. split; [exact Hg|].
    split; [intros other Hother; rewrite Hs; apply lookup_insert_ne; congruence|].
    split; [reflexivity|]. rewrite Hs. apply lookup_insert_eq.
  - assert (Py.truthy user_id = true) as Ht
      by (destruct user_id; [congruence | reflexivity]).
    eexists. exists w. split.
    + unfold clear_history. cbv zeta. rewrite Hid.
      change (default "" (Some user_id)) with user_id. rewrite Ht. cbn [negb].
      rewrite (bind_ret_eq get_world _ w w w eq_refl). rewrite Hu. reflexivity.
    + repeat split.
Qed.

Lemma clear_history_resets_one_user_witness :
  exists reply w1,
    clear_history (Some {[ "user_id" := Sample3.user ]})
      (Sample3.world [Sample3.earlier_turn]) = (Ret reply, w1) /\
    global_vectorstore w1 = global_vectorstore (Sample3.world [Sample3.earlier_turn]) /\
    (forall other, other <> Sample3.user ->
       user_sessions w1 !! other =
       user_sessions (Sample3.world [Sample3.earlier_turn]) !! other) /\
    match user_sessions (Sample3.world [Sample3.earlier_turn]) !! Sample3.user with
    | Some u =>
        reply = StatusMessage "success" "Chat history cleared." /\
        user_sessions w1 !! Sample3.user =
          Some {| memory := [];
                  chain := None;
                  history := [];
                  system_message := system_message u;
                  fuzzy_corpus := fuzzy_corpus u;
                  semantic_chain := semantic_chain u |}
    | None =>
        reply = StatusMessage "error" "No user session found to clear." /\
        w1 = Sample3.world [Sample3.earlier_turn]
    end.
Proof.
  apply (clear_history_resets_one_user {[ "user_id" := Sample3.user ]} Sample3.user
           (Sample3.world [Sample3.earlier_turn])).
  - vm_compute. reflexivity.
  - discriminate.
Defined.

(** X17: [logout] removes the user and nobody else and always answers with
    success; the configured system message goes with the state, so that
    [get_system_message] afterwards answers with the default message. *)
Theorem logout_forgets_the_user data user_id w :
  data !! "user_id" = Some user_id ->
  user_id <> "" ->
  exists w1 w2,
    logout (Some data) w =
      (Ret (StatusMessage "success" "User session cleared."), w1) /\
    user_sessions w1 !! user_id = None /\
    (forall other, other <> user_id ->
       user_sessions w1 !! other = user_sessions w !! other) /\
    global_vectorstore w1 = global_vectorstore w /\
    get_system_message user_id w1 =
      (Ret (SystemMessage "success" DEFAULT_SYSTEM_MESSAGE), w2).
Proof.
  intros Hid Hne.
  assert (Py.truthy user_id = true) as Ht by (destruct user_id; [congruence | reflexivity]).
  unfold logout. cbv zeta. rewrite Hid.
  change (default "" (Some user_id)) with user_id. rewrite Ht. cbn [negb].
  unfold modify, set_user_sessions, ret, bind; simpl.
  eexists. eexists. split; [reflexivity|]. simpl.
  split; [apply lookup_delete_eq|].
  split; [intros other Hother; apply lookup_delete_ne; congruence|].
  split; [reflexivity|].
  unfold get_system_message, get_user_state, get_world, log_event, write_log, modify,
    set_user_sessions, ret, bind.
  rewrite Ht; simpl. rewrite lookup_delete_eq. reflexivity.
Qed.

Lemma logout_forgets_the_user_witness :
  exists w1 w2,
    logout (Some {[ "user_id" := Sample3.user ]}) (Sample3.world [Sample3.earlier_turn]) =
      (Ret (StatusMessage "success" "User session cleared."), w1) /\
    user_sessions w1 !! Sample3.user = None /\
    (forall other, other <> Sample3.user ->
       user_sessions w1 !! other =
       user_sessions (Sample3.world [Sample3.earlier_turn]) !! other) /\
    global_vectorstore w1 = global_vectorstore (Sample3.world [Sample3.earlier_turn]) /\
    get_system_message Sample3.user w1 =
      (Ret (SystemMessage "success" DEFAULT_SYSTEM_MESSAGE), w2).
Proof.
  apply (logout_forgets_the_user {[ "user_id" := Sample3.user ]} Sample3.user
           (Sample3.world [Sample3.earlier_turn])).
  - vm_compute. reflexivity.
  - discriminate.
Defined.

(** ** Asking *)

(** X19: asking before the index exists.  For a user without a chain and
    without a rewriting chain (a user never seen, or one who has only set a
    system message), and no index, [ask_question] does not answer with its
    error reply: [handle_userinput] reads the missing key ['semantic_chain']
    and the request ends in a [KeyError]; the user's state stays registered. *)
Theorem ask_without_index_raises env data user_id user_question w u :
  data !! "user_id" = Some user_id ->
  data !! "question" = Some user_question ->
  global_vectorstore w = None ->
  default new_user_state (user_sessions w !! user_id) = u ->
  chain u = None ->
  semantic_chain u = None ->
  exists w1,
    ask_question env (Some data) w =
      (Raise (PyError "KeyError" "'semantic_chain'"), w1) /\
    user_sessions w1 = <[user_id := u]> (user_sessions w) /\
    global_vectorstore w1 = None.
Proof.
  intros Hid Hq Hg Hdef Hc Hsc.
  destruct (create_or_refresh_run env user_id w) as (wa & Hcr & Hsa & Hga & _).
  { rewrite Hdef. exact Hc. }
  rewrite Hg, Hdef in Hsa. cbv zeta in Hsa. rewrite Hg in Hcr.
  destruct (get_user_state_run user_id wa) as (wb & Hget & Hsb & Hgb & _).
  rewrite Hsa, lookup_insert_eq in Hget, Hsb. simpl in Hget, Hsb.
  rewrite insert_insert_eq in Hsb.
  exists wb. split; [| split; [exact Hsb | congruence]].
  unfold ask_question. rewrite Hid, Hq.
  rewrite (bind_ret_eq get_world _ w w w eq_refl).
  assert ((match user_sessions w !! user_id with
           | Some u0 =>
               match chain u0 with
               | None => create_or_refresh_user_chain env user_id ;;; ret tt
               | Some _ => ret tt
               end
           | None => create_or_refresh_user_chain env user_id ;;; ret tt
           end)%py w = (Ret tt, wa)) as Hprep.
  { destruct (user_sessions w !! user_id) as [u0|] eqn:Hu0; simpl in Hdef.
    - subst u0. rewrite Hc. rewrite (bind_ret_eq _ _ _ _ _ Hcr). reflexivity.
    - rewrite (bind_ret_eq _ _ _ _ _ Hcr). reflexivity. }
  rewrite (bind_ret_eq _ _ _ _ _ Hprep).
  apply bind_raise_eq.
  unfold handle_userinput. rewrite (bind_ret_eq _ _ _ _ _ Hget).
  rewrite Hsc. reflexivity.
Qed.

Lemma ask_without_index_raises_witness :
  exists w1,
    ask_question (Sample3.env_with "Ubik" true true)
      (Some {[ "user_id" := Sample3.user; "question" := Sample3.the_question ]})
      Sample3.fresh_world =
      (Raise (PyError "KeyError" "'semantic_chain'"), w1) /\
    user_sessions w1 =
      <[Sample3.user := new_user_state]> (user_sessions Sample3.fresh_world) /\
    global_vectorstore w1 = None.
Proof.
  apply (ask_without_index_raises (Sample3.env_with "Ubik" true true)
           {[ "user_id" := Sample3.user; "question" := Sample3.the_question ]}
           Sample3.user Sample3.the_question Sample3.fresh_world new_user_state).
  - vm_compute. reflexivity.
  - vm_compute. reflexivity.
  - reflexivity.
  - reflexivity.
  - reflexivity.
  - reflexivity.
Defined.

End Server3_More.

(** * Further properties of the index build *)

Module Index_More.

Lemma get_pdf_text3_unreadable env path w e :
  Server3.pdf_cache w !! path = None ->
  Server3.read_pdf env path = Raise e ->
  exists w1,
    Server3.get_pdf_text env path w = (Ret "", w1) /\
    Server3.pdf_cache w1 = <[path := ""]> (Server3.pdf_cache w) /\
    Server3.global_vectorstore w1 = Server3.global_vectorstore w /\
    Server3.user_sessions w1 = Server3.user_sessions w.
Proof.
  intros Hc Hr.
  unfold Server3.get_pdf_text, get_world, bind at 1. rewrite Hc, Hr.
  unfold Server3.logger, Server3.write_log, modify, Server3.set_pdf_cache, ret, bind; simpl.
  eexists. split; [reflexivity|]. repeat split.
Qed.

Lemma get_pdf_text3_cached env path w text :
  Server3.pdf_cache w !! path = Some text ->
  Server3.get_pdf_text env path w = (Ret text, w).
Proof.
  intros Hc. unfold Server3.get_pdf_text, get_world, bind, ret. now rewrite Hc.
Qed.

(** X23: in [server3.py] a document that could not be read stays unreadable.
    When no document can be read, the build reports that no text could be
    extracted and publishes no store; the empty texts are cached, so that a
    later build, whatever the files have become, reports the same failure. *)
Theorem unreadable_documents_stay_unreadable env w :
  Server3.global_vectorstore w = None ->
  (forall path, In path Server3.pdf_paths -> Server3.pdf_cache w !! path = None) ->
  (forall path, In path Server3.pdf_paths ->
     exists e, Server3.read_pdf env path = Raise e) ->
  exists w1,
    Server3.initialize_global_vectorstore env w =
      (Ret (false, "No text could be extracted from the PDFs."), w1) /\
    Server3.global_vectorstore w1 = None /\
    Server3.user_sessions w1 = Server3.user_sessions w /\
    forall later,
      Server3.initialize_global_vectorstore later w1 =
        (Ret (false, "No text could be extracted from the PDFs."), w1).
Proof.
  intros Hg Hcache Hread. unfold Server3.pdf_paths in Hcache, Hread.
  destruct (Hread _ (or_introl eq_refl)) as (e1 & Hr1).
  destruct (Hread _ (or_intror (or_introl eq_refl))) as (e2 & Hr2).
  destruct (Hread _ (or_intror (or_intror (or_introl eq_refl)))) as (e3 & Hr3).
  destruct (Hread _ (or_intror (or_intror (or_intror (or_introl eq_refl)))))
    as (e4 & Hr4).
  pose proof (Hcache _ (or_introl eq_refl)) as Hc1.
  pose proof (Hcache _ (or_intror (or_introl eq_refl))) as Hc2.
  pose proof (Hcache _ (or_intror (or_intror (or_introl eq_refl)))) as Hc3.
  pose proof (Hcache _ (or_intror (or_intror (or_intror (or_introl eq_refl))))) as Hc4.
  destruct (get_pdf_text3_unreadable env _ w e1 Hc1 Hr1) as (wa & Ha & Hca & Hga & Hua).
  destruct (get_pdf_text3_unreadable env "data/UBIK SOLUTION.pdf" wa e2)
    as (wb & Hb & Hcb & Hgb & Hub);
    [rewrite Hca, lookup_insert_ne by discriminate; exact Hc2 | exact Hr2 |].
  destruct (get_pdf_text3_unreadable env "data/illesh3.pdf" wb e3)
    as (wc & Hc & Hcc & Hgc & Huc);
    [rewrite Hcb, Hca, !lookup_insert_ne by discriminate; exact Hc3 | exact Hr3 |].
  destruct (get_pdf_text3_unreadable env "data/website-data-ik.pdf" wc e4)
    as (wd & Hd & Hcd & Hgd & Hud);
    [rewrite Hcc, Hcb, Hca, !lookup_insert_ne by discriminate; exact Hc4 | exact Hr4 |].
  assert (Server3.global_vectorstore wd = None) as Hgw by congruence.
  exists wd. split; [| split; [exact Hgw | split; [congruence|]]].
  - assert (Server3.combine_texts env Server3.pdf_paths "" w = (Ret "    ", wd))
      as Hcomb.
    { unfold Server3.pdf_paths. cbn [Server3.combine_texts].
      rewrite (Server3_Facts.bind_ret_eq _ _ _ _ _ Ha).
      rewrite (Server3_Facts.bind_ret_eq _ _ _ _ _ Hb).
      rewrite (Server3_Facts.bind_ret_eq _ _ _ _ _ Hc).
      rewrite (Server3_Facts.bind_ret_eq _ _ _ _ _ Hd).
      reflexivity. }
    unfold Server3.initialize_global_vectorstore.
    rewrite (Server3_Facts.bind_ret_eq get_world _ w w w eq_refl). rewrite Hg.
    rewrite (Server3_Facts.bind_ret_eq _ _ _ _ _ Hcomb).
    reflexivity.
  - intros later.
    assert (Server3.pdf_cache wd !! "data/Ilesh Sir (IK) - Words.pdf" = Some "") as H1
      by (rewrite Hcd, Hcc, Hcb, Hca, !lookup_insert_ne by discriminate;
          apply lookup_insert_eq).
    assert (Server3.pdf_cache wd !! "data/UBIK SOLUTION.pdf" = Some "") as H2
      by (rewrite Hcd, Hcc, Hcb, !lookup_insert_ne by discriminate;
          apply lookup_insert_eq).
    assert (Server3.pdf_cache wd !! "data/illesh3.pdf" = Some "") as H3
      by (rewrite Hcd, Hcc, !lookup_insert_ne by discriminate;
          apply lookup_insert_eq).
    assert (Server3.pdf_cache wd !! "data/website-data-ik.pdf" = Some "") as H4
      by (rewrite Hcd; apply lookup_insert_eq).
    assert (Server3.combine_texts later Server3.pdf_paths "" wd = (Ret "    ", wd))
      as Hcomb.
    { unfold Server3.pdf_paths. cbn [Server3.combine_texts].
      rewrite (Server3_Facts.bind_ret_eq _ _ _ _ _ (get_pdf_text3_cached later _ _ _ H1)).
      rewrite (Server3_Facts.bind_ret_eq _ _ _ _ _ (get_pdf_text3_cached later _ _ _ H2)).
      rewrite (Server3_Facts.bind_ret_eq _ _ _ _ _ (get_pdf_text3_cached later _ _ _ H3)).
      rewrite (Server3_Facts.bind_ret_eq _ _ _ _ _ (get_pdf_text3_cached later _ _ _ H4)).
      reflexivity. }
    unfold Server3.initialize_global_vectorstore.
    rewrite (Server3_Facts.bind_ret_eq get_world _ wd wd wd eq_refl). rewrite Hgw.
    rewrite (Server3_Facts.bind_ret_eq _ _ _ _ _ Hcomb).
    reflexivity.
Qed.

Lemma unreadable_documents_stay_unreadable_witness :
  exists w1,
    Server3.initialize_global_vectorstore Sample3.env_unreadable Sample3.fresh_world =
      (Ret (false, "No text could be extracted from the PDFs."), w1) /\
    Server3.global_vectorstore w1 = None /\
    Server3.user_sessions w1 = Server3.user_sessions Sample3.fresh_world /\
    forall later,
      Server3.initialize_global_vectorstore later w1 =
        (Ret (false, "No text could be extracted from the PDFs."), w1).
Proof.
  apply (unreadable_documents_stay_unreadable Sample3.env_unreadable Sample3.fresh_world).
  - reflexivity.
  - intros path _. reflexivity.
  - intros path _. eexists. reflexivity.
Defined.

Lemma combine_texts2_raises env before path after e : forall acc w,
  (forall q, In q before -> exists text, Server2.read_pdf env q = Ret text) ->
  Server2.read_pdf env path = Raise e ->
  Server2.combine_texts env (before ++ path :: after) acc w = (Raise e, w).
Proof.
  induction before as [|q rest IH]; intros acc w Hbefore Hpath; simpl.
  - unfold bind, Server2.get_pdf_text, lift. now rewrite Hpath.
  - destruct (Hbefore q (or_introl eq_refl)) as (text & Hq).
    unfold bind at 1, Server2.get_pdf_text, lift. rewrite Hq.
    apply IH; [| exact Hpath]. intros q' Hin. apply Hbefore. now right.
Qed.

(** X24: in [server2.py] one unreadable document stops start-up.  When a
    document of the list cannot be read (the ones before it can), the
    exception of that read leaves [startup_event]; no store is published and
    nothing else changes, so that [create_chain] afterwards raises for every
    session. *)
Theorem unreadable_document_stops_startup env w before path after e sid :
  Server2.global_vectorstore w = None ->
  Server2.PDF_PATHS = before ++ path :: after ->
  (forall q, In q before -> exists text, Server2.read_pdf env q = Ret text) ->
  Server2.read_pdf env path = Raise e ->
  Server2.startup_event env w = (Raise e, w) /\
  Server2.create_chain sid w =
    (Raise (PyError "Exception" "Vectorstore not initialized"), w).
Proof.
  intros Hg Hpaths Hbefore Hpath. split.
  - unfold Server2.startup_event, Server2.initialize_vectorstore.
    unfold bind at 1, get_world. cbv beta iota. rewrite Hg, Hpaths.
    unfold bind at 1. rewrite (combine_texts2_raises env before path after e "" w Hbefore Hpath).
    reflexivity.
  - unfold Server2.create_chain, bind, get_world, raise. now rewrite Hg.
Qed.

Lemma unreadable_document_stops_startup_witness :
  Server2.startup_event Sample2.env_missing_file Sample2.fresh_world =
    (Raise (PyError "FileNotFoundError" "data/illesh3.pdf"), Sample2.fresh_world) /\
  Server2.create_chain Sample2.sid Sample2.fresh_world =
    (Raise (PyError "Exception" "Vectorstore not initialized"), Sample2.fresh_world).
Proof.
  apply (unreadable_document_stops_startup Sample2.env_missing_file Sample2.fresh_world
           ["data/Ilesh Sir (IK) - Words.pdf"; "data/UBIK SOLUTION.pdf"]
           "data/illesh3.pdf" ["data/website-data-ik.pdf"]
           (PyError "FileNotFoundError" "data/illesh3.pdf") Sample2.sid).
  - reflexivity.
  - reflexivity.
  - intros q [<-|[<-|[]]]; eexists; reflexivity.
  - reflexivity.
Defined.

End Index_More.
